(** * xt_WGOBFS: obfuscation of WireGuard datagrams

    A shallow embedding of [src/kernel/xt_WGOBFS_main.c] and the properties of
    its encode path ([xt_obfs], [obfs_wg], [obfs_mac2], [get_random_insert],
    [random_drop_wg_keepalive]) and decode path ([xt_unobfs], [restore_wg],
    [restore_mac2]).

    The C functions work in place on the bytes of a socket buffer through a
    pointer [buf] to the UDP payload.  The embedding keeps that shape: a
    machine state holds the memory around [buf], addressed by the offset from
    [buf], and every function is a computation in a small state monad whose
    primitive steps are the loads and stores of the C code. *)

From Stdlib Require Import ZArith List Bool Lia.
Import ListNotations.
Local Open Scope Z_scope.

(** ** Constants of the source *)

Definition WG_HANDSHAKE_INIT : Z := 0x01.
Definition WG_HANDSHAKE_RESP : Z := 0x02.
Definition WG_COOKIE : Z := 0x03.
Definition WG_DATA : Z := 0x04.
Definition OBFS_WG_HANDSHAKE_INIT : Z := 0x11.
Definition OBFS_WG_HANDSHAKE_RESP : Z := 0x12.
Definition WG_MIN_LEN : Z := 32.
Definition MAX_RND_LEN : Z := 32.
Definition MIN_RND_LEN : Z := 4.

(** Modelled from the spec: [CHACHA8_INPUT_SIZE] of chacha8.h, which is not
    among the sources.  The keystream seed is "the last 8 bytes" of a
    message. *)
Definition CHACHA8_INPUT_SIZE : Z := 8.

(** Modelled from the spec: [WG_COOKIE_LEN] of wg.h, which is not among the
    sources.  The tag field (mac2) of a handshake message is 16 bytes. *)
Definition WG_COOKIE_LEN : nat := 16.

(** Modelled from the spec: the offset of [macs.mac2] in the two handshake
    structs of wg.h, which is not among the sources.  mac2 is the trailing
    16-byte field of a 148-byte initiation and of a 92-byte response. *)
Definition HSI_MAC2 : Z := 132.
Definition HSR_MAC2 : Z := 76.

(** A value stored into a [u8] lvalue keeps its low 8 bits. *)
Definition u8 (x : Z) : Z := x mod 256.

Definition is_u8 (x : Z) : Prop := 0 <= x < 256.

(** ** Machine state *)

(** What a computation did, newest event first.  Offsets are relative to
    [buf], the first byte of the UDP payload. *)
Inductive event : Type :=
| EvLoad (off : Z)      (* a byte of the packet was read *)
| EvStore (off : Z)     (* a byte of the packet was written *)
| EvHash (off : Z)      (* chacha8_hash was called on the 8 bytes at [off] *)
| EvRandom.             (* get_random_bytes_wait filled a block *)

Record machine : Type := Machine {
  pkt : Z -> Z;          (* memory around the payload, by offset from [buf] *)
  draws : nat;           (* blocks taken from the entropy source so far *)
  trace : list event
}.

(** [struct obfs_buf]. *)
Record obfs_buf : Type := ObfsBuf {
  rnd : list Z;          (* u8 rnd[MAX_RND_LEN] *)
  chacha_out : list Z;   (* u8 chacha_out[CHACHA8_OUTPUT_SIZE] *)
  rnd_len : Z            (* u8 rnd_len *)
}.

(** The netfilter verdicts the two targets return.  [XT_CONTINUE] carries the
    payload length that the rewritten [udph->len] stands for. *)
Inductive verdict : Type :=
| NF_DROP
| XT_CONTINUE (data_len : Z).

(** ** The monad: state, and [None] for a loop that has not finished within
    the fuel it was given. *)

Definition M (A : Type) : Type := machine -> option (A * machine).

Definition ret {A : Type} (a : A) : M A := fun s => Some (a, s).

Definition bind {A B : Type} (c : M A) (k : A -> M B) : M B :=
  fun s => match c s with
           | Some (a, s') => k a s'
           | None => None
           end.

Definition out_of_fuel {A : Type} : M A := fun _ => None.

Declare Scope wg_scope.
Delimit Scope wg_scope with wg.
Notation "x <- c ;; k" := (bind c (fun x => k))
  (at level 61, c at next level, right associativity) : wg_scope.
Notation "c ;; k" := (bind c (fun _ => k))
  (at level 61, right associativity) : wg_scope.
Local Open Scope wg_scope.

Definition log (e : event) : M unit :=
  fun s => Some (tt, Machine (pkt s) (draws s) (e :: trace s)).

(** [*p] for a [u8 *p] at offset [off]. *)
Definition load (off : Z) : M Z :=
  fun s => Some (pkt s off, Machine (pkt s) (draws s) (EvLoad off :: trace s)).

Definition upd (m : Z -> Z) (off v : Z) : Z -> Z :=
  fun j => if j =? off then v else m j.

(** [*p = v]. *)
Definition store (off v : Z) : M unit :=
  fun s => Some (tt, Machine (upd (pkt s) off v) (draws s)
                             (EvStore off :: trace s)).

(** The [n] bytes from offset [off] on, lowest address first. *)
Fixpoint load_bytes (n : nat) (off : Z) : M (list Z) :=
  match n with
  | O => ret []
  | S n' => b <- load off ;;
            bs <- load_bytes n' (off + 1) ;;
            ret (b :: bs)
  end.

(** [memcpy(buf + dst, src + i, n)] from a local array into the packet. *)
Fixpoint memcpy_in (n : nat) (dst : Z) (src : list Z) (i : nat) : M unit :=
  match n with
  | O => ret tt
  | S n' => store dst (nth i src 0) ;;
            memcpy_in n' (dst + 1) src (S i)
  end.

(** [a[0] = v] on a local array. *)
Definition set_head (v : Z) (a : list Z) : list Z :=
  match a with
  | [] => []
  | _ :: t => v :: t
  end.

(** ** Reading states *)

Definition offsets (off : Z) (n : nat) : list Z :=
  map (fun i => off + Z.of_nat i) (seq 0 n).

(** The [len] payload bytes of a state. *)
Definition payload (s : machine) (len : Z) : list Z :=
  map (pkt s) (offsets 0 (Z.to_nat len)).

(** A state whose payload is [m]; every other byte of memory is [fill]. *)
Definition boot (m : list Z) (fill : Z) : machine :=
  Machine (fun j => if j <? 0 then fill else nth (Z.to_nat j) m fill) O [].

Definition state_of {A : Type} (r : option (A * machine)) : machine :=
  match r with
  | Some (_, s) => s
  | None => boot [] 0
  end.

Definition value_of {A : Type} (d : A) (r : option (A * machine)) : A :=
  match r with
  | Some (a, _) => a
  | None => d
  end.

Definition loads (t : list event) : list Z :=
  flat_map (fun e => match e with EvLoad o => [o] | _ => [] end) t.

Definition hashes (t : list event) : list Z :=
  flat_map (fun e => match e with EvHash o => [o] | _ => [] end) t.

Definition stores (t : list event) : list Z :=
  flat_map (fun e => match e with EvStore o => [o] | _ => [] end) t.

(** ** Headers and socket buffer *)

(** Constants of the Linux headers the source includes. *)
Definition IPPROTO_UDP : Z := 17.
Definition CHECKSUM_NONE : Z := 0.
Definition CHECKSUM_PARTIAL : Z := 3.

(** [sizeof(struct udphdr)]. *)
Definition UDPHDR_SIZE : Z := 8.

(** A value stored into a 16-bit field keeps its low 16 bits; a length field
    is kept as its host-order value, so that [htons(ntohs(f) + n)] is
    [u16 (f + n)]. *)
Definition u16 (x : Z) : Z := x mod 65536.

(** The fields outside the UDP payload that the targets read or write. *)
Record skb_meta : Type := SkbMeta {
  iph_protocol : Z;      (* iph->protocol *)
  iph_tos : Z;           (* iph->tos *)
  iph_tot_len : Z;       (* ntohs(iph->tot_len) *)
  iph_check : Z;         (* iph->check *)
  udph_len : Z;          (* ntohs(udph->len) *)
  udph_check : Z;        (* udph->check *)
  ip_summed : Z;         (* skb->ip_summed *)
  skb_len : Z;           (* skb->len *)
  skb_tail : Z;          (* skb->tail *)
  skb_end : Z            (* skb->end *)
}.

Definition with_tos (m : skb_meta) (v : Z) : skb_meta :=
  SkbMeta (iph_protocol m) v (iph_tot_len m) (iph_check m) (udph_len m)
          (udph_check m) (ip_summed m) (skb_len m) (skb_tail m) (skb_end m).

Definition with_tot_len (m : skb_meta) (v : Z) : skb_meta :=
  SkbMeta (iph_protocol m) (iph_tos m) v (iph_check m) (udph_len m)
          (udph_check m) (ip_summed m) (skb_len m) (skb_tail m) (skb_end m).

Definition with_iph_check (m : skb_meta) (v : Z) : skb_meta :=
  SkbMeta (iph_protocol m) (iph_tos m) (iph_tot_len m) v (udph_len m)
          (udph_check m) (ip_summed m) (skb_len m) (skb_tail m) (skb_end m).

Definition with_udph_len (m : skb_meta) (v : Z) : skb_meta :=
  SkbMeta (iph_protocol m) (iph_tos m) (iph_tot_len m) (iph_check m) v
          (udph_check m) (ip_summed m) (skb_len m) (skb_tail m) (skb_end m).

Definition with_udph_check (m : skb_meta) (v : Z) : skb_meta :=
  SkbMeta (iph_protocol m) (iph_tos m) (iph_tot_len m) (iph_check m)
          (udph_len m) v (ip_summed m) (skb_len m) (skb_tail m) (skb_end m).

Definition with_ip_summed (m : skb_meta) (v : Z) : skb_meta :=
  SkbMeta (iph_protocol m) (iph_tos m) (iph_tot_len m) (iph_check m)
          (udph_len m) (udph_check m) v (skb_len m) (skb_tail m) (skb_end m).

Definition with_skb_len (m : skb_meta) (v : Z) : skb_meta :=
  SkbMeta (iph_protocol m) (iph_tos m) (iph_tot_len m) (iph_check m)
          (udph_len m) (udph_check m) (ip_summed m) v (skb_tail m) (skb_end m).

Definition with_skb_tail (m : skb_meta) (v : Z) : skb_meta :=
  SkbMeta (iph_protocol m) (iph_tos m) (iph_tot_len m) (iph_check m)
          (udph_len m) (udph_check m) (ip_summed m) (skb_len m) v (skb_end m).

Definition with_skb_end (m : skb_meta) (v : Z) : skb_meta :=
  SkbMeta (iph_protocol m) (iph_tos m) (iph_tot_len m) (iph_check m)
          (udph_len m) (udph_check m) (ip_summed m) (skb_len m) (skb_tail m) v.

(** What the kernel answers during one call of a target: whether
    [pskb_expand_head] and [skb_ensure_writable] succeed, and how many bytes
    more than asked for the expanded head holds. *)
Record host : Type := Host {
  h_expand : bool;
  h_writable : bool;
  h_slack : Z
}.

(** [skb_tailroom(skb)] of a linear buffer. *)
Definition skb_tailroom (m : skb_meta) : Z := skb_end m - skb_tail m.

(** [skb_put(skb, n)]: the data area grows by [n] bytes at its tail. *)
Definition skb_put (m : skb_meta) (n : Z) : skb_meta :=
  with_skb_len (with_skb_tail m (skb_tail m + n)) (skb_len m + n).

(** [prepare_skb_for_insert]: [None] for the return value -1.
    [pskb_expand_head(skb, 0, extra_len, GFP_ATOMIC)], when it succeeds,
    leaves a head with [extra_len] more bytes of tailroom, or more. *)
Definition prepare_skb_for_insert (h : host) (m : skb_meta) (ntail : Z)
  : option skb_meta :=
  let extra_len := ntail - skb_tailroom m in
  if 0 <? extra_len then
    if h_expand h
    then Some (skb_put (with_skb_end m (skb_end m + extra_len + h_slack h))
                       ntail)
    else None
  else
    if h_writable h then Some (skb_put m ntail) else None.

(** ** Inputs for the worked examples *)

(** A stand-in for the keystream primitive: 64 bytes that depend on every
    seed byte and every key byte. *)
Definition demo_chacha8 (seed key : list Z) : list Z :=
  map (fun i => (fold_left Z.add (seed ++ key) 0 * 31
                 + Z.of_nat i * 7 + 113) mod 256)
      (seq 0 64).

(** An entropy source whose first block has no byte in 4..32 and whose second
    block offers 10 after two rejected bytes. *)
Definition demo_entropy (n i : nat) : Z :=
  match n with
  | O => 200
  | S O => nth i [3; 33; 10; 7; 250] 0
  | _ => 0
  end.

Definition demo_key : list Z := map Z.of_nat (seq 1 32).

(** A 148-byte handshake initiation with an all-zero mac2. *)
Definition demo_init : list Z :=
  [1; 0; 0; 0] ++ map (fun i => Z.of_nat i * 5 mod 251 + 1) (seq 4 128)
  ++ repeat 0 16.

(** The same initiation with a mac2 whose first four bytes are zero and whose
    fifth is not. *)
Definition demo_init_partial : list Z :=
  [1; 0; 0; 0] ++ map (fun i => Z.of_nat i * 5 mod 251 + 1) (seq 4 128)
  ++ [0; 0; 0; 0; 1] ++ repeat 0 11.

(** A 148-byte initiation that carries a cookie mac2. *)
Definition demo_init_cookie : list Z :=
  [1; 0; 0; 0] ++ map (fun i => Z.of_nat i * 5 mod 251 + 1) (seq 4 128)
  ++ map (fun i => Z.of_nat i + 9) (seq 0 16).

(** A 33-byte data message. *)
Definition demo_data : list Z :=
  [4; 0; 0; 0] ++ map (fun i => Z.of_nat i + 100) (seq 4 29).

(** A 40-byte buffer whose type byte is no WireGuard kind. *)
Definition demo_unknown : list Z :=
  [5; 0; 0; 0] ++ map (fun i => Z.of_nat i + 60) (seq 4 36).

(** A 240-byte data message. *)
Definition demo_big : list Z := 4 :: repeat 7 239.

(** 36 bytes that decode to a padding length of 76. *)
Definition demo_truncated : list Z := map Z.of_nat (seq 1 36).

(** 40 bytes that decode to a padding length of 0. *)
Definition demo_zero_prefix : list Z := 45 :: map Z.of_nat (seq 2 39).

(** 40 bytes that decode, behind 4 bytes of padding, to 36 bytes whose first
    byte is 0x11, the mark of an initiation with a randomised tag. *)
Definition demo_marked : list Z :=
  41 :: 2 :: 3 :: 4 :: 172 :: map Z.of_nat (seq 6 35).

(** The headers of a 33-byte message on its way out: tos 0x88, checksum left
    to the driver, and 3 bytes of tailroom. *)
Definition demo_meta : skb_meta :=
  SkbMeta IPPROTO_UDP 0x88 61 0 41 0 CHECKSUM_PARTIAL 61 61 64.

(** The headers of the 43-byte datagram as received. *)
Definition demo_meta_rx : skb_meta :=
  SkbMeta IPPROTO_UDP 0 71 0 51 0 CHECKSUM_NONE 71 71 128.

(** A kernel that can expand and write, and rounds the new head up by 22. *)
Definition demo_host : host := Host true true 22.

Definition demo_ip_check (protocol tos tot_len : Z) : Z :=
  (protocol + tos + tot_len) mod 65536.

Definition demo_udp_check (len : Z) (bytes : list Z) : Z :=
  fold_left Z.add bytes len mod 65536.

(** Stack content for [struct obfs_buf ob] with [n] in the slot of
    [rnd_len]. *)
Definition demo_ob (n : Z) : obfs_buf := ObfsBuf (repeat 0 32) (repeat 0 64) n.

Section WGObfs.

(** Modelled from the spec: [chacha8_hash] of chacha8.h and chacha8.c, which
    are not among the sources.  The spec takes it as a black box
    [hash(seed: 8 bytes, key) -> keystream bytes]; the callers pass the address
    of the 8 input bytes. *)
Variable chacha8 : list Z -> list Z -> list Z.

(** The host entropy source behind [get_random_bytes_wait]: byte [i] of the
    [n]-th block drawn. *)
Variable entropy : nat -> nat -> Z.

Definition chacha8_hash (input : Z) (key : list Z) : M (list Z) :=
  seed <- load_bytes (Z.to_nat CHACHA8_INPUT_SIZE) input ;;
  log (EvHash input) ;;
  ret (chacha8 seed key).

(** [get_random_bytes_wait(buf, MAX_RND_LEN)]: the next block. *)
Definition get_random_bytes_wait : M (list Z) :=
  fun s => Some (map (entropy (draws s)) (seq 0 (Z.to_nat MAX_RND_LEN)),
                 Machine (pkt s) (S (draws s)) (EvRandom :: trace s)).

(** The [for] loop of [get_random_insert]: [n] iterations remain, [i] is the
    loop index, [r] the value of the variable [r] on entry. *)
Fixpoint scan_block (n i : nat) (buf : list Z) (min_len max_len r : Z) : Z :=
  match n with
  | O => r
  | S n' =>
      if (min_len <=? nth i buf 0) && (nth i buf 0 <=? max_len)
      then nth i buf 0
      else scan_block n' (S i) buf min_len max_len r
  end.

(** [get_random_insert]: the [while (1)] loop runs at most [fuel] times.  The
    result is [r] together with the block left in [buf]. *)
Fixpoint get_random_insert (fuel : nat) (min_len max_len : Z)
  : M (Z * list Z) :=
  match fuel with
  | O => out_of_fuel
  | S fuel' =>
      buf <- get_random_bytes_wait ;;
      let r := scan_block (Z.to_nat MAX_RND_LEN) 0 buf min_len max_len 0 in
      if 0 <? r then ret (r, buf)
      else get_random_insert fuel' min_len max_len
  end.

(** [*np] for [np = (u32 * ) mac2]: the four bytes as one word. *)
Definition load_u32 (off : Z) : M Z :=
  b0 <- load off ;;
  b1 <- load (off + 1) ;;
  b2 <- load (off + 2) ;;
  b3 <- load (off + 3) ;;
  ret (Z.lor b0 (Z.lor (Z.shiftl b1 8)
                       (Z.lor (Z.shiftl b2 16) (Z.shiftl b3 24)))).

(** The body shared by the two branches of [obfs_mac2], for the mac2 field at
    offset [mac2]. *)
Definition obfs_mac2_at (mac2 : Z) (ob : obfs_buf) (k : list Z)
  : M obfs_buf :=
  np <- load_u32 mac2 ;;
  if negb (np =? 0) then ret ob
  else
    out <- chacha8_hash 8 k ;;
    memcpy_in WG_COOKIE_LEN mac2 out 0 ;;
    t <- load 0 ;;
    store 0 (u8 (Z.lor t 0x10)) ;;
    ret (ObfsBuf (rnd ob) out (rnd_len ob)).

Definition obfs_mac2 (data_len : Z) (ob : obfs_buf) (k : list Z)
  : M obfs_buf :=
  type <- load 0 ;;
  if (type =? WG_HANDSHAKE_INIT) && (data_len =? 148)
  then obfs_mac2_at HSI_MAC2 ob k
  else if (type =? WG_HANDSHAKE_RESP) && (data_len =? 92)
  then obfs_mac2_at HSR_MAC2 ob k
  else ret ob.

Definition random_drop_wg_keepalive (len : Z) (key : list Z) : M bool :=
  type <- load 0 ;;
  if negb (type =? WG_DATA) || negb (len =? 32) then ret false
  else
    buf_prn <- chacha8_hash (len - CHACHA8_INPUT_SIZE) key ;;
    if 50 <? nth 0 buf_prn 0 then ret true else ret false.

(** [for (i = 0; i < 16; i++, b++) *b ^= out[i]]: [n] iterations remain. *)
Fixpoint xor_head (n : nat) (b : Z) (i : nat) (out : list Z) : M unit :=
  match n with
  | O => ret tt
  | S n' => v <- load b ;;
            store b (u8 (Z.lxor v (nth i out 0))) ;;
            xor_head n' (b + 1) (S i) out
  end.

(** [for (i = 0; i < len; i++, tail--, b--) *b = *tail]. *)
Fixpoint shift_back (n : nat) (tail b : Z) : M unit :=
  match n with
  | O => ret tt
  | S n' => v <- load tail ;;
            store b v ;;
            shift_back n' (tail - 1) (b - 1)
  end.

(** The bytes [memcpy] finds from [ob->rnd] on: the struct's fields in the
    order of their declaration.  Past the struct the stack is not modelled and
    reads as 0. *)
Definition ob_bytes (ob : obfs_buf) : list Z :=
  rnd ob ++ chacha_out ob ++ [rnd_len ob].

Definition obfs_wg (len : Z) (ob : obfs_buf) (key : list Z) : M obfs_buf :=
  ob1 <- obfs_mac2 len ob key ;;
  out <- chacha8_hash (len - CHACHA8_INPUT_SIZE) key ;;
  let n := rnd_len ob1 in
  let ob2 := ObfsBuf (set_head (u8 (Z.lxor n (nth 16 out 0))) (rnd ob1))
                     out n in
  xor_head 16 0 0 out ;;
  shift_back (Z.to_nat len) (len - 1) (len - 1 + n) ;;
  memcpy_in (Z.to_nat n) 0 (ob_bytes ob2) 0 ;;
  ret ob2.

(** [xt_obfs] on a payload of [wg_data_len] bytes.  [ob] is the content the
    stack happens to hold where [struct obfs_buf ob] is declared without an
    initialiser; [expand_ok] tells whether [prepare_skb_for_insert] succeeds.
    The function keeps the selected length in its local [rnd_len] (here [n])
    and fills [ob.rnd]; it never assigns [ob.rnd_len], which [obfs_wg] reads.
    The IP and UDP header fields the function rewrites (tos, lengths,
    checksums) are outside the payload and not modelled, except for the new
    payload length. *)
Definition xt_obfs (key : list Z) (expand_ok : bool) (ob : obfs_buf)
  (fuel : nat) (wg_data_len : Z) : M verdict :=
  drop <- random_drop_wg_keepalive wg_data_len key ;;
  if drop then ret NF_DROP
  else
    let max_rnd_len := if 200 <? wg_data_len then 8 else MAX_RND_LEN in
    r <- get_random_insert fuel MIN_RND_LEN max_rnd_len ;;
    let n := fst r in
    let ob' := ObfsBuf (snd r) (chacha_out ob) (rnd_len ob) in
    if negb expand_ok then ret NF_DROP
    else
      obfs_wg wg_data_len ob' key ;;
      ret (XT_CONTINUE (wg_data_len + n)).

Definition zero_mac2 : list Z := repeat 0 WG_COOKIE_LEN.

Definition restore_mac2 : M unit :=
  t <- load 0 ;;
  (if t =? OBFS_WG_HANDSHAKE_INIT
   then memcpy_in WG_COOKIE_LEN HSI_MAC2 zero_mac2 0
   else if t =? OBFS_WG_HANDSHAKE_RESP
   then memcpy_in WG_COOKIE_LEN HSR_MAC2 zero_mac2 0
   else ret tt) ;;
  t' <- load 0 ;;
  store 0 (u8 (Z.land t' 0x0F)).

(** [for (i = 0; i < wg_data_len; i++, head++, b++) *head = *b]. *)
Fixpoint shift_fwd (n : nat) (head b : Z) : M unit :=
  match n with
  | O => ret tt
  | S n' => v <- load b ;;
            store head v ;;
            shift_fwd n' (head + 1) (b + 1)
  end.

Definition restore_wg (len : Z) (key : list Z) : M Z :=
  buf_prn <- chacha8_hash (len - CHACHA8_INPUT_SIZE) key ;;
  b0 <- load 0 ;;
  store 0 (u8 (Z.lxor b0 (nth 16 buf_prn 0))) ;;
  n <- load 0 ;;
  if len <? n + WG_MIN_LEN then ret (-1)
  else
    let wg_data_len := len - n in
    shift_fwd (Z.to_nat wg_data_len) 0 n ;;
    xor_head 16 0 0 buf_prn ;;
    restore_mac2 ;;
    ret n.

(** [xt_unobfs] on a payload of [data_len] bytes; [writable] tells whether
    [skb_ensure_writable] succeeds. *)
Definition xt_unobfs (key : list Z) (writable : bool) (data_len : Z)
  : M verdict :=
  if negb writable then ret NF_DROP
  else if data_len <? MIN_RND_LEN then ret NF_DROP
  else
    n <- restore_wg data_len key ;;
    if n <? 0 then ret NF_DROP
    else ret (XT_CONTINUE (data_len - n)).

(** ** The targets on a socket buffer *)

Section Headers.

(** Modelled from the spec: the two modes of xt_WGOBFS.h, which is not among
    the sources; the spec names them Obfuscate and Deobfuscate.  Their values
    are left open. *)
Variable XT_MODE_OBFS : Z.
Variable XT_MODE_UNOBFS : Z.

(** [ip_send_check] and [csum_tcpudp_magic] over [csum_partial] of the
    kernel, for the packet at hand: the checksum of its IP header given the
    protocol, tos and total length in it, and the UDP checksum given the UDP
    length field and the bytes of the payload, the check field being zero in
    both and the other fields as the packet has them. *)
Variable ip_send_check : Z -> Z -> Z -> Z.
Variable udp_checksum : Z -> list Z -> Z.

(** The lines of [xt_obfs] after [obfs_wg]: tos, total length, IP checksum,
    [ip_summed], UDP length and UDP checksum. *)
Definition obfs_headers (m : skb_meta) (rlen : Z) : M skb_meta :=
  let m := with_tos m 0 in
  let m := with_tot_len m (u16 (iph_tot_len m + rlen)) in
  let m := with_iph_check m 0 in
  let m := with_iph_check m (ip_send_check (iph_protocol m) (iph_tos m)
                                          (iph_tot_len m)) in
  let m := if ip_summed m =? CHECKSUM_PARTIAL
           then with_ip_summed m CHECKSUM_NONE else m in
  let m := with_udph_len m (u16 (udph_len m + rlen)) in
  let m := with_udph_check m 0 in
  bytes <- load_bytes (Z.to_nat (udph_len m - UDPHDR_SIZE)) 0 ;;
  ret (with_udph_check m (udp_checksum (udph_len m) bytes)).

(** [xt_obfs] with the fields of the headers and of the socket buffer: the
    payload length comes from the UDP header, and [prepare_skb_for_insert]
    decides whether the buffer can grow. *)
Definition xt_obfs_skb (key : list Z) (h : host) (ob : obfs_buf)
  (fuel : nat) (m : skb_meta) : M (verdict * skb_meta) :=
  let wg_data_len := udph_len m - UDPHDR_SIZE in
  drop <- random_drop_wg_keepalive wg_data_len key ;;
  if drop then ret (NF_DROP, m)
  else
    let max_rnd_len := if 200 <? wg_data_len then 8 else MAX_RND_LEN in
    r <- get_random_insert fuel MIN_RND_LEN max_rnd_len ;;
    let n := fst r in
    let ob' := ObfsBuf (snd r) (chacha_out ob) (rnd_len ob) in
    match prepare_skb_for_insert h m n with
    | None => ret (NF_DROP, m)
    | Some m1 =>
        obfs_wg wg_data_len ob' key ;;
        m2 <- obfs_headers m1 n ;;
        ret (XT_CONTINUE (udph_len m2 - UDPHDR_SIZE), m2)
    end.

(** The lines of [xt_unobfs] after [restore_wg] has returned [rlen]. *)
Definition unobfs_headers (m : skb_meta) (rlen : Z) : M skb_meta :=
  let m := with_skb_len m (skb_len m - rlen) in
  let m := with_skb_tail m (skb_tail m - rlen) in
  let m := with_tot_len m (u16 (iph_tot_len m - rlen)) in
  let m := with_iph_check m 0 in
  let m := with_iph_check m (ip_send_check (iph_protocol m) (iph_tos m)
                                          (iph_tot_len m)) in
  let m := with_udph_len m (u16 (udph_len m - rlen)) in
  let m := with_udph_check m 0 in
  bytes <- load_bytes (Z.to_nat (udph_len m - UDPHDR_SIZE)) 0 ;;
  ret (with_udph_check m (udp_checksum (udph_len m) bytes)).

(** [xt_unobfs] with the fields of the headers and of the socket buffer. *)
Definition xt_unobfs_skb (key : list Z) (h : host) (m : skb_meta)
  : M (verdict * skb_meta) :=
  if negb (h_writable h) then ret (NF_DROP, m)
  else
    let data_len := udph_len m - UDPHDR_SIZE in
    if data_len <? MIN_RND_LEN then ret (NF_DROP, m)
    else
      n <- restore_wg data_len key ;;
      if n <? 0 then ret (NF_DROP, m)
      else
        m1 <- unobfs_headers m n ;;
        ret (XT_CONTINUE (udph_len m1 - UDPHDR_SIZE), m1).

(** [xt_wg_obfs_target] for a rule of mode [mode].  For a packet it does not
    handle the length carried by [XT_CONTINUE] is the one the untouched UDP
    length field stands for. *)
Definition xt_wg_obfs_target (mode : Z) (key : list Z) (h : host)
  (ob : obfs_buf) (fuel : nat) (m : skb_meta) : M (verdict * skb_meta) :=
  if negb (iph_protocol m =? IPPROTO_UDP)
  then ret (XT_CONTINUE (udph_len m - UDPHDR_SIZE), m)
  else if mode =? XT_MODE_OBFS then xt_obfs_skb key h ob fuel m
  else if mode =? XT_MODE_UNOBFS then xt_unobfs_skb key h m
  else ret (XT_CONTINUE (udph_len m - UDPHDR_SIZE), m).

End Headers.

(** ** Derived notions used by the properties *)

(** The [n] bytes of memory from offset [off] on. *)
Definition bytes_at (s : machine) (off : Z) (n : nat) : list Z :=
  map (pkt s) (offsets off n).

(** The word [obfs_mac2] tests: the first four bytes of the tag field. *)
Definition tag_word (s : machine) (off : Z) : Z :=
  Z.lor (pkt s off)
        (Z.lor (Z.shiftl (pkt s (off + 1)) 8)
               (Z.lor (Z.shiftl (pkt s (off + 2)) 16)
                      (Z.shiftl (pkt s (off + 3)) 24))).

(** The offset of the tag field [obfs_mac2] rewrites in state [s], if any. *)
Definition randomizes (s : machine) (len : Z) : option Z :=
  if (pkt s 0 =? WG_HANDSHAKE_INIT) && (len =? 148)
  then (if tag_word s HSI_MAC2 =? 0 then Some HSI_MAC2 else None)
  else if (pkt s 0 =? WG_HANDSHAKE_RESP) && (len =? 92)
  then (if tag_word s HSR_MAC2 =? 0 then Some HSR_MAC2 else None)
  else None.

(** Memory after [obfs_mac2]. *)
Definition after_mac2 (s : machine) (len : Z) (k : list Z) (j : Z) : Z :=
  match randomizes s len with
  | None => pkt s j
  | Some off =>
      if j =? 0 then u8 (Z.lor (pkt s 0) 0x10)
      else if (off <=? j) && (j <? off + 16)
      then nth (Z.to_nat (j - off)) (chacha8 (bytes_at s 8 8) k) 0
      else pkt s j
  end.

(** Memory after [restore_mac2], from memory [p] before it. *)
Definition restored (p : Z -> Z) (j : Z) : Z :=
  if j =? 0 then u8 (Z.land (p 0) 0x0F)
  else if (p 0 =? OBFS_WG_HANDSHAKE_INIT)
          && (HSI_MAC2 <=? j) && (j <? HSI_MAC2 + 16) then 0
  else if (p 0 =? OBFS_WG_HANDSHAKE_RESP)
          && (HSR_MAC2 <=? j) && (j <? HSR_MAC2 + 16) then 0
  else p j.

(** Bytes 0..15 of memory [p] masked with keystream [ks]. *)
Definition masked (p : Z -> Z) (ks : list Z) (i : Z) : Z :=
  if (0 <=? i) && (i <? 16)
  then u8 (Z.lxor (p i) (nth (Z.to_nat i) ks 0)) else p i.

(** The padding length [restore_wg] recovers from a datagram. *)
Definition recovered_len (key : list Z) (s : machine) (len : Z) : Z :=
  u8 (Z.lxor (pkt s 0) (nth 16 (chacha8 (bytes_at s (len - 8) 8) key) 0)).

(** Memory after the prefix of [n] bytes was stripped from [len] bytes. *)
Definition stripped (p : Z -> Z) (len n : Z) (j : Z) : Z :=
  if (0 <=? j) && (j <? len - n) then upd p 0 n (j + n) else upd p 0 n j.

(** The [d]-th block of the entropy source. *)
Definition block (d : nat) : list Z :=
  map (entropy d) (seq 0 (Z.to_nat MAX_RND_LEN)).

(** The first four bytes of the tag field at [off] are all zero. *)
Definition tag_head_zero (s : machine) (off : Z) : Prop :=
  pkt s off = 0 /\ pkt s (off + 1) = 0 /\ pkt s (off + 2) = 0
  /\ pkt s (off + 3) = 0.

(** The classification of the spec: a buffer is Unknown when its type byte
    is none of the four kinds, or is a handshake kind with another length than
    148 (initiation) or 92 (response). *)
Definition spec_unknown (type len : Z) : Prop :=
  ~ ((type = WG_HANDSHAKE_INIT /\ len = 148)
     \/ (type = WG_HANDSHAKE_RESP /\ len = 92)
     \/ type = WG_COOKIE \/ type = WG_DATA).

(** The recognised kinds with their supported lengths. *)
Definition supported (type len : Z) : Prop :=
  (type = WG_HANDSHAKE_INIT /\ len = 148)
  \/ (type = WG_HANDSHAKE_RESP /\ len = 92)
  \/ ((type = WG_COOKIE \/ type = WG_DATA) /\ 32 <= len).

(** From [s] to [s'] every byte read lies in [lo, hi). *)
Definition reads_within (lo hi : Z) (s s' : machine) : Prop :=
  exists t, trace s' = t ++ trace s
            /\ Forall (fun o => lo <= o < hi) (loads t).

(** The tag field of message [m] at [off] is all zero. *)
Definition tag_zero (m : list Z) (off : nat) : Prop :=
  forall i, (i < 16)%nat -> nth (off + i) m 0 = 0.

(** One of the first four bytes of the tag field is not zero. *)
Definition tag_head_nonzero (m : list Z) (off : nat) : Prop :=
  exists i, (i < 4)%nat /\ nth (off + i) m 0 <> 0.

(** The tag field of a handshake message is empty or visibly in use: it is
    not one that starts with four zero bytes and has a non-zero byte later. *)
Definition tag_unambiguous (m : list Z) : Prop :=
  (nth 0 m 0 = WG_HANDSHAKE_INIT -> tag_zero m 132 \/ tag_head_nonzero m 132)
  /\ (nth 0 m 0 = WG_HANDSHAKE_RESP ->
      tag_zero m 76 \/ tag_head_nonzero m 76).

(** From [s] to [s'] every byte written lies in [lo, hi). *)
Definition writes_within (lo hi : Z) (s s' : machine) : Prop :=
  exists t, trace s' = t ++ trace s
            /\ Forall (fun o => lo <= o < hi) (stores t).

(** From [s] to [s'] the trace has only grown. *)
Definition trace_extends (s s' : machine) : Prop :=
  exists t, trace s' = t ++ trace s.

(** The type byte [restore_wg] hands to [restore_mac2]: the byte behind the
    recovered prefix, unmasked. *)
Definition unmasked_type (key : list Z) (s : machine) (len : Z) : Z :=
  masked (stripped (pkt s) len (recovered_len key s len))
         (chacha8 (bytes_at s (len - 8) 8) key) 0.

(** The keystream [obfs_wg] masks a message with: seeded from the last 8
    bytes that [obfs_mac2] leaves. *)
Definition mask_keystream (s : machine) (len : Z) (key : list Z) : list Z :=
  chacha8 (map (after_mac2 s len key) (offsets (len - 8) 8)) key.

(** ** Bytes *)

Ltac zbool :=
  repeat match goal with
         | |- context [?a =? ?b] => destruct (Z.eqb_spec a b)
         | |- context [?a <=? ?b] => destruct (Z.leb_spec a b)
         | |- context [?a <? ?b] => destruct (Z.ltb_spec a b)
         end;
  simpl; try reflexivity; try lia.

Lemma u8_range (x : Z) : is_u8 (u8 x).
Proof. unfold is_u8, u8. apply Z.mod_pos_bound. lia. Qed.

Lemma u8_small (x : Z) : is_u8 x -> u8 x = x.
Proof. unfold is_u8, u8. intros H. apply Z.mod_small. exact H. Qed.

Lemma u8_land (x : Z) : u8 x = Z.land x 255.
Proof.
  unfold u8. change 256 with (2 ^ 8). change 255 with (Z.ones 8).
  symmetry. apply Z.land_ones. lia.
Qed.

(** Masking twice with the same keystream byte gives the byte back. *)
Lemma u8_lxor_lxor (a k : Z) : u8 (Z.lxor (u8 (Z.lxor a k)) k) = u8 a.
Proof.
  rewrite !u8_land. apply Z.bits_inj'. intros n Hn.
  rewrite !Z.land_spec, !Z.lxor_spec, !Z.land_spec, !Z.lxor_spec.
  destruct (Z.testbit a n), (Z.testbit k n), (Z.testbit 255 n); reflexivity.
Qed.

Lemma lor_zero (a b : Z) : Z.lor a b = 0 <-> a = 0 /\ b = 0.
Proof. apply Z.lor_eq_0_iff. Qed.

Lemma shiftl_zero (a n : Z) : 0 <= n -> (Z.shiftl a n = 0 <-> a = 0).
Proof.
  intros Hn. split; intros H.
  - rewrite Z.shiftl_mul_pow2 in H by exact Hn.
    assert (0 < 2 ^ n) by (apply Z.pow_pos_nonneg; lia). nia.
  - subst. apply Z.shiftl_0_l.
Qed.

(** ** Offsets *)

Lemma offsets_S (off : Z) (n : nat) :
  offsets off (S n) = off :: offsets (off + 1) n.
Proof.
  unfold offsets. simpl. rewrite Z.add_0_r. f_equal.
  rewrite <- seq_shift, map_map. apply map_ext. intros i. lia.
Qed.

Lemma bytes_at_ext (s s' : machine) (off off' : Z) (n : nat) :
  (forall i, 0 <= i < Z.of_nat n -> pkt s (off + i) = pkt s' (off' + i)) ->
  bytes_at s off n = bytes_at s' off' n.
Proof.
  intros H. unfold bytes_at, offsets. rewrite !map_map.
  apply map_ext_in. intros i Hi. apply in_seq in Hi. apply H. lia.
Qed.

Lemma payload_ext (s s' : machine) (len : Z) :
  (forall j, 0 <= j < len -> pkt s j = pkt s' j) ->
  payload s len = payload s' len.
Proof.
  intros H. apply (bytes_at_ext s s' 0 0). intros i Hi. apply H. lia.
Qed.

Lemma payload_nth (s : machine) (len j : Z) :
  0 <= j < len -> nth (Z.to_nat j) (payload s len) 0 = pkt s j.
Proof.
  intros H. unfold payload, offsets. rewrite map_map.
  rewrite (nth_indep _ 0 (pkt s (0 + Z.of_nat 0))) by (rewrite length_map, length_seq; lia).
  rewrite (map_nth (fun i => pkt s (0 + Z.of_nat i))).
  rewrite seq_nth by lia. f_equal. lia.
Qed.

(** ** The loops, as transformations of memory *)

Lemma load_bytes_spec (n : nat) (off : Z) (s : machine) :
  exists t, load_bytes n off s
            = Some (bytes_at s off n, Machine (pkt s) (draws s) t)
            /\ hashes t = hashes (trace s).
Proof.
  revert off s. induction n as [|n IH]; intros off s.
  - exists (trace s). destruct s; split; reflexivity.
  - simpl. unfold bind at 1. unfold load at 1.
    destruct (IH (off + 1) (Machine (pkt s) (draws s) (EvLoad off :: trace s)))
      as (t & E & Ht).
    unfold bind at 1. rewrite E. exists t. split; [|exact Ht].
    unfold ret, bytes_at. rewrite offsets_S. reflexivity.
Qed.

Lemma memcpy_in_spec (n : nat) (dst : Z) (src : list Z) (i : nat)
  (s : machine) :
  exists s', memcpy_in n dst src i s = Some (tt, s')
    /\ draws s' = draws s
    /\ forall j, pkt s' j =
          if (dst <=? j) && (j <? dst + Z.of_nat n)
          then nth (i + Z.to_nat (j - dst)) src 0 else pkt s j.
Proof.
  revert dst i s. induction n as [|n IH]; intros dst i s.
  - exists s. repeat split. intros j. zbool.
  - simpl. unfold bind, store.
    destruct (IH (dst + 1) (S i)
                (Machine (upd (pkt s) dst (nth i src 0)) (draws s)
                         (EvStore dst :: trace s))) as (s' & E & D & P).
    exists s'. split; [exact E|]. split; [exact D|].
    intros j. rewrite P. simpl. unfold upd. zbool.
    + f_equal. lia.
    + subst. replace (dst - dst) with 0 by lia. f_equal. simpl. lia.
Qed.

Lemma xor_head_spec (n : nat) (b : Z) (i : nat) (out : list Z)
  (s : machine) :
  exists s', xor_head n b i out s = Some (tt, s')
    /\ draws s' = draws s
    /\ forall j, pkt s' j =
          if (b <=? j) && (j <? b + Z.of_nat n)
          then u8 (Z.lxor (pkt s j) (nth (i + Z.to_nat (j - b)) out 0))
          else pkt s j.
Proof.
  revert b i s. induction n as [|n IH]; intros b i s.
  - exists s. repeat split. intros j. zbool.
  - simpl. unfold bind, load, store. simpl.
    match goal with
    | |- context [xor_head n (b + 1) (S i) out ?st] =>
        destruct (IH (b + 1) (S i) st) as (s' & E & D & P)
    end.
    exists s'. split; [exact E|]. split; [exact D|].
    intros j. rewrite P. simpl. unfold upd. zbool.
    + do 3 f_equal; lia.
    + subst. replace (b - b) with 0 by lia. do 3 f_equal; simpl; lia.
Qed.

(** Copying towards the end, last byte first, by a distance [d >= 0]. *)
Lemma shift_back_spec (n : nat) (tail d : Z) (s : machine) :
  0 <= d ->
  exists s', shift_back n tail (tail + d) s = Some (tt, s')
    /\ draws s' = draws s
    /\ forall j, pkt s' j =
          if (tail - Z.of_nat n + d <? j) && (j <=? tail + d)
          then pkt s (j - d) else pkt s j.
Proof.
  intros Hd. revert tail s. induction n as [|n IH]; intros tail s.
  - exists s. repeat split. intros j. zbool.
  - simpl shift_back. unfold bind, load, store. simpl.
    replace (tail + d - 1) with (tail - 1 + d) by lia.
    match goal with
    | |- context [shift_back n (tail - 1) (tail - 1 + d) ?st] =>
        destruct (IH (tail - 1) st) as (s' & E & D & P)
    end.
    exists s'. split; [exact E|]. split; [exact D|].
    intros j. rewrite P. simpl. unfold upd. zbool; subst; f_equal; lia.
Qed.

(** Copying towards the start, first byte first, by a distance [d >= 0]. *)
Lemma shift_fwd_spec (n : nat) (head d : Z) (s : machine) :
  0 <= d ->
  exists s', shift_fwd n head (head + d) s = Some (tt, s')
    /\ draws s' = draws s
    /\ forall j, pkt s' j =
          if (head <=? j) && (j <? head + Z.of_nat n)
          then pkt s (j + d) else pkt s j.
Proof.
  intros Hd. revert head s. induction n as [|n IH]; intros head s.
  - exists s. repeat split. intros j. zbool.
  - simpl shift_fwd. unfold bind, load, store. simpl.
    replace (head + d + 1) with (head + 1 + d) by lia.
    match goal with
    | |- context [shift_fwd n (head + 1) (head + 1 + d) ?st] =>
        destruct (IH (head + 1) st) as (s' & E & D & P)
    end.
    exists s'. split; [exact E|]. split; [exact D|].
    intros j. rewrite P. simpl. unfold upd. zbool; subst; f_equal; lia.
Qed.

Lemma chacha8_hash_spec (input : Z) (key : list Z) (s : machine) :
  exists t, chacha8_hash input key s
            = Some (chacha8 (bytes_at s input 8) key,
                    Machine (pkt s) (draws s) t).
Proof.
  unfold chacha8_hash, bind.
  destruct (load_bytes_spec (Z.to_nat CHACHA8_INPUT_SIZE) input s)
    as (t & E & _).
  rewrite E. unfold log, ret. simpl. eexists. reflexivity.
Qed.

#[local] Arguments memcpy_in : simpl never.
#[local] Arguments xor_head : simpl never.
#[local] Arguments shift_back : simpl never.
#[local] Arguments shift_fwd : simpl never.
#[local] Arguments load_bytes : simpl never.
#[local] Arguments chacha8_hash : simpl never.

(** ** Tag randomisation and its inverse *)

Lemma tag_word_zero (s : machine) (off : Z) :
  tag_word s off = 0 <->
  pkt s off = 0 /\ pkt s (off + 1) = 0 /\ pkt s (off + 2) = 0
  /\ pkt s (off + 3) = 0.
Proof.
  unfold tag_word. rewrite !lor_zero, !shiftl_zero by lia. tauto.
Qed.

Lemma load_u32_spec (off : Z) (s : machine) :
  exists t, load_u32 off s
            = Some (tag_word s off, Machine (pkt s) (draws s) t).
Proof. eexists. reflexivity. Qed.

Lemma obfs_mac2_at_spec (mac2 : Z) (ob : obfs_buf) (k : list Z)
  (s : machine) :
  0 < mac2 ->
  exists s', obfs_mac2_at mac2 ob k s
             = Some (if tag_word s mac2 =? 0
                     then ObfsBuf (rnd ob) (chacha8 (bytes_at s 8 8) k)
                                  (rnd_len ob)
                     else ob, s')
    /\ draws s' = draws s
    /\ forall j, pkt s' j =
          if tag_word s mac2 =? 0
          then (if j =? 0 then u8 (Z.lor (pkt s 0) 0x10)
                else if (mac2 <=? j) && (j <? mac2 + 16)
                then nth (Z.to_nat (j - mac2)) (chacha8 (bytes_at s 8 8) k) 0
                else pkt s j)
          else pkt s j.
Proof.
  intros Hm. unfold obfs_mac2_at. unfold bind at 1.
  destruct (load_u32_spec mac2 s) as (t & E). rewrite E. clear E.
  destruct (tag_word s mac2 =? 0); simpl.
  2:{ eexists. split; [reflexivity|]. split; reflexivity. }
  unfold bind at 1.
  destruct (chacha8_hash_spec 8 k (Machine (pkt s) (draws s) t)) as (t1 & E).
  rewrite E. clear E. unfold bind at 1.
  match goal with
  | |- context [memcpy_in WG_COOKIE_LEN mac2 ?src 0 ?st] =>
      destruct (memcpy_in_spec WG_COOKIE_LEN mac2 src 0 st)
        as (s2 & E & D & P)
  end.
  rewrite E. clear E. unfold bind, load, store, ret. simpl.
  eexists. split; [reflexivity|]. split; [exact D|].
  intros j. simpl. unfold upd. rewrite !P. simpl.
  change (bytes_at (Machine (pkt s) (draws s) t) 8 8) with (bytes_at s 8 8).
  unfold WG_COOKIE_LEN. zbool.
Qed.

Lemma obfs_mac2_spec (len : Z) (ob : obfs_buf) (k : list Z) (s : machine) :
  exists ob' s', obfs_mac2 len ob k s = Some (ob', s')
    /\ rnd ob' = rnd ob /\ rnd_len ob' = rnd_len ob
    /\ (randomizes s len = None -> ob' = ob)
    /\ draws s' = draws s
    /\ forall j, pkt s' j = after_mac2 s len k j.
Proof.
  unfold obfs_mac2, after_mac2, randomizes. unfold bind, load. simpl.
  destruct ((pkt s 0 =? WG_HANDSHAKE_INIT) && (len =? 148)).
  { match goal with
    | |- context [obfs_mac2_at HSI_MAC2 ob k ?st] =>
        destruct (obfs_mac2_at_spec HSI_MAC2 ob k st) as (s' & E & D & P);
          [reflexivity|]
    end.
    rewrite E. unfold tag_word in *. simpl in *.
    eexists. exists s'. split; [reflexivity|].
    destruct (_ =? 0); simpl; repeat split; auto; discriminate. }
  destruct ((pkt s 0 =? WG_HANDSHAKE_RESP) && (len =? 92)).
  { match goal with
    | |- context [obfs_mac2_at HSR_MAC2 ob k ?st] =>
        destruct (obfs_mac2_at_spec HSR_MAC2 ob k st) as (s' & E & D & P);
          [reflexivity|]
    end.
    rewrite E. unfold tag_word in *. simpl in *.
    eexists. exists s'. split; [reflexivity|].
    destruct (_ =? 0); simpl; repeat split; auto; discriminate. }
  eexists. eexists. split; [reflexivity|]. repeat split; reflexivity.
Qed.

Lemma nth_zero_mac2 (i : nat) : nth i zero_mac2 0 = 0.
Proof.
  unfold zero_mac2. destruct (Nat.lt_ge_cases i WG_COOKIE_LEN).
  - apply nth_repeat_lt. assumption.
  - apply nth_overflow. rewrite repeat_length. assumption.
Qed.

Lemma restore_mac2_spec (s : machine) :
  exists s', restore_mac2 s = Some (tt, s')
    /\ draws s' = draws s
    /\ forall j, pkt s' j = restored (pkt s) j.
Proof.
  unfold restore_mac2, restored. unfold bind at 1. unfold load at 1.
  unfold OBFS_WG_HANDSHAKE_INIT, OBFS_WG_HANDSHAKE_RESP, HSI_MAC2, HSR_MAC2.
  destruct (Z.eqb_spec (pkt s 0) 0x11) as [E17|N17].
  { unfold bind at 1.
    match goal with
    | |- context [memcpy_in WG_COOKIE_LEN 132 zero_mac2 0 ?st] =>
        destruct (memcpy_in_spec WG_COOKIE_LEN 132 zero_mac2 0 st)
          as (s2 & E & D & P)
    end.
    rewrite E. unfold bind, load, store. simpl.
    eexists. split; [reflexivity|]. split; [exact D|].
    intros j. simpl. unfold upd. rewrite !P, !nth_zero_mac2. simpl.
    unfold WG_COOKIE_LEN. zbool. }
  destruct (Z.eqb_spec (pkt s 0) 0x12) as [E18|N18].
  { unfold bind at 1.
    match goal with
    | |- context [memcpy_in WG_COOKIE_LEN 76 zero_mac2 0 ?st] =>
        destruct (memcpy_in_spec WG_COOKIE_LEN 76 zero_mac2 0 st)
          as (s2 & E & D & P)
    end.
    rewrite E. unfold bind, load, store. simpl.
    eexists. split; [reflexivity|]. split; [exact D|].
    intros j. simpl. unfold upd. rewrite !P, !nth_zero_mac2. simpl.
    unfold WG_COOKIE_LEN. zbool. }
  unfold bind, ret, load, store. simpl.
  eexists. split; [reflexivity|]. split; [reflexivity|].
  intros j. simpl. unfold upd. zbool.
Qed.

(** ** Masking and padding *)

(** [obfs_wg] on a message of at least 16 bytes, for the prefix length
    [rnd_len ob] it reads: the prefix comes from [ob], the message follows it
    with its first 16 bytes masked, memory around them is as [obfs_mac2] left
    it. *)
Lemma obfs_wg_spec (len : Z) (ob : obfs_buf) (key : list Z) (s : machine) :
  16 <= len -> 0 <= rnd_len ob ->
  exists ob1 s1 ob2 s',
    obfs_mac2 len ob key s = Some (ob1, s1)
    /\ obfs_wg len ob key s = Some (ob2, s')
    /\ draws s' = draws s
    /\ rnd ob2 = set_head (u8 (Z.lxor (rnd_len ob)
                     (nth 16 (chacha8 (bytes_at s1 (len - 8) 8) key) 0)))
                          (rnd ob)
    /\ forall j, pkt s' j =
          if (0 <=? j) && (j <? rnd_len ob)
          then nth (Z.to_nat j) (ob_bytes ob2) 0
          else if (rnd_len ob <=? j) && (j <? rnd_len ob + len)
          then masked (pkt s1) (chacha8 (bytes_at s1 (len - 8) 8) key)
                      (j - rnd_len ob)
          else pkt s1 j.
Proof.
  intros Hlen Hn. unfold obfs_wg.
  destruct (obfs_mac2_spec len ob key s)
    as (ob1 & s1 & E1 & R1 & L1 & _ & D1 & P1).
  exists ob1, s1. unfold bind at 1. rewrite E1.
  unfold bind at 1.
  destruct (chacha8_hash_spec (len - CHACHA8_INPUT_SIZE) key s1) as (t & E).
  rewrite E. clear E. unfold CHACHA8_INPUT_SIZE.
  set (ks := chacha8 (bytes_at s1 (len - 8) 8) key).
  unfold bind at 1.
  match goal with
  | |- context [xor_head 16 0 0 ks ?st] =>
      destruct (xor_head_spec 16 0 0 ks st) as (s2 & E2 & D2 & P2)
  end.
  rewrite E2. unfold bind at 1.
  replace (len - 1 + rnd_len ob1) with (len - 1 + rnd_len ob) by congruence.
  destruct (shift_back_spec (Z.to_nat len) (len - 1) (rnd_len ob) s2 Hn)
    as (s3 & E3 & D3 & P3).
  rewrite E3. unfold bind at 1.
  match goal with
  | |- context [memcpy_in ?n 0 ?src 0 s3] =>
      destruct (memcpy_in_spec n 0 src 0 s3) as (s4 & E4 & D4 & P4)
  end.
  rewrite E4. unfold ret. eexists. exists s4.
  split; [reflexivity|]. split; [reflexivity|].
  split; [simpl in *; congruence|].
  split; [simpl; rewrite L1, R1; reflexivity|].
  intros j. rewrite P4, P3, !P2. simpl. rewrite L1. unfold masked.
  rewrite !Z2Nat.id by lia. rewrite ?Z.sub_0_r. zbool.
Qed.

(** [obfs_wg] always returns and draws no randomness. *)
Lemma obfs_wg_total (len : Z) (ob : obfs_buf) (key : list Z) (s : machine) :
  exists ob2 s', obfs_wg len ob key s = Some (ob2, s').
Proof.
  unfold obfs_wg.
  destruct (obfs_mac2_spec len ob key s) as (ob1 & s1 & E1 & _).
  unfold bind at 1. rewrite E1. unfold bind at 1.
  destruct (chacha8_hash_spec (len - CHACHA8_INPUT_SIZE) key s1) as (t & E).
  rewrite E. clear E. unfold bind at 1.
  match goal with
  | |- context [xor_head 16 0 0 ?ks ?st] =>
      destruct (xor_head_spec 16 0 0 ks st) as (s2 & E2 & _)
  end.
  rewrite E2. unfold bind at 1.
  assert (T : forall n tail b st, exists st',
               shift_back n tail b st = Some (tt, st')).
  { induction n as [|n IH]; intros tail b st.
    - eexists. reflexivity.
    - unfold shift_back; fold shift_back. unfold bind, load, store. apply IH. }
  match goal with
  | |- context [shift_back ?n ?a ?b s2] =>
      destruct (T n a b s2) as (s3 & E3)
  end.
  rewrite E3. unfold bind at 1.
  match goal with
  | |- context [memcpy_in ?n 0 ?src 0 s3] =>
      destruct (memcpy_in_spec n 0 src 0 s3) as (s4 & E4 & _)
  end.
  rewrite E4. eexists. eexists. reflexivity.
Qed.

(** ** Decoding *)

Lemma recovered_len_range (key : list Z) (s : machine) (len : Z) :
  0 <= recovered_len key s len <= 255.
Proof.
  pose proof (u8_range (Z.lxor (pkt s 0)
    (nth 16 (chacha8 (bytes_at s (len - 8) 8) key) 0))) as H.
  unfold is_u8 in H. unfold recovered_len. lia.
Qed.

Lemma restore_wg_spec (len : Z) (key : list Z) (s : machine) :
  exists s', restore_wg len key s
             = Some (if len <? recovered_len key s len + WG_MIN_LEN
                     then -1 else recovered_len key s len, s')
    /\ draws s' = draws s
    /\ forall j, pkt s' j =
          if len <? recovered_len key s len + WG_MIN_LEN
          then upd (pkt s) 0 (recovered_len key s len) j
          else restored
                 (masked (stripped (pkt s) len (recovered_len key s len))
                         (chacha8 (bytes_at s (len - 8) 8) key)) j.
Proof.
  unfold restore_wg. unfold bind at 1.
  destruct (chacha8_hash_spec (len - CHACHA8_INPUT_SIZE) key s) as (t & E).
  rewrite E. clear E. unfold CHACHA8_INPUT_SIZE.
  set (ks := chacha8 (bytes_at s (len - 8) 8) key).
  unfold bind at 1. unfold load at 1. unfold bind at 1. unfold store at 1.
  unfold bind at 1. unfold load at 1. cbn [pkt draws trace].
  replace (upd (pkt s) 0 (u8 (Z.lxor (pkt s 0) (nth 16 ks 0))) 0)
    with (recovered_len key s len) by (unfold upd; reflexivity).
  fold (recovered_len key s len).
  change (u8 (Z.lxor (pkt s 0) (nth 16 ks 0))) with (recovered_len key s len).
  set (n := recovered_len key s len).
  pose proof (recovered_len_range key s len) as Hn. fold n in Hn.
  destruct (len <? n + WG_MIN_LEN).
  { unfold ret. eexists. split; [reflexivity|]. split; reflexivity. }
  unfold bind at 1.
  match goal with
  | |- context [shift_fwd ?k 0 n ?st] =>
      destruct (shift_fwd_spec k 0 n st (proj1 Hn)) as (s2 & E2 & D2 & P2)
  end.
  rewrite Z.add_0_l in E2. rewrite E2. unfold bind at 1.
  destruct (xor_head_spec 16 0 0 ks s2) as (s3 & E3 & D3 & P3).
  rewrite E3. unfold bind at 1.
  destruct (restore_mac2_spec s3) as (s4 & E4 & D4 & P4).
  rewrite E4. unfold ret. exists s4. split; [reflexivity|].
  split; [simpl in *; congruence|].
  assert (Q2 : forall x, pkt s2 x = stripped (pkt s) len n x).
  { intros x. rewrite P2. cbn [pkt]. unfold stripped. zbool. }
  assert (Q3 : forall x, pkt s3 x = masked (stripped (pkt s) len n) ks x).
  { intros x. rewrite P3. unfold masked. rewrite !Q2.
    rewrite ?Z.sub_0_r, ?Nat.add_0_l. zbool. }
  intros j. rewrite P4. unfold restored. rewrite !Q3. reflexivity.
Qed.

Lemma xt_unobfs_spec (key : list Z) (len : Z) (s : machine) :
  exists s', xt_unobfs key true len s
             = Some (if (len <? MIN_RND_LEN)
                        || (len <? recovered_len key s len + WG_MIN_LEN)
                     then NF_DROP
                     else XT_CONTINUE (len - recovered_len key s len), s')
    /\ draws s' = draws s
    /\ forall j, pkt s' j =
          if len <? MIN_RND_LEN then pkt s j
          else if len <? recovered_len key s len + WG_MIN_LEN
          then upd (pkt s) 0 (recovered_len key s len) j
          else restored
                 (masked (stripped (pkt s) len (recovered_len key s len))
                         (chacha8 (bytes_at s (len - 8) 8) key)) j.
Proof.
  unfold xt_unobfs. change (negb true) with false. cbv iota.
  destruct (len <? MIN_RND_LEN); simpl orb.
  { exists s. repeat split. }
  destruct (restore_wg_spec len key s) as (s' & E & D & P).
  unfold bind. rewrite E. exists s'. split; [|split; assumption].
  pose proof (recovered_len_range key s len) as Hn.
  destruct (len <? recovered_len key s len + WG_MIN_LEN); simpl.
  - reflexivity.
  - replace (recovered_len key s len <? 0) with false
      by (symmetry; apply Z.ltb_ge; lia).
    reflexivity.
Qed.

(** ** The keepalive policy and the random length *)

Lemma random_drop_spec (len : Z) (key : list Z) (s : machine) :
  exists t, random_drop_wg_keepalive len key s
            = Some ((pkt s 0 =? WG_DATA) && (len =? 32)
                    && (50 <? nth 0 (chacha8 (bytes_at s (len - 8) 8) key) 0),
                    Machine (pkt s) (draws s) t).
Proof.
  unfold random_drop_wg_keepalive. unfold bind at 1. unfold load at 1.
  destruct (pkt s 0 =? WG_DATA); simpl; [|eexists; reflexivity].
  destruct (len =? 32); simpl; [|eexists; reflexivity].
  unfold bind.
  match goal with
  | |- context [chacha8_hash ?i key ?st] =>
      destruct (chacha8_hash_spec i key st) as (t & E)
  end.
  rewrite E. unfold CHACHA8_INPUT_SIZE. cbn [pkt draws].
  change (bytes_at (Machine (pkt s) (draws s) (EvLoad 0 :: trace s))
                   (len - 8) 8)
    with (bytes_at s (len - 8) 8).
  destruct (50 <? _); eexists; reflexivity.
Qed.

Lemma block_nth (d i : nat) : (i < 32)%nat -> nth i (block d) 0 = entropy d i.
Proof.
  intros H. unfold block.
  rewrite (nth_indep _ 0 (entropy d 0))
    by (rewrite length_map, length_seq; exact H).
  rewrite map_nth, seq_nth by exact H. reflexivity.
Qed.

Lemma scan_block_range (n i : nat) (buf : list Z) (lo hi : Z) :
  scan_block n i buf lo hi 0 = 0
  \/ (lo <= scan_block n i buf lo hi 0 <= hi
      /\ exists k, (i <= k < i + n)%nat
                   /\ scan_block n i buf lo hi 0 = nth k buf 0).
Proof.
  revert i. induction n as [|n IH]; intros i; simpl.
  - left. reflexivity.
  - destruct (Z.leb_spec lo (nth i buf 0)); simpl.
    + destruct (Z.leb_spec (nth i buf 0) hi).
      * right. split; [lia|]. exists i. split; [lia|reflexivity].
      * destruct (IH (S i)) as [H1|(H1 & k & Hk & Ek)]; [left; exact H1|].
        right. split; [exact H1|]. exists k. split; [lia|exact Ek].
    + destruct (IH (S i)) as [H1|(H1 & k & Hk & Ek)]; [left; exact H1|].
      right. split; [exact H1|]. exists k. split; [lia|exact Ek].
Qed.

Lemma scan_block_hit (n i k : nat) (buf : list Z) (lo hi : Z) :
  (i <= k < i + n)%nat -> lo <= nth k buf 0 <= hi ->
  lo <= scan_block n i buf lo hi 0 <= hi.
Proof.
  revert i. induction n as [|n IH]; intros i Hk Hb; simpl.
  - lia.
  - destruct (Z.leb_spec lo (nth i buf 0)); simpl.
    + destruct (Z.leb_spec (nth i buf 0) hi); [lia|].
      apply IH; [|exact Hb].
      destruct (Nat.eq_dec i k); [subst; lia|lia].
    + apply IH; [|exact Hb].
      destruct (Nat.eq_dec i k); [subst; lia|lia].
Qed.

(** One turn of the [while (1)] loop. *)
Lemma get_random_insert_S (fuel : nat) (lo hi : Z) (s : machine) :
  get_random_insert (S fuel) lo hi s
  = if 0 <? scan_block (Z.to_nat MAX_RND_LEN) 0 (block (draws s)) lo hi 0
    then Some ((scan_block (Z.to_nat MAX_RND_LEN) 0 (block (draws s)) lo hi 0,
                block (draws s)),
               Machine (pkt s) (S (draws s)) (EvRandom :: trace s))
    else get_random_insert fuel lo hi
           (Machine (pkt s) (S (draws s)) (EvRandom :: trace s)).
Proof.
  unfold get_random_insert at 1; fold get_random_insert.
  unfold bind, get_random_bytes_wait. fold (block (draws s)).
  destruct (0 <? _); reflexivity.
Qed.

Lemma get_random_insert_spec (fuel : nat) (lo hi : Z) (s s' : machine)
  (r : Z) (buf : list Z) :
  get_random_insert fuel lo hi s = Some ((r, buf), s') ->
  0 < r /\ lo <= r <= hi
  /\ (exists d i, (draws s <= d)%nat /\ (i < 32)%nat /\ buf = block d
                  /\ r = entropy d i)
  /\ pkt s' = pkt s.
Proof.
  revert s. induction fuel as [|fuel IH]; intros s.
  - discriminate.
  - rewrite get_random_insert_S.
    pose proof (scan_block_range (Z.to_nat MAX_RND_LEN) 0 (block (draws s))
                                 lo hi) as Hscan.
    remember (scan_block (Z.to_nat MAX_RND_LEN) 0 (block (draws s)) lo hi 0)
      as v eqn:Ev.
    destruct (Z.ltb_spec 0 v) as [Hr|Hr].
    + intros E. assert (Er : r = v) by congruence.
      assert (Eb : buf = block (draws s)) by congruence.
      assert (Es : s' = Machine (pkt s) (S (draws s)) (EvRandom :: trace s))
        by congruence.
      subst r buf s'. split; [exact Hr|].
      destruct Hscan as [H0|(H1 & k & Hk & Ek)]; [lia|].
      split; [exact H1|]. split; [|reflexivity].
      exists (draws s), k. change (Z.to_nat MAX_RND_LEN) with 32%nat in Hk.
      split; [lia|]. split; [lia|]. split; [reflexivity|].
      rewrite Ek. apply block_nth. lia.
    + intros E. apply IH in E. cbn [pkt draws] in E.
      destruct E as (H1 & H2 & (d & i & Hd & Hi & Hb & Hr') & H4).
      split; [exact H1|]. split; [exact H2|]. split; [|exact H4].
      exists d, i. split; [lia|]. auto.
Qed.

Lemma get_random_insert_terminates (lo hi : Z) (n i : nat) :
  1 <= lo -> (i < 32)%nat ->
  forall s, lo <= entropy (draws s + n) i <= hi ->
  exists fuel r buf s', get_random_insert fuel lo hi s = Some ((r, buf), s').
Proof.
  intros Hlo Hi. induction n as [|n IH]; intros s Hhit.
  - exists 1%nat. rewrite get_random_insert_S.
    pose proof (scan_block_hit (Z.to_nat MAX_RND_LEN) 0 i (block (draws s))
                               lo hi) as H.
    rewrite block_nth in H by exact Hi. rewrite Nat.add_0_r in Hhit.
    specialize (H ltac:(change (Z.to_nat MAX_RND_LEN) with 32%nat; lia) Hhit).
    destruct (Z.ltb_spec 0
      (scan_block (Z.to_nat MAX_RND_LEN) 0 (block (draws s)) lo hi 0));
      [|lia].
    eexists. eexists. eexists. reflexivity.
  - destruct (Z.ltb_spec 0
      (scan_block (Z.to_nat MAX_RND_LEN) 0 (block (draws s)) lo hi 0))
      as [Hr|Hr].
    + exists 1%nat. rewrite get_random_insert_S.
      destruct (Z.ltb_spec 0
        (scan_block (Z.to_nat MAX_RND_LEN) 0 (block (draws s)) lo hi 0));
        [|lia].
      eexists. eexists. eexists. reflexivity.
    + destruct (IH (Machine (pkt s) (S (draws s)) (EvRandom :: trace s)))
        as (fuel & r & buf & s' & E).
      { cbn [draws]. replace (S (draws s) + n)%nat with (draws s + S n)%nat
          by lia. exact Hhit. }
      exists (S fuel), r, buf, s'. rewrite get_random_insert_S.
      destruct (Z.ltb_spec 0
        (scan_block (Z.to_nat MAX_RND_LEN) 0 (block (draws s)) lo hi 0));
        [lia|].
      exact E.
Qed.

#[local] Arguments get_random_insert : simpl never.
#[local] Arguments obfs_wg : simpl never.
#[local] Arguments random_drop_wg_keepalive : simpl never.

(** What [xt_obfs] has done when it lets a datagram continue. *)
Lemma xt_obfs_continue (key : list Z) (expand_ok : bool) (ob : obfs_buf)
  (fuel : nat) (len len' : Z) (s s' : machine) :
  xt_obfs key expand_ok ob fuel len s = Some (XT_CONTINUE len', s') ->
  exists t n buf sb ob2,
    random_drop_wg_keepalive len key s
      = Some (false, Machine (pkt s) (draws s) t)
    /\ get_random_insert fuel MIN_RND_LEN
         (if 200 <? len then 8 else MAX_RND_LEN)
         (Machine (pkt s) (draws s) t) = Some ((n, buf), sb)
    /\ expand_ok = true
    /\ obfs_wg len (ObfsBuf buf (chacha_out ob) (rnd_len ob)) key sb
       = Some (ob2, s')
    /\ len' = len + n.
Proof.
  unfold xt_obfs. unfold bind at 1.
  destruct (random_drop_spec len key s) as (t & E). rewrite E.
  destruct (_ && _); [discriminate|].
  unfold bind at 1.
  destruct (get_random_insert fuel MIN_RND_LEN _ _) as [[[n buf] sb]|] eqn:G;
    [|discriminate].
  destruct expand_ok; simpl; [|discriminate].
  unfold bind at 1.
  destruct (obfs_wg len _ key sb) as [[ob2 s4]|] eqn:W; [|discriminate].
  unfold ret. intros H. injection H as <- <-.
  exists t, n, buf, sb, ob2. auto.
Qed.

(** Why [xt_obfs] drops, when it does. *)
Lemma xt_obfs_drop (key : list Z) (expand_ok : bool) (ob : obfs_buf)
  (fuel : nat) (len : Z) (s s' : machine) :
  xt_obfs key expand_ok ob fuel len s = Some (NF_DROP, s') ->
  expand_ok = false
  \/ (pkt s 0 = WG_DATA /\ len = 32
      /\ 50 < nth 0 (chacha8 (bytes_at s (len - 8) 8) key) 0).
Proof.
  unfold xt_obfs. unfold bind at 1.
  destruct (random_drop_spec len key s) as (t & E). rewrite E.
  destruct (Z.eqb_spec (pkt s 0) WG_DATA) as [Et|Et]; simpl.
  2:{ unfold bind at 1.
      destruct (get_random_insert fuel MIN_RND_LEN _ _)
        as [[[m buf] sb]|] eqn:G; [|discriminate].
      destruct expand_ok; simpl; [|auto].
      unfold bind at 1.
      destruct (obfs_wg len _ key sb) as [[ob2 s4]|]; discriminate. }
  destruct (Z.eqb_spec len 32) as [El|El]; simpl.
  2:{ unfold bind at 1.
      destruct (get_random_insert fuel MIN_RND_LEN _ _)
        as [[[m buf] sb]|] eqn:G; [|discriminate].
      destruct expand_ok; simpl; [|auto].
      unfold bind at 1.
      destruct (obfs_wg len _ key sb) as [[ob2 s4]|]; discriminate. }
  destruct (Z.ltb_spec 50 (nth 0 (chacha8 (bytes_at s (len - 8) 8) key) 0))
    as [Hk|Hk].
  { intros _. right. auto. }
  unfold bind at 1.
  destruct (get_random_insert fuel MIN_RND_LEN _ _)
    as [[[m buf] sb]|] eqn:G; [|discriminate].
  destruct expand_ok; simpl; [|auto].
  unfold bind at 1.
  destruct (obfs_wg len _ key sb) as [[ob2 s4]|]; discriminate.
Qed.

Lemma chacha8_hash_hashes (input : Z) (key : list Z) (s : machine) :
  exists t, chacha8_hash input key s
            = Some (chacha8 (bytes_at s input 8) key,
                    Machine (pkt s) (draws s) t)
    /\ hashes t = input :: hashes (trace s).
Proof.
  unfold chacha8_hash, bind.
  destruct (load_bytes_spec (Z.to_nat CHACHA8_INPUT_SIZE) input s)
    as (t & E & Ht).
  rewrite E. unfold log, ret. cbn [pkt draws trace].
  eexists. split; [reflexivity|]. simpl. rewrite Ht. reflexivity.
Qed.

(** A block without a byte in range leaves [r] at 0. *)
Lemma scan_block_miss (n i : nat) (buf : list Z) (lo hi : Z) :
  (forall k, (i <= k < i + n)%nat -> ~ lo <= nth k buf 0 <= hi) ->
  scan_block n i buf lo hi 0 = 0.
Proof.
  revert i. induction n as [|n IH]; intros i H; simpl.
  - reflexivity.
  - pose proof (H i ltac:(lia)) as Hi.
    destruct (Z.leb_spec lo (nth i buf 0)); simpl.
    + destruct (Z.leb_spec (nth i buf 0) hi); [lia|].
      apply IH. intros k Hk. apply H. lia.
    + apply IH. intros k Hk. apply H. lia.
Qed.

(** While the blocks drawn hold no byte in range the loop goes on. *)
Lemma get_random_insert_starves (fuel : nat) (lo hi : Z) :
  forall s,
  (forall d i, (draws s <= d < draws s + fuel)%nat -> (i < 32)%nat ->
               ~ lo <= entropy d i <= hi) ->
  get_random_insert fuel lo hi s = None.
Proof.
  induction fuel as [|fuel IH]; intros s H.
  - reflexivity.
  - rewrite get_random_insert_S.
    rewrite scan_block_miss.
    + simpl. apply IH. cbn [draws]. intros d i Hd Hi. apply H; lia.
    + intros k Hk. change (Z.to_nat MAX_RND_LEN) with 32%nat in Hk.
      rewrite block_nth by lia. apply H; lia.
Qed.

(** [xt_obfs] returns as soon as the entropy source offers a byte in the
    range of the selector. *)
Lemma xt_obfs_returns (key : list Z) (expand_ok : bool) (ob : obfs_buf)
  (len : Z) (s : machine) (d i : nat) :
  (i < 32)%nat ->
  MIN_RND_LEN <= entropy (draws s + d) i
              <= (if 200 <? len then 8 else MAX_RND_LEN) ->
  exists fuel v s', xt_obfs key expand_ok ob fuel len s = Some (v, s').
Proof.
  intros Hi Hhit.
  destruct (random_drop_spec len key s) as (t & E).
  destruct (get_random_insert_terminates MIN_RND_LEN
              (if 200 <? len then 8 else MAX_RND_LEN) d i
              ltac:(unfold MIN_RND_LEN; lia) Hi
              (Machine (pkt s) (draws s) t) Hhit)
    as (fuel & n & buf & sb & G).
  exists fuel. unfold xt_obfs. unfold bind at 1. rewrite E.
  destruct (_ && _); [eexists; eexists; reflexivity|].
  unfold bind at 1. rewrite G.
  destruct expand_ok; simpl; [|eexists; eexists; reflexivity].
  unfold bind at 1.
  match goal with
  | |- context [obfs_wg len ?o key sb] =>
      destruct (obfs_wg_total len o key sb) as (ob2 & s4 & W)
  end.
  rewrite W. eexists. eexists. reflexivity.
Qed.

(** ** Properties of the encode path *)

(** C5.  Whenever [xt_obfs] lets a datagram continue, the new payload length
    is the old one plus the length [n] that [get_random_insert] returned on
    the blocks drawn from the entropy source during this call, and
    [4 <= n <= 32], with [n <= 8] when the message is longer than 200
    bytes. *)
Theorem xt_obfs_grows_by_selected_length (key : list Z) (expand_ok : bool)
  (ob : obfs_buf) (fuel : nat) (len len' : Z) (s s' : machine) :
  xt_obfs key expand_ok ob fuel len s = Some (XT_CONTINUE len', s') ->
  exists n buf s0 s1,
    pkt s0 = pkt s /\ draws s0 = draws s
    /\ get_random_insert fuel MIN_RND_LEN
         (if 200 <? len then 8 else MAX_RND_LEN) s0 = Some ((n, buf), s1)
    /\ len' = len + n
    /\ 4 <= n <= 32
    /\ (200 < len -> n <= 8).
Proof.
  intros H. apply xt_obfs_continue in H.
  destruct H as (t & n & buf & sb & ob2 & _ & G & _ & _ & ->).
  exists n, buf, (Machine (pkt s) (draws s) t), sb.
  split; [reflexivity|]. split; [reflexivity|].
  split; [exact G|]. split; [reflexivity|].
  apply get_random_insert_spec in G. destruct G as (_ & R & _).
  unfold MIN_RND_LEN, MAX_RND_LEN in R.
  destruct (Z.ltb_spec 200 len); lia.
Qed.

(** C6.  [random_drop_wg_keepalive] returns true exactly for a Data message
    of 32 bytes whose keystream, derived from its last 8 bytes, starts with a
    byte above 50.  For every other type or length it returns false and has
    called the keystream primitive not at all; for a 32-byte Data message it
    has called it once, on offset [len - 8]. *)
Theorem random_drop_wg_keepalive_iff (len : Z) (key : list Z) (s : machine) :
  exists b s', random_drop_wg_keepalive len key s = Some (b, s')
    /\ (b = true <->
        pkt s 0 = WG_DATA /\ len = 32
        /\ 50 < nth 0 (chacha8 (bytes_at s (len - 8) 8) key) 0)
    /\ (~ (pkt s 0 = WG_DATA /\ len = 32) ->
        b = false /\ hashes (trace s') = hashes (trace s))
    /\ (pkt s 0 = WG_DATA /\ len = 32 ->
        hashes (trace s') = (len - 8) :: hashes (trace s))
    /\ pkt s' = pkt s.
Proof.
  unfold random_drop_wg_keepalive. unfold bind at 1. unfold load at 1.
  destruct (Z.eqb_spec (pkt s 0) WG_DATA) as [Et|Nt]; simpl.
  2:{ eexists. eexists. split; [reflexivity|]. simpl.
      repeat split; try tauto; try discriminate. }
  destruct (Z.eqb_spec len 32) as [El|Nl]; simpl.
  2:{ eexists. eexists. split; [reflexivity|]. simpl.
      repeat split; try tauto; try discriminate. }
  unfold bind.
  match goal with
  | |- context [chacha8_hash ?i key ?st] =>
      destruct (chacha8_hash_hashes i key st) as (t & E & Ht)
  end.
  rewrite E. unfold CHACHA8_INPUT_SIZE in *. cbn [pkt draws trace] in *.
  change (bytes_at (Machine (pkt s) (draws s) (EvLoad 0 :: trace s))
                   (len - 8) 8)
    with (bytes_at s (len - 8) 8).
  destruct (Z.ltb_spec 50 (nth 0 (chacha8 (bytes_at s (len - 8) 8) key) 0));
    eexists; eexists; (split; [reflexivity|]); cbn [pkt trace];
    repeat split; try tauto; try discriminate; try lia; try exact Ht.
Qed.

Lemma randomizes_ext (s s' : machine) (len : Z) :
  (forall j, pkt s' j = pkt s j) -> randomizes s' len = randomizes s len.
Proof.
  intros H. unfold randomizes, tag_word. rewrite !H. reflexivity.
Qed.

Lemma after_mac2_none (s : machine) (len : Z) (k : list Z) :
  randomizes s len = None -> forall j, after_mac2 s len k j = pkt s j.
Proof. intros H j. unfold after_mac2. rewrite H. reflexivity. Qed.

(** What [randomizes] answers, by cases. *)
Lemma randomizes_some (s : machine) (len off : Z) :
  randomizes s len = Some off ->
  (pkt s 0 = WG_HANDSHAKE_INIT /\ len = 148 /\ off = HSI_MAC2
   \/ pkt s 0 = WG_HANDSHAKE_RESP /\ len = 92 /\ off = HSR_MAC2)
  /\ tag_head_zero s off.
Proof.
  unfold randomizes.
  destruct (Z.eqb_spec (pkt s 0) WG_HANDSHAKE_INIT);
    destruct (Z.eqb_spec len 148); simpl;
    try (destruct (Z.eqb_spec (tag_word s HSI_MAC2) 0) as [Ez|];
         [|discriminate]; intros H; injection H as <-;
         split; [left; auto|apply tag_word_zero; exact Ez]);
    (destruct (Z.eqb_spec (pkt s 0) WG_HANDSHAKE_RESP);
     destruct (Z.eqb_spec len 92); simpl; try discriminate;
     destruct (Z.eqb_spec (tag_word s HSR_MAC2) 0) as [Ez|];
     [|discriminate]; intros H; injection H as <-;
     split; [right; auto|apply tag_word_zero; exact Ez]).
Qed.

Lemma randomizes_none_of_nonzero (s : machine) (len : Z) :
  (pkt s 0 = WG_HANDSHAKE_INIT /\ len = 148 /\ ~ tag_head_zero s HSI_MAC2)
  \/ (pkt s 0 = WG_HANDSHAKE_RESP /\ len = 92
      /\ ~ tag_head_zero s HSR_MAC2) ->
  randomizes s len = None.
Proof.
  intros H. destruct (randomizes s len) as [off|] eqn:E; [|reflexivity].
  apply randomizes_some in E. destruct E as (Hc & Hz).
  unfold WG_HANDSHAKE_INIT, WG_HANDSHAKE_RESP in *.
  destruct H as [(H1 & H2 & H3)|(H1 & H2 & H3)];
    destruct Hc as [(C1 & C2 & ->)|(C1 & C2 & ->)];
    try contradiction; lia.
Qed.

(** C7.  [obfs_mac2] leaves a handshake message whose tag field does not
    start with four zero bytes as it is, and for every buffer and key a second
    [obfs_mac2] after a first changes no byte. *)
Theorem obfs_mac2_idempotent (len : Z) (ob : obfs_buf) (key : list Z)
  (s : machine) :
  ((pkt s 0 = WG_HANDSHAKE_INIT /\ len = 148 /\ ~ tag_head_zero s HSI_MAC2)
   \/ (pkt s 0 = WG_HANDSHAKE_RESP /\ len = 92
       /\ ~ tag_head_zero s HSR_MAC2) ->
   exists s', obfs_mac2 len ob key s = Some (ob, s')
              /\ forall j, pkt s' j = pkt s j)
  /\ exists ob1 s1 s2,
       obfs_mac2 len ob key s = Some (ob1, s1)
       /\ obfs_mac2 len ob1 key s1 = Some (ob1, s2)
       /\ forall j, pkt s2 j = pkt s1 j.
Proof.
  destruct (obfs_mac2_spec len ob key s)
    as (ob1 & s1 & E1 & _ & _ & O1 & _ & P1).
  split.
  - intros H. apply randomizes_none_of_nonzero in H.
    exists s1. rewrite E1, (O1 H). split; [reflexivity|].
    intros j. rewrite P1. apply after_mac2_none. exact H.
  - destruct (obfs_mac2_spec len ob1 key s1)
      as (ob2 & s2 & E2 & _ & _ & O2 & _ & P2).
    assert (N : randomizes s1 len = None).
    { destruct (randomizes s len) as [off|] eqn:R.
      - pose proof (randomizes_some _ _ _ R) as (Hc & _).
        assert (H0 : pkt s1 0 = 0x11 \/ pkt s1 0 = 0x12).
        { rewrite P1. unfold after_mac2. rewrite R. simpl.
          destruct Hc as [(C & _)|(C & _)]; rewrite C;
            [left|right]; reflexivity. }
        unfold randomizes, WG_HANDSHAKE_INIT, WG_HANDSHAKE_RESP.
        destruct H0 as [-> | ->]; reflexivity.
      - rewrite (randomizes_ext s s1); [exact R|].
        intros j. rewrite P1. apply after_mac2_none. exact R. }
    exists ob1, s1, s2. split; [exact E1|].
    rewrite E2, (O2 N). split; [reflexivity|].
    intros j. rewrite P2. apply after_mac2_none. exact N.
Qed.

(** ** Properties of the decode path *)

(** C3, as the code has it.  On a writable buffer [xt_unobfs] drops a
    datagram exactly when it is shorter than 4 bytes or the recovered padding
    length [n] has [n + 32 > len].  A datagram shorter than 4 bytes is
    dropped untouched.  A datagram dropped for its padding length has had its
    byte 0 replaced by the recovered length; every other byte is as
    before. *)
Theorem xt_unobfs_drop_iff (key : list Z) (len : Z) (s : machine) :
  exists v s', xt_unobfs key true len s = Some (v, s')
    /\ (v = NF_DROP <->
        len < 4 \/ recovered_len key s len + 32 > len)
    /\ (len < 4 -> forall j, pkt s' j = pkt s j)
    /\ (4 <= len -> recovered_len key s len + 32 > len ->
        pkt s' 0 = recovered_len key s len
        /\ forall j, j <> 0 -> pkt s' j = pkt s j).
Proof.
  destruct (xt_unobfs_spec key len s) as (s' & E & _ & P).
  eexists. exists s'. split; [exact E|].
  unfold MIN_RND_LEN, WG_MIN_LEN in *.
  destruct (Z.ltb_spec len 4) as [H4|H4]; simpl.
  - split; [split; [lia|reflexivity]|]. split; [intros _ j; apply P|]. lia.
  - destruct (Z.ltb_spec len (recovered_len key s len + 32)) as [Hn|Hn].
    + split; [split; [lia|reflexivity]|]. split; [lia|]. intros _ _.
      split; [rewrite P; reflexivity|].
      intros j Hj. rewrite P. unfold upd.
      destruct (Z.eqb_spec j 0); [contradiction|reflexivity].
    + split; [split; [discriminate|lia]|]. split; lia.
Qed.

(** Every length in 0..255 is recovered from some datagram: it is enough to
    set byte 0 of a datagram of 9 bytes or more. *)
Lemma recovered_len_any (key : list Z) (s : machine) (len n : Z) :
  0 <= n <= 255 -> 9 <= len ->
  recovered_len key
    (Machine (upd (pkt s) 0
                  (u8 (Z.lxor n (nth 16 (chacha8 (bytes_at s (len - 8) 8) key)
                                     0))))
             (draws s) (trace s)) len = n.
Proof.
  intros Hn Hlen.
  set (v := u8 (Z.lxor n (nth 16 (chacha8 (bytes_at s (len - 8) 8) key) 0))).
  assert (B : bytes_at (Machine (upd (pkt s) 0 v) (draws s) (trace s))
                       (len - 8) 8 = bytes_at s (len - 8) 8).
  { apply bytes_at_ext. intros i Hi. cbn [pkt]. unfold upd.
    destruct (Z.eqb_spec (len - 8 + i) 0); [lia|reflexivity]. }
  unfold recovered_len. rewrite B. cbn [pkt]. unfold upd.
  simpl (0 =? 0). cbv iota. unfold v.
  rewrite u8_lxor_lxor. apply u8_small. unfold is_u8. lia.
Qed.

(** C10.  The only check on the recovered padding length [n], which lies in
    0..255, is [n + 32 <= len]: whenever it holds for a datagram of at least 4
    bytes in a writable buffer, [xt_unobfs] continues with a payload of
    [len - n] bytes, the datagram stripped of its first [n] bytes, unmasked
    and with its tag restored, whether or not [n] is a length the encoder
    selects. *)
Theorem xt_unobfs_accepts_any_fitting_length (key : list Z) (len : Z)
  (s : machine) :
  4 <= len -> recovered_len key s len + 32 <= len ->
  0 <= recovered_len key s len <= 255
  /\ exists s', xt_unobfs key true len s
                = Some (XT_CONTINUE (len - recovered_len key s len), s')
      /\ forall j, pkt s' j =
            restored
              (masked (stripped (pkt s) len (recovered_len key s len))
                      (chacha8 (bytes_at s (len - 8) 8) key)) j.
Proof.
  intros H4 Hn. split; [apply recovered_len_range|].
  destruct (xt_unobfs_spec key len s) as (s' & E & _ & P).
  unfold MIN_RND_LEN, WG_MIN_LEN in *.
  destruct (Z.ltb_spec len 4); [lia|].
  destruct (Z.ltb_spec len (recovered_len key s len + 32)); [lia|].
  exists s'. split; [exact E|exact P].
Qed.

(** C2, as the code has it.  Neither target tests the length against 32 or
    classifies the buffer.  On a buffer that is shorter than 32 bytes or
    Unknown, [obfs_mac2] changes nothing, but [xt_obfs], when the buffer can
    grow, emits it [n] bytes longer with [4 <= n <= 32], never unchanged;
    [xt_unobfs] drops it when it is shorter than 32 bytes and otherwise
    handles it as any datagram: dropped, or stripped of the recovered
    length. *)
Theorem short_or_unknown_is_still_transformed (key : list Z) (ob : obfs_buf)
  (fuel : nat) (len : Z) (s : machine) :
  len < 32 \/ spec_unknown (pkt s 0) len ->
  (exists s1, obfs_mac2 len ob key s = Some (ob, s1)
              /\ forall j, pkt s1 j = pkt s j)
  /\ (forall v s', xt_obfs key true ob fuel len s = Some (v, s') ->
        exists n, 4 <= n <= 32 /\ v = XT_CONTINUE (len + n))
  /\ (exists v s', xt_unobfs key true len s = Some (v, s')
        /\ (v = NF_DROP
            \/ v = XT_CONTINUE (len - recovered_len key s len))
        /\ (len < 32 -> v = NF_DROP)).
Proof.
  intros H. split; [|split].
  - destruct (obfs_mac2_spec len ob key s)
      as (ob1 & s1 & E1 & _ & _ & O1 & _ & P1).
    assert (N : randomizes s len = None).
    { destruct (randomizes s len) as [off|] eqn:R; [|reflexivity].
      apply randomizes_some in R. destruct R as (Hc & _).
      unfold spec_unknown in H. destruct H as [H|H]; [lia|tauto]. }
    exists s1. rewrite E1, (O1 N). split; [reflexivity|].
    intros j. rewrite P1. apply after_mac2_none. exact N.
  - intros v s' E. destruct v as [|len'].
    + apply xt_obfs_drop in E. exfalso.
      destruct E as [E|(Et & El & _)]; [discriminate|].
      unfold spec_unknown in H. destruct H as [H|H]; [lia|tauto].
    + apply xt_obfs_continue in E.
      destruct E as (t & n & buf & sb & ob2 & _ & G & _ & _ & ->).
      exists n. split; [|reflexivity].
      apply get_random_insert_spec in G. destruct G as (_ & R & _).
      unfold MIN_RND_LEN, MAX_RND_LEN in R.
      destruct (200 <? len); lia.
  - destruct (xt_unobfs_spec key len s) as (s' & E & _).
    eexists. exists s'. split; [exact E|].
    pose proof (recovered_len_range key s len) as Hn.
    unfold MIN_RND_LEN, WG_MIN_LEN.
    destruct (Z.ltb_spec len 4); simpl; [auto|].
    destruct (Z.ltb_spec len (recovered_len key s len + 32)); [auto|].
    split; [auto|lia].
Qed.

(** ** Round trip *)

Lemma masked_masked (p : Z -> Z) (ks : list Z) (x : Z) :
  (0 <= x < 16 -> is_u8 (p x)) -> masked (masked p ks) ks x = p x.
Proof.
  intros H. unfold masked.
  destruct ((0 <=? x) && (x <? 16)) eqn:B; [|reflexivity].
  rewrite u8_lxor_lxor. apply u8_small. apply H.
  apply andb_true_iff in B. destruct B as (B1 & B2).
  apply Z.leb_le in B1. apply Z.ltb_lt in B2. lia.
Qed.

Lemma nth_0_ob_bytes (v : Z) (d : nat) (co : list Z) (n : Z) :
  nth 0 (ob_bytes (ObfsBuf (set_head v (block d)) co n)) 0 = v.
Proof. reflexivity. Qed.

(** Decoding what [xt_obfs] emitted, when [ob.rnd_len] held the selected
    length: every payload byte is back, provided a tag field that
    [obfs_mac2] takes for empty is empty.  The datagram is decoded in a state
    [sd] of its own, which need only hold the same [len'] payload bytes. *)
Lemma roundtrip_core (key : list Z) (expand_ok : bool) (ob : obfs_buf)
  (fuel : nat) (len len' : Z) (s s' sd : machine) :
  supported (pkt s 0) len ->
  (forall j, 0 <= j < 16 -> is_u8 (pkt s j)) ->
  (forall off, randomizes s len = Some off ->
               forall j, off <= j < off + 16 -> pkt s j = 0) ->
  xt_obfs key expand_ok ob fuel len s = Some (XT_CONTINUE len', s') ->
  rnd_len ob = len' - len ->
  (forall j, 0 <= j < len' -> pkt sd j = pkt s' j) ->
  exists s'', xt_unobfs key true len' sd = Some (XT_CONTINUE len, s'')
              /\ forall j, 0 <= j < len -> pkt s'' j = pkt s j.
Proof.
  intros Hsup Hu8 Htag E Hslot Hd.
  assert (Hlen : 32 <= len).
  { unfold supported in Hsup. lia. }
  apply xt_obfs_continue in E.
  destruct E as (t & n & buf & sb & ob2 & _ & G & _ & W & ->).
  apply get_random_insert_spec in G.
  destruct G as (Hn0 & Hn & (d & i & _ & _ & -> & _) & Psb).
  cbn [pkt] in Psb.
  assert (Hslot' : rnd_len ob = n) by lia. clear Hslot.
  (* the encoder *)
  destruct (obfs_wg_spec len (ObfsBuf (block d) (chacha_out ob) (rnd_len ob))
                         key sb) as (ob1 & s1 & ob2' & s4 & M & W' & _ & R & P);
    [lia|cbn [rnd_len]; lia|].
  rewrite W' in W. injection W as <- <-.
  cbn [rnd rnd_len] in R, P. rewrite Hslot' in R, P.
  destruct (obfs_mac2_spec len (ObfsBuf (block d) (chacha_out ob) (rnd_len ob))
                           key sb) as (ob1' & s1' & M' & _ & _ & _ & _ & P1).
  rewrite M' in M. injection M as -> ->.
  set (ks := chacha8 (bytes_at s1 (len - 8) 8) key) in *.
  assert (Rsb : randomizes sb len = randomizes s len).
  { apply randomizes_ext. intros j. rewrite Psb. reflexivity. }
  (* the state between obfs_mac2 and the masking *)
  assert (Q1 : forall x, x <> 0 ->
                 (forall off, randomizes s len = Some off ->
                              ~ off <= x < off + 16) ->
                 pkt s1 x = pkt s x).
  { intros x Hx Hz. rewrite P1. unfold after_mac2. rewrite Rsb.
    destruct (randomizes s len) as [off|] eqn:Rz.
    - destruct (Z.eqb_spec x 0); [contradiction|].
      specialize (Hz off eq_refl).
      destruct (Z.leb_spec off x); destruct (Z.ltb_spec x (off + 16));
        simpl; try lia; rewrite Psb; reflexivity.
    - rewrite Psb. reflexivity. }
  assert (Q0 : pkt s1 0 = match randomizes s len with
                          | Some _ => u8 (Z.lor (pkt s 0) 0x10)
                          | None => pkt s 0
                          end).
  { rewrite P1. unfold after_mac2. rewrite Rsb.
    destruct (randomizes s len); rewrite Psb; reflexivity. }
  assert (Hoff : forall off, randomizes s len = Some off -> 76 <= off).
  { intros off Rz. apply randomizes_some in Rz.
    unfold HSI_MAC2, HSR_MAC2 in Rz. lia. }
  assert (U1 : forall x, 0 <= x < 16 -> is_u8 (pkt s1 x)).
  { intros x Hx. destruct (Z.eq_dec x 0) as [->|Hx0].
    - rewrite Q0. destruct (randomizes s len); [apply u8_range|].
      apply Hu8. lia.
    - rewrite Q1; [apply Hu8; exact Hx|exact Hx0|].
      intros off Rz. specialize (Hoff off Rz). lia. }
  (* the datagram *)
  assert (D0 : pkt s4 0 = u8 (Z.lxor n (nth 16 ks 0))).
  { rewrite P. destruct (Z.leb_spec 0 0); [|lia].
    destruct (Z.ltb_spec 0 n); [|lia]. simpl.
    destruct ob2' as [r2 c2 l2]. cbn [rnd] in R. subst r2.
    apply nth_0_ob_bytes. }
  assert (D1 : forall x, 0 <= x < len ->
                 pkt s4 (x + n) = masked (pkt s1) ks x).
  { intros x Hx. rewrite P.
    destruct (Z.leb_spec 0 (x + n)); [|lia].
    destruct (Z.ltb_spec (x + n) n); [lia|].
    destruct (Z.leb_spec n (x + n)); [|lia].
    destruct (Z.ltb_spec (x + n) (n + len)); [|lia].
    simpl. f_equal. lia. }
  (* the datagram as received *)
  assert (D0' : pkt sd 0 = u8 (Z.lxor n (nth 16 ks 0))).
  { rewrite Hd by lia. exact D0. }
  assert (D1' : forall x, 0 <= x < len ->
                  pkt sd (x + n) = masked (pkt s1) ks x).
  { intros x Hx. rewrite Hd by lia. apply D1. exact Hx. }
  (* the decoder *)
  assert (S8 : bytes_at sd (len + n - 8) 8 = bytes_at s1 (len - 8) 8).
  { apply bytes_at_ext. intros k Hk.
    replace (len + n - 8 + k) with (len - 8 + k + n) by lia.
    rewrite D1' by lia. unfold masked.
    destruct (Z.leb_spec 0 (len - 8 + k));
      destruct (Z.ltb_spec (len - 8 + k) 16); simpl; try lia; reflexivity. }
  assert (RL : recovered_len key sd (len + n) = n).
  { unfold recovered_len. rewrite S8. fold ks. rewrite D0'.
    rewrite u8_lxor_lxor. apply u8_small. unfold is_u8.
    unfold MIN_RND_LEN, MAX_RND_LEN in Hn.
    destruct (200 <? len); lia. }
  destruct (xt_unobfs_spec key (len + n) sd) as (s8 & E8 & _ & P8).
  rewrite RL, S8 in *. fold ks in P8.
  unfold MIN_RND_LEN, WG_MIN_LEN in E8, P8.
  destruct (Z.ltb_spec (len + n) 4); [lia|].
  destruct (Z.ltb_spec (len + n) (n + 32)); [lia|].
  simpl in E8. replace (len + n - n) with len in E8 by lia.
  exists s8. split; [exact E8|].
  (* the unmasked message is the one obfs_mac2 left *)
  assert (Q : forall x, 0 <= x < len ->
                masked (stripped (pkt sd) (len + n) n) ks x = pkt s1 x).
  { intros x Hx.
    rewrite <- (masked_masked (pkt s1) ks x) by (intros Hx'; apply U1; lia).
    unfold masked at 1 3.
    assert (St : stripped (pkt sd) (len + n) n x = masked (pkt s1) ks x).
    { unfold stripped, upd.
      destruct (Z.leb_spec 0 x); [|lia].
      destruct (Z.ltb_spec x (len + n - n)); [|lia]. simpl.
      destruct (Z.eqb_spec (x + n) 0); [lia|]. apply D1'. exact Hx. }
    rewrite St. reflexivity. }
  intros j Hj. rewrite P8. unfold restored.
  rewrite (Q 0) by lia. rewrite Q0.
  unfold OBFS_WG_HANDSHAKE_INIT, OBFS_WG_HANDSHAKE_RESP, HSI_MAC2, HSR_MAC2.
  destruct (randomizes s len) as [off|] eqn:Rz.
  - pose proof (randomizes_some _ _ _ Rz) as (Hc & _).
    specialize (Htag off eq_refl).
    unfold WG_HANDSHAKE_INIT, WG_HANDSHAKE_RESP, HSI_MAC2, HSR_MAC2 in Hc.
    destruct Hc as [(C & _ & ->)|(C & _ & ->)]; rewrite C;
      change (u8 (Z.lor 1 16)) with 17; change (u8 (Z.lor 2 16)) with 18;
      simpl (17 =? _); simpl (18 =? _); simpl (u8 (Z.land _ 15));
      destruct (Z.eqb_spec j 0) as [->|Hj0]; try (symmetry; exact C);
      simpl andb;
      match goal with
      | |- context [(?a <=? j) && (j <? ?b)] =>
          destruct (Z.leb_spec a j); destruct (Z.ltb_spec j b); simpl
      end;
      try (symmetry; apply Htag; lia);
      (rewrite (Q j) by lia; apply Q1; [exact Hj0|];
       intros off' Ro; injection Ro as <-; lia).
  - assert (T : pkt s 0 = 1 \/ pkt s 0 = 2 \/ pkt s 0 = 3 \/ pkt s 0 = 4).
    { unfold supported, WG_HANDSHAKE_INIT, WG_HANDSHAKE_RESP, WG_COOKIE,
        WG_DATA in Hsup. lia. }
    destruct (Z.eqb_spec j 0) as [->|Hj0].
    + destruct T as [-> | [-> | [-> | ->]]]; reflexivity.
    + replace ((pkt s 0 =? 17) && (132 <=? j) && (j <? 132 + 16))
        with false
        by (destruct T as [-> | [-> | [-> | ->]]]; reflexivity).
      replace ((pkt s 0 =? 18) && (76 <=? j) && (j <? 76 + 16))
        with false
        by (destruct T as [-> | [-> | [-> | ->]]]; reflexivity).
      rewrite (Q j) by lia. apply Q1; [exact Hj0|]. discriminate.
Qed.

(** ** Where the decoder reads *)

Lemma reads_within_refl (lo hi : Z) (s : machine) : reads_within lo hi s s.
Proof. exists []. split; [reflexivity|constructor]. Qed.

Lemma reads_within_trans (lo hi : Z) (s s1 s2 : machine) :
  reads_within lo hi s s1 -> reads_within lo hi s1 s2 ->
  reads_within lo hi s s2.
Proof.
  intros (t1 & E1 & F1) (t2 & E2 & F2). exists (t2 ++ t1). split.
  - rewrite E2, E1. apply app_assoc.
  - unfold loads in *. rewrite flat_map_app. apply Forall_app. auto.
Qed.

Lemma reads_within_load (lo hi off : Z) (s : machine) :
  lo <= off < hi ->
  reads_within lo hi s (Machine (pkt s) (draws s) (EvLoad off :: trace s)).
Proof.
  intros H. exists [EvLoad off]. split; [reflexivity|].
  simpl. constructor; [exact H|constructor].
Qed.

Lemma reads_within_store (lo hi off : Z) (f : Z -> Z) (s : machine) :
  reads_within lo hi s (Machine f (draws s) (EvStore off :: trace s)).
Proof. exists [EvStore off]. split; [reflexivity|constructor]. Qed.

Lemma reads_load_bytes (lo hi : Z) (n : nat) (off : Z) (s s' : machine)
  (bs : list Z) :
  lo <= off -> off + Z.of_nat n <= hi ->
  load_bytes n off s = Some (bs, s') -> reads_within lo hi s s'.
Proof.
  revert off s bs. induction n as [|n IH]; intros off s bs Hlo Hhi.
  - intros E. injection E as <- <-. apply reads_within_refl.
  - unfold load_bytes; fold load_bytes. unfold bind at 1. unfold load at 1.
    unfold bind at 1.
    destruct (load_bytes n (off + 1) _) as [[bs' s1]|] eqn:E1;
      [|discriminate].
    unfold ret. intros E. injection E as <- <-.
    eapply reads_within_trans; [apply (reads_within_load lo hi off); lia|].
    apply (IH (off + 1) _ bs'); [lia|lia|exact E1].
Qed.

Lemma reads_memcpy_in (lo hi : Z) (n : nat) (dst : Z) (src : list Z)
  (i : nat) (s s' : machine) :
  memcpy_in n dst src i s = Some (tt, s') -> reads_within lo hi s s'.
Proof.
  revert dst i s. induction n as [|n IH]; intros dst i s.
  - intros E. injection E as <-. apply reads_within_refl.
  - unfold memcpy_in; fold memcpy_in. unfold bind, store. intros E.
    eapply reads_within_trans; [apply reads_within_store|].
    apply (IH _ _ _ E).
Qed.

Lemma reads_xor_head (lo hi : Z) (n : nat) (b : Z) (i : nat) (out : list Z)
  (s s' : machine) :
  lo <= b -> b + Z.of_nat n <= hi ->
  xor_head n b i out s = Some (tt, s') -> reads_within lo hi s s'.
Proof.
  revert b i s. induction n as [|n IH]; intros b i s Hlo Hhi.
  - intros E. injection E as <-. apply reads_within_refl.
  - unfold xor_head; fold xor_head. unfold bind, load, store.
    cbn [pkt draws trace]. intros E.
    eapply reads_within_trans; [apply (reads_within_load lo hi b); lia|].
    eapply reads_within_trans; [apply reads_within_store|].
    apply (IH (b + 1) (S i) _); [lia|lia|exact E].
Qed.

Lemma reads_shift_fwd (lo hi : Z) (n : nat) (head b : Z) (s s' : machine) :
  lo <= b -> b + Z.of_nat n <= hi ->
  shift_fwd n head b s = Some (tt, s') -> reads_within lo hi s s'.
Proof.
  revert head b s. induction n as [|n IH]; intros head b s Hlo Hhi.
  - intros E. injection E as <-. apply reads_within_refl.
  - unfold shift_fwd; fold shift_fwd. unfold bind, load, store.
    cbn [pkt draws trace]. intros E.
    eapply reads_within_trans; [apply (reads_within_load lo hi b); lia|].
    eapply reads_within_trans; [apply reads_within_store|].
    apply (IH (head + 1) (b + 1) _); [lia|lia|exact E].
Qed.

Lemma reads_chacha8_hash (lo hi input : Z) (key out : list Z)
  (s s' : machine) :
  lo <= input -> input + 8 <= hi ->
  chacha8_hash input key s = Some (out, s') -> reads_within lo hi s s'.
Proof.
  intros Hlo Hhi. unfold chacha8_hash. unfold bind at 1.
  destruct (load_bytes _ input s) as [[bs s1]|] eqn:E1; [|discriminate].
  unfold bind, log, ret. intros E. injection E as <- <-.
  eapply reads_within_trans.
  - apply (reads_load_bytes lo hi _ _ _ _ _ Hlo) in E1; [exact E1|].
    unfold CHACHA8_INPUT_SIZE. lia.
  - exists [EvHash input]. split; [reflexivity|constructor].
Qed.

Lemma reads_restore_mac2 (hi : Z) (s s' : machine) :
  0 < hi -> restore_mac2 s = Some (tt, s') -> reads_within 0 hi s s'.
Proof.
  intros Hhi. unfold restore_mac2. unfold bind at 1. unfold load at 1.
  unfold bind at 1.
  match goal with
  | |- context [if ?c then ?a else ?b] =>
      assert (R : forall st st', (if c then a else b) st = Some (tt, st') ->
                                 reads_within 0 hi st st')
  end.
  { intros st st'. destruct (_ =? _); [apply reads_memcpy_in|].
    destruct (_ =? _); [apply reads_memcpy_in|].
    intros E. injection E as <-. apply reads_within_refl. }
  match goal with
  | |- context [(if ?c then ?a else ?b) ?st] =>
      destruct ((if c then a else b) st) as [[[] s1]|] eqn:E1; [|discriminate]
  end.
  apply R in E1. unfold bind, load, store. intros E. injection E as <-.
  eapply reads_within_trans; [apply (reads_within_load 0 hi 0); lia|].
  eapply reads_within_trans; [exact E1|].
  eapply reads_within_trans; [apply (reads_within_load 0 hi 0); lia|].
  apply (reads_within_store 0 hi 0 _
           (Machine (pkt s1) (draws s1) (EvLoad 0 :: trace s1))).
Qed.

(** On a datagram of at least 8 bytes [restore_wg] reads inside it. *)
Lemma reads_restore_wg (len : Z) (key : list Z) (s s' : machine) (r : Z) :
  8 <= len -> restore_wg len key s = Some (r, s') ->
  reads_within 0 len s s'.
Proof.
  intros Hlen. unfold restore_wg. unfold bind at 1.
  destruct (chacha8_hash _ key s) as [[ks s1]|] eqn:E1; [|discriminate].
  apply (reads_chacha8_hash 0 len) in E1 as R1;
    [|unfold CHACHA8_INPUT_SIZE; lia..].
  unfold bind at 1. unfold load at 1. unfold bind at 1. unfold store at 1.
  unfold bind at 1. unfold load at 1. cbn [pkt draws trace].
  set (n := upd (pkt s1) 0 (u8 (Z.lxor (pkt s1 0) (nth 16 ks 0))) 0).
  assert (Hn : 0 <= n < 256) by (apply u8_range).
  match goal with
  | |- context [Machine ?f ?d (EvLoad 0 :: EvStore 0 :: EvLoad 0 :: ?t)] =>
      set (s2 := Machine f d (EvLoad 0 :: EvStore 0 :: EvLoad 0 :: t))
  end.
  assert (R2 : reads_within 0 len s1 s2).
  { exists [EvLoad 0; EvStore 0; EvLoad 0]. split; [reflexivity|].
    simpl. repeat constructor; lia. }
  unfold WG_MIN_LEN.
  destruct (Z.ltb_spec len (n + 32)).
  { intros E. injection E as <- <-.
    eapply reads_within_trans; eassumption. }
  unfold bind at 1.
  destruct (shift_fwd _ 0 n s2) as [[[] s3]|] eqn:E3; [|discriminate].
  apply (reads_shift_fwd 0 len) in E3 as R3; [|lia..].
  unfold bind at 1.
  destruct (xor_head 16 0 0 ks s3) as [[[] s4]|] eqn:E4; [|discriminate].
  apply (reads_xor_head 0 len) in E4 as R4; [|lia..].
  unfold bind at 1.
  destruct (restore_mac2 s4) as [[[] s5]|] eqn:E5; [|discriminate].
  apply (reads_restore_mac2 len) in E5 as R5; [|lia].
  intros E. injection E as <- <-.
  repeat (eapply reads_within_trans; [eassumption|]).
  apply reads_within_refl.
Qed.

(** X11.  On every datagram but those of 4..7 bytes [xt_unobfs] reads
    inside the datagram, whatever it returns. *)
Lemma reads_xt_unobfs (key : list Z) (writable : bool) (len : Z)
  (s s' : machine) (v : verdict) :
  len < 4 \/ 8 <= len ->
  xt_unobfs key writable len s = Some (v, s') -> reads_within 0 len s s'.
Proof.
  intros Hlen. unfold xt_unobfs.
  destruct writable; simpl.
  2:{ intros E. injection E as <- <-. apply reads_within_refl. }
  unfold MIN_RND_LEN. destruct (Z.ltb_spec len 4).
  { intros E. injection E as <- <-. apply reads_within_refl. }
  unfold bind.
  destruct (restore_wg len key s) as [[r s1]|] eqn:E1; [|discriminate].
  apply reads_restore_wg in E1; [|lia].
  destruct (r <? 0); intros E; injection E as <- <-; exact E1.
Qed.

(** C1, as the code has it.  Let [m] be a message of bytes, of a recognised
    kind and supported length, whose tag field (handshake kinds) is all zero
    or has a non-zero byte among its first four.  If [xt_obfs] lets [m]
    continue as a datagram, in a run where the slot [ob.rnd_len] that
    [obfs_wg] reads holds the selected length, then [xt_unobfs] with the same
    key, on any buffer [sd] that holds the bytes of that datagram, continues
    with a payload byte-identical to [m]. *)
Theorem decode_encode_roundtrip (key : list Z) (expand_ok : bool)
  (ob : obfs_buf) (fuel : nat) (m : list Z) (len' : Z) (s s' sd : machine) :
  payload s (Z.of_nat (length m)) = m ->
  Forall is_u8 m ->
  supported (nth 0 m 0) (Z.of_nat (length m)) ->
  tag_unambiguous m ->
  xt_obfs key expand_ok ob fuel (Z.of_nat (length m)) s
    = Some (XT_CONTINUE len', s') ->
  rnd_len ob = len' - Z.of_nat (length m) ->
  payload sd len' = payload s' len' ->
  exists s'', xt_unobfs key true len' sd
              = Some (XT_CONTINUE (Z.of_nat (length m)), s'')
              /\ payload s'' (Z.of_nat (length m)) = m.
Proof.
  intros Hm Hu8 Hsup Htag E Hslot Hsd.
  set (len := Z.of_nat (length m)) in *.
  assert (Hp : forall j, 0 <= j < len -> pkt s j = nth (Z.to_nat j) m 0).
  { intros j Hj. rewrite <- (payload_nth s len j Hj), Hm. reflexivity. }
  assert (Hlen : 32 <= len) by (unfold supported in Hsup; lia).
  assert (H0 : pkt s 0 = nth 0 m 0) by (apply (Hp 0); lia).
  destruct (roundtrip_core key expand_ok ob fuel len len' s s' sd)
    as (s'' & E' & P); auto.
  - rewrite H0. exact Hsup.
  - intros j Hj. rewrite Hp by lia.
    rewrite Forall_forall in Hu8. apply Hu8. apply nth_In. lia.
  - intros off R j Hj. apply randomizes_some in R.
    destruct R as (Hc & Z0 & Z1 & Z2 & Z3).
    rewrite H0 in Hc. unfold HSI_MAC2, HSR_MAC2 in Hc.
    destruct Htag as (Ti & Tr).
    assert (Hz : tag_zero m (Z.to_nat off)).
    { destruct Hc as [(C & Cl & ->)|(C & Cl & ->)];
        [destruct (Ti C) as [Tz|(i & Hi & Ni)]
        |destruct (Tr C) as [Tz|(i & Hi & Ni)]];
        try exact Tz; exfalso; apply Ni;
        [rewrite <- (Nat2Z.id (132 + i))|rewrite <- (Nat2Z.id (76 + i))];
        rewrite <- Hp by lia;
        destruct i as [|[|[|[|i]]]]; try lia; assumption. }
    rewrite Hp by lia.
    replace (Z.to_nat j) with (Z.to_nat off + Z.to_nat (j - off))%nat by lia.
    apply Hz. lia.
  - intros j Hj.
    rewrite <- (payload_nth sd len' j Hj), <- (payload_nth s' len' j Hj).
    rewrite Hsd. reflexivity.
  - exists s''. split; [exact E'|].
    rewrite <- Hm. apply payload_ext. exact P.
Qed.

(** When the slot [ob.rnd_len] holds the selected length, a Cookie or Data
    message sits behind the prefix with nothing but its first 16 bytes
    changed. *)
Lemma xt_obfs_frame_when_slot_matches (key : list Z) (expand_ok : bool)
  (ob : obfs_buf) (fuel : nat) (len len' : Z) (s s' : machine) :
  (pkt s 0 = WG_COOKIE \/ pkt s 0 = WG_DATA) -> 32 <= len ->
  xt_obfs key expand_ok ob fuel len s = Some (XT_CONTINUE len', s') ->
  rnd_len ob = len' - len ->
  forall j, 16 <= j < len -> pkt s' (len' - len + j) = pkt s j.
Proof.
  intros Hk Hlen E Hslot j Hj.
  apply xt_obfs_continue in E.
  destruct E as (t & n & buf & sb & ob2 & _ & G & _ & W & ->).
  apply get_random_insert_spec in G.
  destruct G as (Hn0 & _ & _ & Psb). cbn [pkt] in Psb.
  assert (Hslot' : rnd_len ob = n) by lia.
  destruct (obfs_wg_spec len (ObfsBuf buf (chacha_out ob) (rnd_len ob))
                         key sb) as (ob1 & s1 & ob2' & s4 & M & W' & _ & _ & P);
    [lia|cbn [rnd_len]; lia|].
  rewrite W' in W. injection W as <- <-.
  cbn [rnd_len] in P. rewrite Hslot' in P.
  destruct (obfs_mac2_spec len (ObfsBuf buf (chacha_out ob) (rnd_len ob))
                           key sb) as (ob1' & s1' & M' & _ & _ & _ & _ & P1).
  rewrite M' in M. injection M as -> ->.
  assert (N : randomizes sb len = None).
  { destruct (randomizes sb len) as [off|] eqn:R; [|reflexivity].
    apply randomizes_some in R. rewrite Psb in R.
    unfold WG_HANDSHAKE_INIT, WG_HANDSHAKE_RESP, WG_COOKIE, WG_DATA in *.
    lia. }
  rewrite P. replace (len + n - len + j) with (j + n) by lia.
  destruct (Z.leb_spec 0 (j + n)); [|lia].
  destruct (Z.ltb_spec (j + n) n); [lia|].
  destruct (Z.leb_spec n (j + n)); [|lia].
  destruct (Z.ltb_spec (j + n) (n + len)); [|lia].
  simpl. unfold masked. replace (j + n - n) with j by lia.
  destruct (Z.leb_spec 0 j); [|lia].
  destruct (Z.ltb_spec j 16); [lia|]. simpl.
  rewrite P1, after_mac2_none by exact N. rewrite Psb. reflexivity.
Qed.

(** ** Where the encoder writes *)

Lemma writes_within_refl (lo hi : Z) (s : machine) : writes_within lo hi s s.
Proof. exists []. split; [reflexivity|constructor]. Qed.

Lemma writes_within_trans (lo hi : Z) (s s1 s2 : machine) :
  writes_within lo hi s s1 -> writes_within lo hi s1 s2 ->
  writes_within lo hi s s2.
Proof.
  intros (t1 & E1 & F1) (t2 & E2 & F2). exists (t2 ++ t1). split.
  - rewrite E2, E1. apply app_assoc.
  - unfold stores in *. rewrite flat_map_app. apply Forall_app. auto.
Qed.

Lemma writes_within_weaken (lo hi lo' hi' : Z) (s s' : machine) :
  lo' <= lo -> hi <= hi' ->
  writes_within lo hi s s' -> writes_within lo' hi' s s'.
Proof.
  intros Hlo Hhi (t & E & F). exists t. split; [exact E|].
  eapply Forall_impl; [|exact F]. simpl. intros o Ho. lia.
Qed.

(** The events [u] of the first steps, then the rest of the run. *)
Lemma writes_within_prefix (lo hi : Z) (u : list event) (f : Z -> Z)
  (d : nat) (s s' : machine) :
  Forall (fun o => lo <= o < hi) (stores u) ->
  writes_within lo hi (Machine f d (u ++ trace s)) s' ->
  writes_within lo hi s s'.
Proof.
  intros Fu (t & E & F). exists (t ++ u). split.
  - rewrite E. cbn [trace]. apply app_assoc.
  - unfold stores in *. rewrite flat_map_app. apply Forall_app. auto.
Qed.

Lemma writes_within_steps (lo hi : Z) (u : list event) (f : Z -> Z)
  (d : nat) (s : machine) :
  Forall (fun o => lo <= o < hi) (stores u) ->
  writes_within lo hi s (Machine f d (u ++ trace s)).
Proof.
  intros Fu. apply (writes_within_prefix lo hi u f d); [exact Fu|].
  apply writes_within_refl.
Qed.

Lemma writes_load_bytes (lo hi : Z) (n : nat) (off : Z) (s s' : machine)
  (bs : list Z) :
  load_bytes n off s = Some (bs, s') -> writes_within lo hi s s'.
Proof.
  revert off s bs. induction n as [|n IH]; intros off s bs.
  - intros E. injection E as <- <-. apply writes_within_refl.
  - unfold load_bytes; fold load_bytes. unfold bind at 1. unfold load at 1.
    unfold bind at 1.
    destruct (load_bytes n (off + 1) _) as [[bs' s1]|] eqn:E1;
      [|discriminate].
    unfold ret. intros E. injection E as <- <-. apply IH in E1.
    refine (writes_within_prefix lo hi [EvLoad off] _ _ s s1 _ E1).
    constructor.
Qed.

Lemma writes_chacha8_hash (lo hi input : Z) (key out : list Z)
  (s s' : machine) :
  chacha8_hash input key s = Some (out, s') -> writes_within lo hi s s'.
Proof.
  unfold chacha8_hash. unfold bind at 1.
  destruct (load_bytes _ input s) as [[bs s1]|] eqn:E1; [|discriminate].
  unfold bind, log, ret. intros E. injection E as <- <-.
  eapply writes_within_trans; [apply (writes_load_bytes _ _ _ _ _ _ _ E1)|].
  apply (writes_within_steps lo hi [EvHash input]). constructor.
Qed.

Lemma writes_load_u32 (lo hi off v : Z) (s s' : machine) :
  load_u32 off s = Some (v, s') -> writes_within lo hi s s'.
Proof.
  unfold load_u32, bind, load, ret. cbn [pkt draws trace].
  intros E. injection E as <- <-.
  apply (writes_within_steps lo hi
           [EvLoad (off + 3); EvLoad (off + 2); EvLoad (off + 1); EvLoad off]).
  constructor.
Qed.

Lemma writes_memcpy_in (lo hi : Z) (n : nat) (dst : Z) (src : list Z)
  (i : nat) (s s' : machine) :
  lo <= dst -> dst + Z.of_nat n <= hi ->
  memcpy_in n dst src i s = Some (tt, s') -> writes_within lo hi s s'.
Proof.
  revert dst i s. induction n as [|n IH]; intros dst i s Hlo Hhi.
  - intros E. injection E as <-. apply writes_within_refl.
  - unfold memcpy_in; fold memcpy_in. unfold bind, store. intros E.
    apply IH in E; [|lia..].
    refine (writes_within_prefix lo hi [EvStore dst] _ _ s s' _ E).
    simpl. constructor; [lia|constructor].
Qed.

Lemma writes_xor_head (lo hi : Z) (n : nat) (b : Z) (i : nat) (out : list Z)
  (s s' : machine) :
  lo <= b -> b + Z.of_nat n <= hi ->
  xor_head n b i out s = Some (tt, s') -> writes_within lo hi s s'.
Proof.
  revert b i s. induction n as [|n IH]; intros b i s Hlo Hhi.
  - intros E. injection E as <-. apply writes_within_refl.
  - unfold xor_head; fold xor_head. unfold bind, load, store.
    cbn [pkt draws trace]. intros E. apply IH in E; [|lia..].
    refine (writes_within_prefix lo hi [EvStore b; EvLoad b] _ _ s s' _ E).
    simpl. constructor; [lia|constructor].
Qed.

Lemma writes_shift_back (lo hi : Z) (n : nat) (tail b : Z) (s s' : machine) :
  lo <= b - Z.of_nat n + 1 -> b < hi ->
  shift_back n tail b s = Some (tt, s') -> writes_within lo hi s s'.
Proof.
  revert tail b s. induction n as [|n IH]; intros tail b s Hlo Hhi.
  - intros E. injection E as <-. apply writes_within_refl.
  - unfold shift_back; fold shift_back. unfold bind, load, store.
    cbn [pkt draws trace]. intros E. apply IH in E; [|lia..].
    refine (writes_within_prefix lo hi [EvStore b; EvLoad tail] _ _ s s' _ E).
    simpl. constructor; [lia|constructor].
Qed.

(** [obfs_mac2] writes inside the message: only a 148-byte or a 92-byte
    message is written at all, at byte 0 and in its tag field. *)
Lemma writes_obfs_mac2 (len : Z) (ob ob' : obfs_buf) (k : list Z)
  (s s' : machine) :
  obfs_mac2 len ob k s = Some (ob', s') -> writes_within 0 len s s'.
Proof.
  assert (A : forall mac2 st st' o',
             0 <= mac2 -> mac2 + 16 <= len ->
             obfs_mac2_at mac2 ob k st = Some (o', st') ->
             writes_within 0 len st st').
  { intros mac2 st st' o' Hlo Hhi. unfold obfs_mac2_at.
    unfold bind at 1.
    destruct (load_u32 mac2 st) as [[np s0]|] eqn:E0; [|discriminate].
    apply (writes_load_u32 0 len) in E0.
    destruct (negb (np =? 0)).
    { intros E. injection E as <- <-. exact E0. }
    unfold bind at 1.
    destruct (chacha8_hash 8 k s0) as [[out s1]|] eqn:E1; [|discriminate].
    apply (writes_chacha8_hash 0 len) in E1.
    unfold bind at 1.
    destruct (memcpy_in WG_COOKIE_LEN mac2 out 0 s1) as [[[] s2]|] eqn:E2;
      [|discriminate].
    apply (writes_memcpy_in 0 len) in E2;
      [|lia|unfold WG_COOKIE_LEN; lia].
    unfold bind, load, store, ret. intros E. injection E as <- <-.
    eapply writes_within_trans; [exact E0|].
    eapply writes_within_trans; [exact E1|].
    eapply writes_within_trans; [exact E2|].
    apply (writes_within_steps 0 len [EvStore 0; EvLoad 0]).
    simpl. constructor; [lia|constructor]. }
  unfold obfs_mac2. unfold bind at 1. unfold load at 1.
  destruct (Z.eqb_spec (pkt s 0) WG_HANDSHAKE_INIT);
    destruct (Z.eqb_spec len 148); simpl;
    try (intros E; apply A in E; [|unfold HSI_MAC2; lia..];
         refine (writes_within_prefix 0 len [EvLoad 0] _ _ s s' _ E); constructor);
    (destruct (Z.eqb_spec (pkt s 0) WG_HANDSHAKE_RESP);
     destruct (Z.eqb_spec len 92); simpl;
     try (intros E; apply A in E; [|unfold HSR_MAC2; lia..];
          refine (writes_within_prefix 0 len [EvLoad 0] _ _ s s' _ E); constructor);
     intros E; injection E as <- <-;
     apply (writes_within_steps 0 len [EvLoad 0]); constructor).
Qed.

(** [obfs_wg] on a message of at least 16 bytes writes inside the region of
    the message and the prefix whose length it reads from [ob]. *)
Lemma writes_obfs_wg (len : Z) (ob ob' : obfs_buf) (key : list Z)
  (s s' : machine) :
  16 <= len -> 0 <= rnd_len ob ->
  obfs_wg len ob key s = Some (ob', s') ->
  writes_within 0 (len + rnd_len ob) s s'.
Proof.
  intros Hlen Hn. unfold obfs_wg. unfold bind at 1.
  destruct (obfs_mac2 len ob key s) as [[ob1 s1]|] eqn:E1; [|discriminate].
  destruct (obfs_mac2_spec len ob key s) as (ob1' & s1' & E1' & _ & L1 & _).
  rewrite E1 in E1'. injection E1' as <- <-.
  apply writes_obfs_mac2 in E1.
  apply (writes_within_weaken 0 len 0 (len + rnd_len ob)) in E1; [|lia..].
  unfold bind at 1.
  destruct (chacha8_hash _ key s1) as [[out s2]|] eqn:E2; [|discriminate].
  apply (writes_chacha8_hash 0 (len + rnd_len ob)) in E2.
  unfold bind at 1.
  destruct (xor_head 16 0 0 out s2) as [[[] s3]|] eqn:E3; [|discriminate].
  apply (writes_xor_head 0 (len + rnd_len ob)) in E3; [|lia..].
  unfold bind at 1. rewrite L1.
  destruct (shift_back _ _ _ s3) as [[[] s4]|] eqn:E4; [|discriminate].
  apply (writes_shift_back 0 (len + rnd_len ob)) in E4; [|lia..].
  unfold bind at 1.
  destruct (memcpy_in _ 0 _ 0 s4) as [[[] s5]|] eqn:E5; [|discriminate].
  apply (writes_memcpy_in 0 (len + rnd_len ob)) in E5; [|lia..].
  unfold ret. intros E. injection E as <- <-.
  repeat (eapply writes_within_trans; [eassumption|]).
  apply writes_within_refl.
Qed.

Lemma writes_get_random_insert (lo hi : Z) (fuel : nat) (a b : Z)
  (s s' : machine) (r : Z * list Z) :
  get_random_insert fuel a b s = Some (r, s') -> writes_within lo hi s s'.
Proof.
  revert s. induction fuel as [|fuel IH]; intros s.
  - discriminate.
  - rewrite get_random_insert_S. destruct (0 <? _).
    + intros E. injection E as <- <-.
      apply (writes_within_steps lo hi [EvRandom]). constructor.
    + intros E. apply IH in E.
      refine (writes_within_prefix lo hi [EvRandom] _ _ s s' _ E).
      constructor.
Qed.

Lemma writes_random_drop (lo hi len : Z) (key : list Z) (s s' : machine)
  (b : bool) :
  random_drop_wg_keepalive len key s = Some (b, s') ->
  writes_within lo hi s s'.
Proof.
  unfold random_drop_wg_keepalive. unfold bind at 1. unfold load at 1.
  destruct (_ || _).
  - intros E. injection E as <- <-.
    apply (writes_within_steps lo hi [EvLoad 0]). constructor.
  - unfold bind.
    destruct (chacha8_hash _ key _) as [[out s1]|] eqn:E1; [|discriminate].
    apply (writes_chacha8_hash lo hi) in E1. intros E.
    assert (s' = s1)
      by (unfold ret in E; destruct (50 <? _); congruence).
    subst s'.
    refine (writes_within_prefix lo hi [EvLoad 0] _ _ s s1 _ E1).
    constructor.
Qed.

(** ** Further properties of the encode path *)

Lemma xt_obfs_drop_state (key : list Z) (expand_ok : bool) (ob : obfs_buf)
  (fuel : nat) (len : Z) (s s' : machine) :
  xt_obfs key expand_ok ob fuel len s = Some (NF_DROP, s') ->
  pkt s' = pkt s /\ writes_within 0 0 s s'.
Proof.
  unfold xt_obfs. unfold bind at 1.
  destruct (random_drop_wg_keepalive len key s) as [[b s0]|] eqn:E0;
    [|discriminate].
  pose proof (writes_random_drop 0 0 _ _ _ _ _ E0) as W0.
  destruct (random_drop_spec len key s) as (t & E0').
  rewrite E0 in E0'. injection E0' as Eb Es.
  assert (P0 : pkt s0 = pkt s) by (rewrite Es; reflexivity).
  clear Eb Es. destruct b.
  { intros E. injection E as <-. auto. }
  unfold bind at 1.
  destruct (get_random_insert fuel MIN_RND_LEN _ s0)
    as [[[n buf] sb]|] eqn:G; [|discriminate].
  pose proof (writes_get_random_insert 0 0 _ _ _ _ _ _ G) as W1.
  apply get_random_insert_spec in G. destruct G as (_ & _ & _ & Psb).
  destruct expand_ok; simpl.
  - unfold bind at 1.
    destruct (obfs_wg len _ key sb) as [[ob2 s4]|]; discriminate.
  - intros E. injection E as <-. split; [congruence|].
    eapply writes_within_trans; eassumption.
Qed.

(** X1.  [xt_obfs] drops a packet exactly when the buffer cannot grow or the
    keepalive policy fires (a 32-byte Data message whose keystream starts
    above 50); a packet it drops has not been written to. *)
Theorem xt_obfs_drops_exactly_and_untouched (key : list Z)
  (expand_ok : bool) (ob : obfs_buf) (fuel : nat) (len : Z) (s s' : machine)
  (v : verdict) :
  xt_obfs key expand_ok ob fuel len s = Some (v, s') ->
  (v = NF_DROP <->
   expand_ok = false
   \/ (pkt s 0 = WG_DATA /\ len = 32
       /\ 50 < nth 0 (chacha8 (bytes_at s (len - 8) 8) key) 0))
  /\ (v = NF_DROP -> pkt s' = pkt s /\ writes_within 0 0 s s').
Proof.
  intros E. destruct v as [|len'].
  - split; [|intros _; apply (xt_obfs_drop_state _ _ _ _ _ _ _ E)].
    split; [intros _; apply (xt_obfs_drop _ _ _ _ _ _ _ E)|reflexivity].
  - split; [|discriminate]. split; [discriminate|]. intros H. exfalso.
    apply xt_obfs_continue in E.
    destruct E as (t & n & buf & sb & ob2 & D & _ & Eok & _).
    destruct (random_drop_spec len key s) as (t' & D').
    rewrite D in D'. injection D' as Eb _.
    destruct H as [H|(H1 & H2 & H3)]; [congruence|].
    apply Z.eqb_eq in H1. apply Z.eqb_eq in H2. apply Z.ltb_lt in H3.
    rewrite H1, H2, H3 in Eb. discriminate.
Qed.

(** X2.  On a message of at least 16 bytes every byte [xt_obfs] writes lies
    inside the message and the prefix whose length [obfs_wg] reads from
    [ob]; in a run where that length is the selected one, inside the
    datagram it emits. *)
Theorem xt_obfs_writes_inside_datagram (key : list Z) (expand_ok : bool)
  (ob : obfs_buf) (fuel : nat) (len : Z) (s s' : machine) (v : verdict) :
  16 <= len -> 0 <= rnd_len ob ->
  xt_obfs key expand_ok ob fuel len s = Some (v, s') ->
  writes_within 0 (len + rnd_len ob) s s'
  /\ (forall len', v = XT_CONTINUE len' -> rnd_len ob = len' - len ->
                   writes_within 0 len' s s').
Proof.
  intros Hlen Hn E.
  assert (W : writes_within 0 (len + rnd_len ob) s s').
  { destruct v as [|len'].
    - apply xt_obfs_drop_state in E. destruct E as (_ & W).
      apply (writes_within_weaken 0 0); [lia|lia|exact W].
    - apply xt_obfs_continue in E.
      destruct E as (t & n & buf & sb & ob2 & D & G & _ & W & _).
      apply (writes_random_drop 0 (len + rnd_len ob)) in D.
      apply (writes_get_random_insert 0 (len + rnd_len ob)) in G.
      apply writes_obfs_wg in W; [|exact Hlen|exact Hn].
      cbn [rnd_len] in W.
      eapply writes_within_trans; [exact D|].
      eapply writes_within_trans; [exact G|exact W]. }
  split; [exact W|].
  intros len' _ Hslot. replace len' with (len + rnd_len ob) by lia. exact W.
Qed.

Lemma trace_extends_refl (s : machine) : trace_extends s s.
Proof. exists []. reflexivity. Qed.

Lemma trace_extends_trans (s s1 s2 : machine) :
  trace_extends s s1 -> trace_extends s1 s2 -> trace_extends s s2.
Proof.
  intros (t1 & E1) (t2 & E2). exists (t2 ++ t1). rewrite E2, E1.
  apply app_assoc.
Qed.

Lemma trace_extends_of_writes (lo hi : Z) (s s' : machine) :
  writes_within lo hi s s' -> trace_extends s s'.
Proof. intros (t & E & _). exists t. exact E. Qed.

(** The masking loop stores at each of its [n] offsets. *)
Lemma xor_head_stores (n : nat) (b : Z) (i : nat) (out : list Z)
  (s s' : machine) :
  xor_head n b i out s = Some (tt, s') ->
  exists t, trace s' = t ++ trace s
            /\ forall k, b <= k < b + Z.of_nat n -> In (EvStore k) t.
Proof.
  revert b i s. induction n as [|n IH]; intros b i s.
  - intros E. injection E as <-. exists []. split; [reflexivity|]. lia.
  - unfold xor_head; fold xor_head. unfold bind, load, store.
    cbn [pkt draws trace]. intros E. apply IH in E.
    destruct E as (t & E & H). cbn [trace] in E.
    exists (t ++ [EvStore b; EvLoad b]). split.
    + rewrite E, <- app_assoc. reflexivity.
    + intros k Hk. apply in_or_app.
      destruct (Z.eq_dec k b) as [->|Hkb]; [right; left; reflexivity|].
      left. apply H. lia.
Qed.

(** X3.  [obfs_wg] has no test on the message length: whenever [xt_obfs]
    lets a packet continue it has written each of the offsets 0..15, so for
    a message that with its padding is shorter than 16 bytes it has written
    past the end of the datagram. *)
Theorem xt_obfs_masks_16_bytes_whatever_length (key : list Z)
  (expand_ok : bool) (ob : obfs_buf) (fuel : nat) (len len' : Z)
  (s s' : machine) :
  xt_obfs key expand_ok ob fuel len s = Some (XT_CONTINUE len', s') ->
  exists t, trace s' = t ++ trace s
            /\ forall k, 0 <= k < 16 -> In (EvStore k) t.
Proof.
  intros E. apply xt_obfs_continue in E.
  destruct E as (t0 & n & buf & sb & ob2 & D & G & _ & W & _).
  apply (writes_random_drop 0 0) in D. apply trace_extends_of_writes in D.
  apply (writes_get_random_insert 0 0) in G.
  apply trace_extends_of_writes in G.
  pose proof (trace_extends_trans _ _ _ D G) as (tb & Eb).
  revert W. unfold obfs_wg. unfold bind at 1.
  destruct (obfs_mac2 len _ key sb) as [[ob1 s1]|] eqn:E1; [|discriminate].
  apply writes_obfs_mac2 in E1. apply trace_extends_of_writes in E1.
  unfold bind at 1.
  destruct (chacha8_hash _ key s1) as [[out s2]|] eqn:E2; [|discriminate].
  apply (writes_chacha8_hash 0 0) in E2.
  apply trace_extends_of_writes in E2.
  unfold bind at 1.
  destruct (xor_head 16 0 0 out s2) as [[[] s3]|] eqn:E3; [|discriminate].
  apply xor_head_stores in E3. destruct E3 as (t3 & E3 & H3).
  unfold bind at 1.
  destruct (shift_back _ _ _ s3) as [[[] s4]|] eqn:E4; [|discriminate].
  match type of E4 with
  | shift_back ?k ?a ?b _ = _ =>
      apply (writes_shift_back (b - Z.of_nat k + 1) (b + 1)) in E4; [|lia..]
  end.
  apply trace_extends_of_writes in E4.
  unfold bind at 1.
  destruct (memcpy_in _ 0 _ 0 s4) as [[[] s5]|] eqn:E5; [|discriminate].
  match type of E5 with
  | memcpy_in ?k _ _ _ _ = _ =>
      apply (writes_memcpy_in 0 (Z.of_nat k)) in E5; [|lia..]
  end.
  apply trace_extends_of_writes in E5.
  unfold ret. intros E. injection E as _ <-.
  pose proof (trace_extends_trans _ _ _ E4 E5) as (ta & Ea).
  pose proof (trace_extends_trans _ _ _ E1 E2) as (tm & Em).
  exists (ta ++ t3 ++ tm ++ tb). split.
  - rewrite Ea, E3, Em, Eb. rewrite <- !app_assoc. reflexivity.
  - intros k Hk. apply in_or_app. right. apply in_or_app. left.
    apply H3. lia.
Qed.

(** ** Tag randomisation and restoration *)

(** X6.  On a handshake initiation of 148 bytes, or response of 92 bytes,
    whose tag field starts with four zero bytes, [obfs_mac2] sets bit 0x10 of
    the type byte, overwrites the 16 tag bytes with the first 16 bytes of the
    keystream seeded from bytes 8..15, leaves every other byte, and keeps
    that keystream in [ob->chacha_out]. *)
Theorem obfs_mac2_fills_empty_tag (len : Z) (ob : obfs_buf) (key : list Z)
  (s : machine) (off : Z) :
  (pkt s 0 = WG_HANDSHAKE_INIT /\ len = 148 /\ off = HSI_MAC2)
  \/ (pkt s 0 = WG_HANDSHAKE_RESP /\ len = 92 /\ off = HSR_MAC2) ->
  tag_head_zero s off ->
  exists s',
    obfs_mac2 len ob key s
    = Some (ObfsBuf (rnd ob) (chacha8 (bytes_at s 8 8) key) (rnd_len ob), s')
    /\ pkt s' 0 = pkt s 0 + 0x10
    /\ (forall j, off <= j < off + 16 ->
                  pkt s' j
                  = nth (Z.to_nat (j - off)) (chacha8 (bytes_at s 8 8) key) 0)
    /\ (forall j, j <> 0 -> ~ off <= j < off + 16 -> pkt s' j = pkt s j).
Proof.
  intros Hc Hz. apply tag_word_zero in Hz.
  unfold obfs_mac2. unfold bind at 1. unfold load at 1.
  assert (A : exists s',
            obfs_mac2_at off ob key
              (Machine (pkt s) (draws s) (EvLoad 0 :: trace s))
            = Some (ObfsBuf (rnd ob) (chacha8 (bytes_at s 8 8) key)
                            (rnd_len ob), s')
            /\ pkt s' 0 = pkt s 0 + 0x10
            /\ (forall j, off <= j < off + 16 ->
                  pkt s' j
                  = nth (Z.to_nat (j - off)) (chacha8 (bytes_at s 8 8) key) 0)
            /\ (forall j, j <> 0 -> ~ off <= j < off + 16 ->
                          pkt s' j = pkt s j)).
  { destruct (obfs_mac2_at_spec off ob key
                (Machine (pkt s) (draws s) (EvLoad 0 :: trace s)))
      as (s' & E & _ & P).
    { unfold HSI_MAC2, HSR_MAC2 in Hc. lia. }
    change (tag_word (Machine (pkt s) (draws s) (EvLoad 0 :: trace s)) off)
      with (tag_word s off) in *.
    change (bytes_at (Machine (pkt s) (draws s) (EvLoad 0 :: trace s)) 8 8)
      with (bytes_at s 8 8) in *.
    rewrite Hz in E, P. simpl (0 =? 0) in E, P. cbv iota in E, P.
    cbn [pkt] in P.
    exists s'. split; [exact E|].
    assert (H0 : 0 < off) by (unfold HSI_MAC2, HSR_MAC2 in Hc; lia).
    split; [|split].
    - rewrite P. simpl (0 =? 0). cbv iota.
      unfold WG_HANDSHAKE_INIT, WG_HANDSHAKE_RESP in Hc.
      destruct Hc as [(-> & _)|(-> & _)]; reflexivity.
    - intros j Hj. rewrite P.
      destruct (Z.eqb_spec j 0); [lia|].
      destruct (Z.leb_spec off j); [|lia].
      destruct (Z.ltb_spec j (off + 16)); [|lia]. reflexivity.
    - intros j Hj0 Hj. rewrite P.
      destruct (Z.eqb_spec j 0); [contradiction|].
      destruct (Z.leb_spec off j); destruct (Z.ltb_spec j (off + 16));
        simpl; try lia; reflexivity. }
  cbn [pkt].
  destruct Hc as [(Ht & Hl & Ho)|(Ht & Hl & Ho)]; subst off.
  - replace ((pkt s 0 =? WG_HANDSHAKE_INIT) && (len =? 148)) with true
      by (rewrite Ht, Hl; reflexivity).
    exact A.
  - replace ((pkt s 0 =? WG_HANDSHAKE_INIT) && (len =? 148)) with false
      by (rewrite Ht; reflexivity).
    replace ((pkt s 0 =? WG_HANDSHAKE_RESP) && (len =? 92)) with true
      by (rewrite Ht, Hl; reflexivity).
    exact A.
Qed.

Lemma land_15_small (t : Z) : 0 <= t <= 15 -> Z.land t 0x0F = t.
Proof.
  intros H. change 0x0F with (Z.ones 4). rewrite Z.land_ones by lia.
  apply Z.mod_small. change (2 ^ 4) with 16. lia.
Qed.

Lemma land_15_range (t : Z) : 0 <= Z.land t 0x0F <= 15.
Proof.
  change (Z.land t 0x0F) with (Z.land t (Z.ones 4)).
  rewrite Z.land_ones by lia.
  change (2 ^ 4) with 16. pose proof (Z.mod_pos_bound t 16). lia.
Qed.

(** X7.  [restore_mac2] undoes [obfs_mac2] without the key: on a buffer whose
    type byte has no bit above 0x0F, and whose tag field, where [obfs_mac2]
    takes it for empty, is all zero, [restore_mac2] after [obfs_mac2] gives
    every byte back. *)
Theorem restore_mac2_inverts_obfs_mac2 (len : Z) (ob : obfs_buf)
  (key : list Z) (s : machine) :
  0 <= pkt s 0 <= 15 ->
  (forall off, randomizes s len = Some off ->
               forall j, off <= j < off + 16 -> pkt s j = 0) ->
  exists ob1 s1 s2,
    obfs_mac2 len ob key s = Some (ob1, s1)
    /\ restore_mac2 s1 = Some (tt, s2)
    /\ forall j, pkt s2 j = pkt s j.
Proof.
  intros Ht Htag.
  destruct (obfs_mac2_spec len ob key s)
    as (ob1 & s1 & E1 & _ & _ & _ & _ & P1).
  destruct (restore_mac2_spec s1) as (s2 & E2 & _ & P2).
  exists ob1, s1, s2. split; [exact E1|]. split; [exact E2|].
  intros j. rewrite P2. unfold restored. rewrite !P1. unfold after_mac2.
  unfold OBFS_WG_HANDSHAKE_INIT, OBFS_WG_HANDSHAKE_RESP, HSI_MAC2, HSR_MAC2.
  destruct (randomizes s len) as [off|] eqn:R.
  - pose proof (randomizes_some _ _ _ R) as (Hc & _).
    specialize (Htag off eq_refl).
    unfold WG_HANDSHAKE_INIT, WG_HANDSHAKE_RESP, HSI_MAC2, HSR_MAC2 in Hc.
    simpl (0 =? 0). cbv iota.
    destruct Hc as [(C & _ & ->)|(C & _ & ->)]; rewrite C;
      change (u8 (Z.lor 1 16)) with 17; change (u8 (Z.lor 2 16)) with 18;
      simpl (17 =? _); simpl (18 =? _); simpl (u8 (Z.land _ 15));
      destruct (Z.eqb_spec j 0) as [->|Hj0]; try (symmetry; exact C);
      simpl andb;
      match goal with
      | |- context [(?a <=? j) && (j <? ?b)] =>
          destruct (Z.leb_spec a j); destruct (Z.ltb_spec j b); simpl
      end;
      try (symmetry; apply Htag; lia); reflexivity.
  - destruct (Z.eqb_spec j 0) as [->|Hj0].
    + rewrite land_15_small by exact Ht. apply u8_small.
      unfold is_u8. lia.
    + replace (pkt s 0 =? 17) with false by (symmetry; apply Z.eqb_neq; lia).
      replace (pkt s 0 =? 18) with false by (symmetry; apply Z.eqb_neq; lia).
      reflexivity.
Qed.

(** X8.  After [restore_mac2] the type byte has no bit above 0x0F, whatever
    it was, and a second [restore_mac2] changes no byte. *)
Theorem restore_mac2_clears_marker_once (s : machine) :
  exists s1 s2,
    restore_mac2 s = Some (tt, s1)
    /\ restore_mac2 s1 = Some (tt, s2)
    /\ 0 <= pkt s1 0 <= 15
    /\ forall j, pkt s2 j = pkt s1 j.
Proof.
  destruct (restore_mac2_spec s) as (s1 & E1 & _ & P1).
  destruct (restore_mac2_spec s1) as (s2 & E2 & _ & P2).
  exists s1, s2. split; [exact E1|]. split; [exact E2|].
  assert (H0 : pkt s1 0 = Z.land (pkt s 0) 0x0F).
  { rewrite P1. unfold restored. simpl (0 =? 0). cbv iota.
    apply u8_small. pose proof (land_15_range (pkt s 0)).
    unfold is_u8. lia. }
  pose proof (land_15_range (pkt s 0)) as Hr.
  split; [rewrite H0; exact Hr|].
  intros j. rewrite P2. unfold restored.
  unfold OBFS_WG_HANDSHAKE_INIT, OBFS_WG_HANDSHAKE_RESP.
  destruct (Z.eqb_spec j 0) as [->|Hj0].
  - rewrite land_15_small by (rewrite H0; exact Hr).
    apply u8_small. unfold is_u8. rewrite H0. lia.
  - replace (pkt s1 0 =? 17) with false
      by (symmetry; apply Z.eqb_neq; rewrite H0; lia).
    replace (pkt s1 0 =? 18) with false
      by (symmetry; apply Z.eqb_neq; rewrite H0; lia).
    reflexivity.
Qed.

(** ** Further properties of the decode path *)

(** X9.  What [xt_unobfs] lets continue is between 32 bytes and the length of
    the datagram, at most 255 bytes shorter than the datagram, and has a type
    byte without a bit above 0x0F. *)
Theorem xt_unobfs_output_bounds (key : list Z) (writable : bool)
  (len l : Z) (s s' : machine) :
  xt_unobfs key writable len s = Some (XT_CONTINUE l, s') ->
  writable = true /\ 32 <= l <= len /\ len - l <= 255
  /\ 0 <= pkt s' 0 <= 15.
Proof.
  destruct writable; [|discriminate]. intros E.
  destruct (xt_unobfs_spec key len s) as (s1 & E1 & _ & P).
  rewrite E in E1. pose proof (recovered_len_range key s len) as Hn.
  unfold MIN_RND_LEN, WG_MIN_LEN in *.
  destruct (Z.ltb_spec len 4); [discriminate|].
  destruct (Z.ltb_spec len (recovered_len key s len + 32)); [discriminate|].
  simpl in E1. injection E1 as -> ->.
  split; [reflexivity|]. split; [lia|]. split; [lia|].
  rewrite P. unfold restored. simpl (0 =? 0). cbv iota.
  match goal with
  | |- context [Z.land ?t 15] =>
      pose proof (land_15_range t) as Hr;
        rewrite (u8_small (Z.land t 15)) by (unfold is_u8; lia); exact Hr
  end.
Qed.

(** X10.  [restore_mac2] is not told the length of the message: when the
    unmasked type byte is 0x11 (0x12), [xt_unobfs] zeroes the offsets
    132..147 (76..91) of the buffer, also when the message it hands on, or the
    whole datagram, ends before them. *)
Theorem xt_unobfs_zeroes_tag_whatever_length (key : list Z) (len : Z)
  (s : machine) (off : Z) :
  4 <= len -> recovered_len key s len + 32 <= len ->
  (unmasked_type key s len = OBFS_WG_HANDSHAKE_INIT /\ off = HSI_MAC2)
  \/ (unmasked_type key s len = OBFS_WG_HANDSHAKE_RESP /\ off = HSR_MAC2) ->
  exists s',
    xt_unobfs key true len s
    = Some (XT_CONTINUE (len - recovered_len key s len), s')
    /\ forall j, off <= j < off + 16 -> pkt s' j = 0.
Proof.
  intros H4 Hn Ht.
  destruct (xt_unobfs_spec key len s) as (s' & E & _ & P).
  unfold MIN_RND_LEN, WG_MIN_LEN in *.
  destruct (Z.ltb_spec len 4); [lia|].
  destruct (Z.ltb_spec len (recovered_len key s len + 32)); [lia|].
  exists s'. split; [exact E|].
  intros j Hj. rewrite P. unfold restored.
  fold (unmasked_type key s len).
  unfold OBFS_WG_HANDSHAKE_INIT, OBFS_WG_HANDSHAKE_RESP, HSI_MAC2, HSR_MAC2
    in *.
  destruct Ht as [(-> & ->)|(-> & ->)];
    (destruct (Z.eqb_spec j 0); [lia|]); simpl (_ =? _); simpl andb;
    repeat match goal with
           | |- context [?a <=? j] => destruct (Z.leb_spec a j)
           | |- context [j <? ?b] => destruct (Z.ltb_spec j b)
           end; simpl; try lia; reflexivity.
Qed.

(** ** The selector, exactly *)

Lemma scan_block_first (n i k : nat) (buf : list Z) (lo hi : Z) :
  (i <= k < i + n)%nat ->
  (forall k', (i <= k' < k)%nat -> ~ lo <= nth k' buf 0 <= hi) ->
  lo <= nth k buf 0 <= hi ->
  scan_block n i buf lo hi 0 = nth k buf 0.
Proof.
  revert i. induction n as [|n IH]; intros i Hk Hmiss Hhit; simpl.
  - lia.
  - destruct (Nat.eq_dec i k) as [->|Hik].
    + destruct (Z.leb_spec lo (nth k buf 0)); [|lia].
      destruct (Z.leb_spec (nth k buf 0) hi); [reflexivity|lia].
    + pose proof (Hmiss i ltac:(lia)) as Hi.
      destruct (Z.leb_spec lo (nth i buf 0)); simpl.
      * destruct (Z.leb_spec (nth i buf 0) hi); [lia|].
        apply IH; [lia| |exact Hhit]. intros k' Hk'. apply Hmiss. lia.
      * apply IH; [lia| |exact Hhit]. intros k' Hk'. apply Hmiss. lia.
Qed.

(** X12.  [get_random_insert] returns the first byte in range of the first
    block that has one: when the next [k] blocks have no byte in
    [min, max] and byte [i] is the first such byte of the block after them,
    it returns that byte, leaves that block in [buf], has drawn [k + 1]
    blocks and has not touched the packet. *)
Theorem get_random_insert_first_hit (lo hi : Z) (k i : nat) :
  1 <= lo -> (i < 32)%nat ->
  forall (fuel : nat) (s : machine),
  (k < fuel)%nat ->
  (forall d j, (draws s <= d < draws s + k)%nat -> (j < 32)%nat ->
               ~ lo <= entropy d j <= hi) ->
  (forall j, (j < i)%nat -> ~ lo <= entropy (draws s + k) j <= hi) ->
  lo <= entropy (draws s + k) i <= hi ->
  exists s',
    get_random_insert fuel lo hi s
    = Some ((entropy (draws s + k) i, block (draws s + k)), s')
    /\ draws s' = (draws s + k + 1)%nat
    /\ pkt s' = pkt s.
Proof.
  intros Hlo Hi. induction k as [|k IH]; intros fuel s Hf Hmiss Hfirst Hhit.
  - destruct fuel as [|fuel]; [lia|]. rewrite get_random_insert_S.
    rewrite Nat.add_0_r in *.
    rewrite (scan_block_first _ 0 i).
    + rewrite block_nth by exact Hi.
      destruct (Z.ltb_spec 0 (entropy (draws s) i)); [|lia].
      eexists. split; [reflexivity|]. cbn [draws pkt]. split; [lia|].
      reflexivity.
    + change (Z.to_nat MAX_RND_LEN) with 32%nat. lia.
    + intros j Hj. rewrite block_nth by lia. apply Hfirst. lia.
    + rewrite block_nth by exact Hi. exact Hhit.
  - destruct fuel as [|fuel]; [lia|]. rewrite get_random_insert_S.
    rewrite scan_block_miss.
    2:{ intros j Hj. change (Z.to_nat MAX_RND_LEN) with 32%nat in Hj.
        rewrite block_nth by lia. apply Hmiss; lia. }
    simpl (0 <? 0). cbv iota.
    destruct (IH fuel (Machine (pkt s) (S (draws s)) (EvRandom :: trace s)))
      as (s' & E & D & P).
    + lia.
    + cbn [draws]. intros d j Hd Hj. apply Hmiss; lia.
    + cbn [draws]. intros j Hj.
      replace (S (draws s) + k)%nat with (draws s + S k)%nat by lia.
      apply Hfirst. exact Hj.
    + cbn [draws].
      replace (S (draws s) + k)%nat with (draws s + S k)%nat by lia.
      exact Hhit.
    + cbn [draws pkt] in E, D, P.
      replace (S (draws s) + k)%nat with (draws s + S k)%nat in E by lia.
      exists s'. split; [exact E|]. split; [lia|exact P].
Qed.

(** X13.  Whatever range it is called with, [get_random_insert] only returns
    a value that is positive and in the range, so that with [max_len <= 0] it
    never returns, whatever the entropy source offers. *)
Theorem get_random_insert_positive_or_never (lo hi : Z) :
  (forall fuel s r buf s',
     get_random_insert fuel lo hi s = Some ((r, buf), s') ->
     0 < r /\ lo <= r <= hi)
  /\ (hi <= 0 -> forall fuel s, get_random_insert fuel lo hi s = None).
Proof using.
  split.
  - intros fuel s r buf s' E. apply get_random_insert_spec in E.
    destruct E as (H0 & Hr & _). split; assumption.
  - intros Hhi fuel s.
    destruct (get_random_insert fuel lo hi s) as [[[r buf] s']|] eqn:E;
      [|reflexivity].
    apply get_random_insert_spec in E.
    destruct E as (H0 & Hr & _). lia.
Qed.

(** ** The datagram [xt_obfs] emits *)

Lemma after_mac2_same_pkt (s s0 : machine) (len : Z) (k : list Z) (j : Z) :
  pkt s0 = pkt s -> after_mac2 s0 len k j = after_mac2 s len k j.
Proof.
  intros H. unfold after_mac2, randomizes, tag_word, bytes_at.
  rewrite H. reflexivity.
Qed.

Lemma map_offsets_ext (f g : Z -> Z) (off off' : Z) (n : nat) :
  (forall i, 0 <= i < Z.of_nat n -> f (off + i) = g (off' + i)) ->
  map f (offsets off n) = map g (offsets off' n).
Proof.
  intros H. unfold offsets. rewrite !map_map.
  apply map_ext_in. intros i Hi. apply in_seq in Hi. apply H. lia.
Qed.

Lemma seq_from (a b : nat) :
  seq a b = map (fun i => (a + i)%nat) (seq 0 b).
Proof.
  induction a as [|a IH].
  - simpl. symmetry. apply map_id.
  - rewrite <- seq_shift, IH, map_map. reflexivity.
Qed.

Lemma offsets_app (off : Z) (a b : nat) :
  offsets off (a + b) = offsets off a ++ offsets (off + Z.of_nat a) b.
Proof.
  unfold offsets. rewrite seq_app, map_app. f_equal.
  rewrite (seq_from (0 + a) b), map_map.
  apply map_ext. intros i. lia.
Qed.

(** Byte [j >= 1] of the prefix comes from the block the selector left. *)
Lemma nth_prefix_block (v : Z) (d : nat) (co : list Z) (n : Z) (j : nat) :
  (1 <= j < 32)%nat ->
  nth j (ob_bytes (ObfsBuf (set_head v (block d)) co n)) 0 = entropy d j.
Proof.
  intros Hj. rewrite <- (block_nth d j) by lia.
  unfold ob_bytes. cbn [rnd chacha_out rnd_len].
  assert (L : length (set_head v (block d)) = 32%nat) by reflexivity.
  rewrite app_nth1 by lia.
  destruct j as [|j]; [lia|]. reflexivity.
Qed.

(** The layout of the datagram, when [ob.rnd_len] holds the selected
    length. *)
Lemma xt_obfs_layout (key : list Z) (expand_ok : bool) (ob : obfs_buf)
  (fuel : nat) (len len' : Z) (s s' : machine) :
  16 <= len ->
  xt_obfs key expand_ok ob fuel len s = Some (XT_CONTINUE len', s') ->
  rnd_len ob = len' - len ->
  exists n d,
    len' = len + n /\ 4 <= n <= 32 /\ (draws s <= d)%nat
    /\ pkt s' 0 = u8 (Z.lxor n (nth 16 (mask_keystream s len key) 0))
    /\ (forall j, (1 <= j)%nat -> Z.of_nat j < n ->
                  pkt s' (Z.of_nat j) = entropy d j)
    /\ (forall j, 0 <= j < len ->
                  pkt s' (n + j)
                  = masked (after_mac2 s len key) (mask_keystream s len key)
                           j).
Proof.
  intros Hlen E Hslot.
  apply xt_obfs_continue in E.
  destruct E as (t & n & buf & sb & ob2 & _ & G & _ & W & ->).
  apply get_random_insert_spec in G.
  destruct G as (Hn0 & Hn & (d & i & Hd & _ & -> & _) & Psb).
  cbn [pkt draws] in Psb, Hd.
  assert (Hn' : 4 <= n <= 32).
  { unfold MIN_RND_LEN, MAX_RND_LEN in Hn. destruct (200 <? len); lia. }
  assert (Hslot' : rnd_len ob = n) by lia. clear Hslot.
  destruct (obfs_wg_spec len (ObfsBuf (block d) (chacha_out ob) (rnd_len ob))
                         key sb) as (ob1 & s1 & ob2' & s4 & M & W' & _ & R & P);
    [lia|cbn [rnd_len]; lia|].
  rewrite W' in W. injection W as <- <-.
  cbn [rnd rnd_len] in R, P. rewrite Hslot' in R, P.
  destruct (obfs_mac2_spec len (ObfsBuf (block d) (chacha_out ob) (rnd_len ob))
                           key sb) as (ob1' & s1' & M' & _ & _ & _ & _ & P1).
  rewrite M' in M. injection M as -> ->.
  assert (Q1 : forall j, pkt s1 j = after_mac2 s len key j).
  { intros j. rewrite P1. apply after_mac2_same_pkt. exact Psb. }
  assert (K : chacha8 (bytes_at s1 (len - 8) 8) key
              = mask_keystream s len key).
  { unfold mask_keystream, bytes_at. f_equal.
    apply map_offsets_ext. intros k _. apply Q1. }
  rewrite K in R, P.
  exists n, d. split; [reflexivity|]. split; [exact Hn'|].
  split; [exact Hd|]. split; [|split].
  - rewrite P. destruct (Z.leb_spec 0 0); [|lia].
    destruct (Z.ltb_spec 0 n); [|lia]. simpl.
    destruct ob2' as [r2 c2 l2]. cbn [rnd] in R. subst r2.
    apply nth_0_ob_bytes.
  - intros j Hj1 Hjn. rewrite P.
    destruct (Z.leb_spec 0 (Z.of_nat j)); [|lia].
    destruct (Z.ltb_spec (Z.of_nat j) n); [|lia]. simpl.
    rewrite Nat2Z.id.
    destruct ob2' as [r2 c2 l2]. cbn [rnd] in R. subst r2.
    apply nth_prefix_block. lia.
  - intros j Hj. rewrite P.
    destruct (Z.leb_spec 0 (n + j)); [|lia].
    destruct (Z.ltb_spec (n + j) n); [lia|].
    destruct (Z.leb_spec n (n + j)); [|lia].
    destruct (Z.ltb_spec (n + j) (n + len)); [|lia]. simpl.
    replace (n + j - n) with j by lia.
    unfold masked. rewrite Q1. reflexivity.
Qed.

(** X4.  The datagram [xt_obfs] emits for a message of at least 16 bytes,
    when [ob.rnd_len] holds the selected length [n]: the byte
    [n XOR keystream[16]], then bytes 1..n-1 of the entropy block the
    selector stopped at, then the message as [obfs_mac2] left it with its
    first 16 bytes XORed with the keystream; the keystream is seeded from the
    last 8 bytes of that message. *)
Theorem xt_obfs_wire_format (key : list Z) (expand_ok : bool)
  (ob : obfs_buf) (fuel : nat) (len len' : Z) (s s' : machine) :
  16 <= len ->
  xt_obfs key expand_ok ob fuel len s = Some (XT_CONTINUE len', s') ->
  rnd_len ob = len' - len ->
  exists n d,
    len' = len + n /\ 4 <= n <= 32 /\ (draws s <= d)%nat
    /\ payload s' len'
       = (u8 (Z.lxor n (nth 16 (mask_keystream s len key) 0))
          :: map (entropy d) (seq 1 (Z.to_nat n - 1)))
         ++ map (masked (after_mac2 s len key) (mask_keystream s len key))
                (offsets 0 (Z.to_nat len)).
Proof.
  intros Hlen E Hslot.
  destruct (xt_obfs_layout _ _ _ _ _ _ _ _ Hlen E Hslot)
    as (n & d & -> & Hn & Hd & P0 & Pp & Pm).
  exists n, d. split; [reflexivity|]. split; [exact Hn|]. split; [exact Hd|].
  unfold payload.
  replace (Z.to_nat (len + n)) with (Z.to_nat n + Z.to_nat len)%nat by lia.
  rewrite offsets_app, map_app. f_equal.
  - replace (Z.to_nat n) with (S (Z.to_nat n - 1)) at 1 by lia.
    rewrite offsets_S. cbn [map]. rewrite P0. f_equal.
    unfold offsets. rewrite map_map. rewrite <- seq_shift, map_map.
    apply map_ext_in. intros j Hj. apply in_seq in Hj.
    replace (0 + 1 + Z.of_nat j) with (Z.of_nat (S j)) by lia.
    apply Pp; lia.
  - apply map_offsets_ext. intros j Hj.
    replace (0 + Z.of_nat (Z.to_nat n) + j) with (n + j) by lia.
    rewrite Pm by lia. f_equal.
Qed.

(** X5.  The first byte of that datagram gives the padding length back: for
    a message of at least 24 bytes of any type, on any buffer that holds the
    datagram, the length [restore_wg] recovers is the selected one. *)
Theorem xt_obfs_length_byte_decodes (key : list Z) (expand_ok : bool)
  (ob : obfs_buf) (fuel : nat) (len len' : Z) (s s' sd : machine) :
  24 <= len ->
  xt_obfs key expand_ok ob fuel len s = Some (XT_CONTINUE len', s') ->
  rnd_len ob = len' - len ->
  payload sd len' = payload s' len' ->
  recovered_len key sd len' = len' - len.
Proof.
  intros Hlen E Hslot Hsd.
  assert (H16 : 16 <= len) by lia.
  destruct (xt_obfs_layout _ _ _ _ _ _ _ _ H16 E Hslot)
    as (n & d & -> & Hn & Hd & P0 & _ & Pm).
  assert (Hd' : forall j, 0 <= j < len + n -> pkt sd j = pkt s' j).
  { intros j Hj.
    rewrite <- (payload_nth sd (len + n) j Hj),
            <- (payload_nth s' (len + n) j Hj).
    rewrite Hsd. reflexivity. }
  assert (K : chacha8 (bytes_at sd (len + n - 8) 8) key
              = mask_keystream s len key).
  { unfold mask_keystream, bytes_at. f_equal.
    apply map_offsets_ext. intros k Hk.
    rewrite Hd' by lia.
    replace (len + n - 8 + k) with (n + (len - 8 + k)) by lia.
    rewrite Pm by lia. unfold masked.
    destruct (Z.leb_spec 0 (len - 8 + k));
      destruct (Z.ltb_spec (len - 8 + k) 16); simpl; try lia; reflexivity. }
  unfold recovered_len. rewrite K, Hd', P0 by lia.
  rewrite u8_lxor_lxor. replace (len + n - len) with n by lia.
  apply u8_small. unfold is_u8. lia.
Qed.


(** ** What [xt_obfs] reads *)










(** ** Headers and socket buffer *)

Lemma prepare_skb_for_insert_some (h : host) (m m' : skb_meta) (ntail : Z) :
  prepare_skb_for_insert h m ntail = Some m' ->
  skb_len m' = skb_len m + ntail
  /\ skb_tail m' = skb_tail m + ntail
  /\ (skb_end m' = skb_end m
      \/ skb_end m' = skb_tail m + ntail + h_slack h)
  /\ iph_protocol m' = iph_protocol m
  /\ iph_tos m' = iph_tos m
  /\ iph_tot_len m' = iph_tot_len m
  /\ udph_len m' = udph_len m
  /\ ip_summed m' = ip_summed m.
Proof using.
  unfold prepare_skb_for_insert, skb_tailroom.
  destruct (0 <? ntail - (skb_end m - skb_tail m)).
  - destruct (h_expand h); [|discriminate].
    intros H. injection H as <-. cbn. repeat split. right. lia.
  - destruct (h_writable h); [|discriminate].
    intros H. injection H as <-. cbn. repeat split. left. reflexivity.
Qed.

(** X14.  [prepare_skb_for_insert] fails exactly when the kernel call it
    makes fails: [pskb_expand_head] when the tailroom is smaller than the
    bytes to insert, [skb_ensure_writable] otherwise.  When it succeeds the
    data area has grown by [ntail] bytes at the tail and still ends inside
    the buffer, whatever the tailroom was before, and the two length fields
    of the headers are as they were. *)
Theorem prepare_skb_for_insert_makes_room (h : host) (m : skb_meta)
  (ntail : Z) :
  0 <= h_slack h ->
  (prepare_skb_for_insert h m ntail = None
   <-> (if skb_tailroom m <? ntail then h_expand h = false
        else h_writable h = false))
  /\ forall m', prepare_skb_for_insert h m ntail = Some m' ->
       skb_len m' = skb_len m + ntail
       /\ skb_tail m' = skb_tail m + ntail
       /\ 0 <= skb_tailroom m'
       /\ skb_end m <= skb_end m'
       /\ iph_tot_len m' = iph_tot_len m
       /\ udph_len m' = udph_len m.
Proof using.
  intros Hs. unfold prepare_skb_for_insert, skb_tailroom. split.
  - destruct (Z.ltb_spec 0 (ntail - (skb_end m - skb_tail m)));
      destruct (Z.ltb_spec (skb_end m - skb_tail m) ntail); try lia.
    + destruct (h_expand h); split; congruence.
    + destruct (h_writable h); split; congruence.
  - intros m'.
    destruct (Z.ltb_spec 0 (ntail - (skb_end m - skb_tail m))).
    + destruct (h_expand h); [|discriminate].
      intros E. injection E as <-. cbn. repeat split; lia.
    + destruct (h_writable h); [|discriminate].
      intros E. injection E as <-. cbn. repeat split; lia.
Qed.

Section HeaderFacts.

Variable XT_MODE_OBFS : Z.
Variable XT_MODE_UNOBFS : Z.
Variable ip_send_check : Z -> Z -> Z -> Z.
Variable udp_checksum : Z -> list Z -> Z.

Lemma obfs_headers_spec (m : skb_meta) (n : Z) (s : machine) :
  exists m' t,
    obfs_headers ip_send_check udp_checksum m n s = Some (m', Machine (pkt s) (draws s) t)
    /\ iph_protocol m' = iph_protocol m
    /\ iph_tos m' = 0
    /\ iph_tot_len m' = u16 (iph_tot_len m + n)
    /\ iph_check m'
       = ip_send_check (iph_protocol m') (iph_tos m') (iph_tot_len m')
    /\ udph_len m' = u16 (udph_len m + n)
    /\ udph_check m'
       = udp_checksum (udph_len m') (payload s (udph_len m' - UDPHDR_SIZE))
    /\ ip_summed m' = (if ip_summed m =? CHECKSUM_PARTIAL
                       then CHECKSUM_NONE else ip_summed m)
    /\ skb_len m' = skb_len m
    /\ skb_tail m' = skb_tail m
    /\ skb_end m' = skb_end m.
Proof.
  unfold obfs_headers.
  match goal with
  | |- context [load_bytes ?k 0] =>
      destruct (load_bytes_spec k 0 s) as (t & E & _)
  end.
  unfold bind. rewrite E. unfold ret.
  eexists. exists t. split; [reflexivity|].
  cbn [with_tos with_tot_len with_iph_check with_udph_len with_udph_check
       with_ip_summed iph_protocol iph_tos iph_tot_len iph_check udph_len
       udph_check ip_summed skb_len skb_tail skb_end].
  destruct (ip_summed m =? CHECKSUM_PARTIAL);
    cbn [with_tos with_tot_len with_iph_check with_udph_len with_udph_check
         with_ip_summed iph_protocol iph_tos iph_tot_len iph_check udph_len
         udph_check ip_summed skb_len skb_tail skb_end];
    repeat split.
Qed.

Lemma unobfs_headers_spec (m : skb_meta) (n : Z) (s : machine) :
  exists m' t,
    unobfs_headers ip_send_check udp_checksum m n s = Some (m', Machine (pkt s) (draws s) t)
    /\ iph_protocol m' = iph_protocol m
    /\ iph_tos m' = iph_tos m
    /\ iph_tot_len m' = u16 (iph_tot_len m - n)
    /\ iph_check m'
       = ip_send_check (iph_protocol m') (iph_tos m') (iph_tot_len m')
    /\ udph_len m' = u16 (udph_len m - n)
    /\ udph_check m'
       = udp_checksum (udph_len m') (payload s (udph_len m' - UDPHDR_SIZE))
    /\ ip_summed m' = ip_summed m
    /\ skb_len m' = skb_len m - n
    /\ skb_tail m' = skb_tail m - n
    /\ skb_end m' = skb_end m.
Proof.
  unfold unobfs_headers.
  match goal with
  | |- context [load_bytes ?k 0] =>
      destruct (load_bytes_spec k 0 s) as (t & E & _)
  end.
  unfold bind. rewrite E. unfold ret.
  eexists. exists t. split; [reflexivity|].
  cbn [with_skb_len with_skb_tail with_tot_len with_iph_check with_udph_len
       with_udph_check iph_protocol iph_tos iph_tot_len iph_check udph_len
       udph_check ip_summed skb_len skb_tail skb_end].
  repeat split.
Qed.

#[local] Arguments obfs_headers : simpl never.
#[local] Arguments unobfs_headers : simpl never.

Lemma xt_obfs_skb_continue (key : list Z) (h : host) (ob : obfs_buf)
  (fuel : nat) (m m' : skb_meta) (l : Z) (s s' : machine) :
  xt_obfs_skb ip_send_check udp_checksum key h ob fuel m s = Some ((XT_CONTINUE l, m'), s') ->
  exists n m1 s0,
    xt_obfs key true ob fuel (udph_len m - UDPHDR_SIZE) s
      = Some (XT_CONTINUE (udph_len m - UDPHDR_SIZE + n), s0)
    /\ prepare_skb_for_insert h m n = Some m1
    /\ obfs_headers ip_send_check udp_checksum m1 n s0 = Some (m', s')
    /\ l = udph_len m' - UDPHDR_SIZE
    /\ MIN_RND_LEN <= n <= MAX_RND_LEN.
Proof.
  unfold xt_obfs_skb, xt_obfs.
  set (len := udph_len m - UDPHDR_SIZE).
  destruct (random_drop_spec len key s) as (t & E).
  unfold bind at 1. rewrite E.
  destruct (_ && _) eqn:D; [discriminate|].
  unfold bind at 1.
  destruct (get_random_insert fuel MIN_RND_LEN _ _) as [[[n buf] sb]|] eqn:G;
    [|discriminate].
  cbn [fst snd].
  destruct (prepare_skb_for_insert h m n) as [m1|] eqn:P; [|discriminate].
  unfold bind at 1.
  destruct (obfs_wg len _ key sb) as [[ob2 s4]|] eqn:W; [|discriminate].
  unfold bind at 1.
  destruct (obfs_headers ip_send_check udp_checksum m1 n s4) as [[m2 s5]|] eqn:Hd; [|discriminate].
  unfold ret. intros H. injection H as <- <- <-.
  exists n, m1, s4.
  split.
  { unfold bind at 1. rewrite E. unfold bind at 1. rewrite G.
    cbn [fst snd]. change (negb true) with false. cbv iota.
    unfold bind. rewrite W. reflexivity. }
  split; [exact P|]. split; [exact Hd|]. split; [reflexivity|].
  apply get_random_insert_spec in G.
  destruct G as (_ & Hn & _).
  destruct (200 <? len); unfold MAX_RND_LEN, MIN_RND_LEN in *; lia.
Qed.

Lemma xt_obfs_skb_drop (key : list Z) (h : host) (ob : obfs_buf)
  (fuel : nat) (m m' : skb_meta) (s s' : machine) :
  xt_obfs_skb ip_send_check udp_checksum key h ob fuel m s = Some ((NF_DROP, m'), s') ->
  m' = m /\ pkt s' = pkt s.
Proof.
  unfold xt_obfs_skb. unfold bind at 1.
  set (len := udph_len m - UDPHDR_SIZE).
  destruct (random_drop_spec len key s) as (t & E). rewrite E.
  destruct (_ && _).
  { unfold ret. intros H. injection H as <- <-. split; reflexivity. }
  unfold bind at 1.
  destruct (get_random_insert fuel MIN_RND_LEN _ _) as [[[n buf] sb]|] eqn:G;
    [|discriminate].
  cbn [fst snd].
  apply get_random_insert_spec in G. destruct G as (_ & _ & _ & Psb).
  cbn [pkt] in Psb.
  destruct (prepare_skb_for_insert h m n) as [m1|] eqn:P.
  - unfold bind at 1.
    destruct (obfs_wg len _ key sb) as [[ob2 s4]|]; [|discriminate].
    unfold bind at 1.
    destruct (obfs_headers ip_send_check udp_checksum m1 n s4) as [[m2 s5]|]; [|discriminate].
    unfold ret. discriminate.
  - unfold ret. intros H. injection H as <- <-. split; [reflexivity|exact Psb].
Qed.

(** X15.  What [xt_obfs] does to the headers.  A dropped packet has headers
    and payload as before the call.  For a packet that goes on, one number
    [n] between 4 and 32 has been added to the IP total length, to the UDP
    length (both modulo 2^16) and to the length and tail of the socket
    buffer; tos is 0 and [ip_summed] is not CHECKSUM_PARTIAL; and the two
    checksums stored are those of the headers and of the payload as they
    leave the function. *)
Theorem xt_obfs_skb_headers (key : list Z) (h : host) (ob : obfs_buf)
  (fuel : nat) (m m' : skb_meta) (v : verdict) (s s' : machine) :
  xt_obfs_skb ip_send_check udp_checksum key h ob fuel m s = Some ((v, m'), s') ->
  match v with
  | NF_DROP => m' = m /\ pkt s' = pkt s
  | XT_CONTINUE l =>
      exists n, MIN_RND_LEN <= n <= MAX_RND_LEN
        /\ iph_tos m' = 0
        /\ iph_tot_len m' = u16 (iph_tot_len m + n)
        /\ udph_len m' = u16 (udph_len m + n)
        /\ skb_len m' = skb_len m + n
        /\ skb_tail m' = skb_tail m + n
        /\ ip_summed m' <> CHECKSUM_PARTIAL
        /\ iph_protocol m' = iph_protocol m
        /\ iph_check m'
           = ip_send_check (iph_protocol m') (iph_tos m') (iph_tot_len m')
        /\ udph_check m'
           = udp_checksum (udph_len m')
                          (payload s' (udph_len m' - UDPHDR_SIZE))
        /\ l = udph_len m' - UDPHDR_SIZE
  end.
Proof.
  intros E. destruct v as [|l].
  - exact (xt_obfs_skb_drop _ _ _ _ _ _ _ _ E).
  - apply xt_obfs_skb_continue in E.
    destruct E as (n & m1 & s0 & _ & P & Hd & Hl & Hn).
    apply prepare_skb_for_insert_some in P.
    destruct P as (P1 & P2 & _ & P4 & P5 & P6 & P7 & P8).
    destruct (obfs_headers_spec m1 n s0)
      as (m2 & t & E2 & A1 & A2 & A3 & A4 & A5 & A6 & A7 & A8 & A9 & _).
    rewrite E2 in Hd. injection Hd as <- <-.
    exists n. split; [exact Hn|].
    split; [exact A2|].
    split; [rewrite A3, P6; reflexivity|].
    split; [rewrite A5, P7; reflexivity|].
    split; [rewrite A8; exact P1|].
    split; [rewrite A9; exact P2|].
    split.
    { rewrite A7. unfold CHECKSUM_PARTIAL, CHECKSUM_NONE.
      destruct (Z.eqb_spec (ip_summed m1) 3); [discriminate|assumption]. }
    split; [rewrite A1; exact P4|].
    split; [exact A4|].
    split; [exact A6|exact Hl].
Qed.

Lemma xt_unobfs_skb_spec (key : list Z) (h : host) (m : skb_meta)
  (s : machine) :
  h_writable h = true ->
  exists v m' s',
    xt_unobfs_skb ip_send_check udp_checksum key h m s = Some ((v, m'), s')
    /\ (exists s0, xt_unobfs key true (udph_len m - UDPHDR_SIZE) s
                   = Some (match v with
                           | NF_DROP => NF_DROP
                           | XT_CONTINUE _ =>
                               XT_CONTINUE
                                 (udph_len m - UDPHDR_SIZE
                                  - recovered_len key s
                                      (udph_len m - UDPHDR_SIZE))
                           end, s0)
                   /\ pkt s' = pkt s0)
    /\ match v with
       | NF_DROP => m' = m
       | XT_CONTINUE l =>
           let n := recovered_len key s (udph_len m - UDPHDR_SIZE) in
           l = udph_len m' - UDPHDR_SIZE
           /\ iph_protocol m' = iph_protocol m
           /\ iph_tos m' = iph_tos m
           /\ iph_tot_len m' = u16 (iph_tot_len m - n)
           /\ iph_check m'
              = ip_send_check (iph_protocol m') (iph_tos m') (iph_tot_len m')
           /\ udph_len m' = u16 (udph_len m - n)
           /\ udph_check m'
              = udp_checksum (udph_len m')
                             (payload s' (udph_len m' - UDPHDR_SIZE))
           /\ ip_summed m' = ip_summed m
           /\ skb_len m' = skb_len m - n
           /\ skb_tail m' = skb_tail m - n
           /\ skb_end m' = skb_end m
       end.
Proof.
  intros Hw. unfold xt_unobfs_skb, xt_unobfs. rewrite Hw.
  change (negb true) with false. cbv iota.
  set (len := udph_len m - UDPHDR_SIZE).
  destruct (len <? MIN_RND_LEN).
  { exists NF_DROP, m, s. split; [reflexivity|]. split; [|reflexivity].
    exists s. split; reflexivity. }
  destruct (restore_wg_spec len key s) as (s1 & E & _ & _).
  pose proof (recovered_len_range key s len) as Hn.
  unfold bind at 1. unfold bind at 2. rewrite E.
  destruct (len <? recovered_len key s len + WG_MIN_LEN).
  { change (-1 <? 0) with true. cbv iota.
    exists NF_DROP, m, s1. split; [reflexivity|]. split; [|reflexivity].
    exists s1. split; reflexivity. }
  replace (recovered_len key s len <? 0) with false
    by (symmetry; apply Z.ltb_ge; lia).
  cbv iota.
  destruct (unobfs_headers_spec m (recovered_len key s len) s1)
    as (m2 & t & E2 & A).
  unfold bind. rewrite E2. unfold ret.
  exists (XT_CONTINUE (udph_len m2 - UDPHDR_SIZE)), m2,
         (Machine (pkt s1) (draws s1) t).
  split; [reflexivity|]. split.
  - exists s1. split; reflexivity.
  - cbv zeta. split; [reflexivity|].
    destruct A as (A1 & A2 & A3 & A4 & A5 & A6 & A7 & A8 & A9 & A10).
    repeat split; assumption.
Qed.



(** X17.  [xt_wg_obfs_target].  A packet that is not UDP, or a rule whose
    mode is neither of the two, leaves headers, payload and trace as they
    are.  And the two modes undo each other: when a rule in mode OBFS lets a
    supported message with an unambiguous tag go on (the slot [ob.rnd_len]
    holding the length added, and the UDP length not wrapping), a rule in
    mode UNOBFS on a writable UDP packet with the UDP length and payload
    that left the first gives back the UDP length and the payload of the
    message, and takes the added length from the total length and from the
    socket buffer. *)
Theorem xt_wg_obfs_target_modes (key : list Z) (ob : obfs_buf) (fuel : nat) :
  (forall mode h m s,
      iph_protocol m <> IPPROTO_UDP
      \/ (mode <> XT_MODE_OBFS /\ mode <> XT_MODE_UNOBFS) ->
      xt_wg_obfs_target XT_MODE_OBFS XT_MODE_UNOBFS ip_send_check udp_checksum
                        mode key h ob fuel m s
      = Some ((XT_CONTINUE (udph_len m - UDPHDR_SIZE), m), s))
  /\ (XT_MODE_OBFS <> XT_MODE_UNOBFS ->
      forall h hr m m' mr l s s' sr obr fuelr,
        iph_protocol m = IPPROTO_UDP ->
        udph_len m + MAX_RND_LEN < 65536 ->
        supported (pkt s 0) (udph_len m - UDPHDR_SIZE) ->
        (forall j, 0 <= j < 16 -> is_u8 (pkt s j)) ->
        (forall off, randomizes s (udph_len m - UDPHDR_SIZE) = Some off ->
                     forall j, off <= j < off + 16 -> pkt s j = 0) ->
        xt_wg_obfs_target XT_MODE_OBFS XT_MODE_UNOBFS ip_send_check
                          udp_checksum XT_MODE_OBFS key h ob fuel m s
        = Some ((XT_CONTINUE l, m'), s') ->
        rnd_len ob = udph_len m' - udph_len m ->
        iph_protocol mr = IPPROTO_UDP ->
        h_writable hr = true ->
        udph_len mr = udph_len m' ->
        (forall j, 0 <= j < udph_len m' - UDPHDR_SIZE ->
                   pkt sr j = pkt s' j) ->
        exists mr' sr',
          xt_wg_obfs_target XT_MODE_OBFS XT_MODE_UNOBFS ip_send_check
                            udp_checksum XT_MODE_UNOBFS key hr obr fuelr mr sr
          = Some ((XT_CONTINUE (udph_len m - UDPHDR_SIZE), mr'), sr')
          /\ udph_len mr' = udph_len m
          /\ iph_tot_len mr'
             = u16 (iph_tot_len mr - (udph_len m' - udph_len m))
          /\ skb_len mr' = skb_len mr - (udph_len m' - udph_len m)
          /\ skb_tail mr' = skb_tail mr - (udph_len m' - udph_len m)
          /\ forall j, 0 <= j < udph_len m - UDPHDR_SIZE ->
                       pkt sr' j = pkt s j).
Proof.
  split.
  - intros mode h m s H. unfold xt_wg_obfs_target.
    destruct (Z.eqb_spec (iph_protocol m) IPPROTO_UDP) as [Ep|Ep];
      [|reflexivity].
    destruct H as [H|[H1 H2]]; [contradiction|].
    change (negb true) with false. cbv iota.
    destruct (Z.eqb_spec mode XT_MODE_OBFS); [contradiction|].
    destruct (Z.eqb_spec mode XT_MODE_UNOBFS); [contradiction|].
    reflexivity.
  - intros Hmodes h hr m m' mr l s s' sr obr fuelr
           Hp Hwrap Hsup Hu8 Htag E Hslot Hpr Hw Hlen Hpay.
    assert (H32 : 32 <= udph_len m - UDPHDR_SIZE).
    { unfold supported in Hsup. lia. }
    unfold xt_wg_obfs_target in E. rewrite Hp in E.
    change (negb (IPPROTO_UDP =? IPPROTO_UDP)) with false in E.
    cbv iota in E. rewrite Z.eqb_refl in E.
    apply xt_obfs_skb_continue in E.
    destruct E as (n & m1 & s0 & X & P & Hd & _ & Hn).
    apply prepare_skb_for_insert_some in P.
    destruct P as (_ & _ & _ & _ & _ & _ & P7 & _).
    destruct (obfs_headers_spec m1 n s0)
      as (m2 & t & E2 & _ & _ & _ & _ & A5 & _).
    rewrite E2 in Hd. injection Hd as <- <-.
    cbn [pkt] in Hpay.
    assert (Hul : udph_len m2 = udph_len m + n).
    { rewrite A5, P7. unfold u16. apply Z.mod_small.
      unfold UDPHDR_SIZE, MAX_RND_LEN, MIN_RND_LEN in *. lia. }
    rewrite Hul in *.
    replace (udph_len m + n - udph_len m) with n in * by lia.
    assert (Hpay' : forall j, 0 <= j < udph_len m - UDPHDR_SIZE + n ->
                              pkt sr j = pkt s0 j).
    { intros j Hj. apply Hpay. lia. }
    destruct (roundtrip_core key true ob fuel (udph_len m - UDPHDR_SIZE)
                (udph_len m - UDPHDR_SIZE + n) s s0 sr Hsup Hu8 Htag X
                ltac:(lia) Hpay') as (s2 & U & R).
    unfold xt_wg_obfs_target. rewrite Hpr.
    change (negb (IPPROTO_UDP =? IPPROTO_UDP)) with false. cbv iota.
    destruct (Z.eqb_spec XT_MODE_UNOBFS XT_MODE_OBFS) as [Em|_];
      [symmetry in Em; contradiction|].
    rewrite Z.eqb_refl.
    destruct (xt_unobfs_skb_spec key hr mr sr Hw)
      as (v & mr' & sr' & E3 & (s3 & U3 & Ps) & F).
    rewrite Hlen in U3, F.
    replace (udph_len m + n - UDPHDR_SIZE)
      with (udph_len m - UDPHDR_SIZE + n) in U3, F by lia.
    rewrite U in U3.
    destruct v as [|l']; [discriminate U3|].
    injection U3 as Hrec <-.
    assert (Hrec' : recovered_len key sr (udph_len m - UDPHDR_SIZE + n) = n)
      by lia.
    cbv zeta in F. rewrite Hrec' in F.
    destruct F as (F0 & _ & _ & F3 & _ & F5 & _ & _ & F8 & F9 & _).
    assert (Hback : udph_len mr' = udph_len m).
    { rewrite F5. replace (udph_len m + n - n) with (udph_len m) by lia.
      unfold u16. apply Z.mod_small.
      unfold UDPHDR_SIZE, MAX_RND_LEN in *. lia. }
    exists mr', sr'. split.
    { rewrite E3, F0, Hback. reflexivity. }
    split; [exact Hback|]. split; [exact F3|].
    split; [exact F8|]. split; [exact F9|].
    intros j Hj. rewrite Ps. apply R. exact Hj.
Qed.

End HeaderFacts.

End WGObfs.

(** ** The random length selector *)

(** C9.  For [1 <= min <= max <= 255], whatever [get_random_insert] returns
    lies in [min, max] and is not 0; it returns on every entropy stream one
    of whose blocks, from the next draw on, has a byte in [min, max]; and no
    number of draws is enough for all such streams. *)
Theorem get_random_insert_sound_and_live (lo hi : Z) :
  1 <= lo <= hi -> hi <= 255 ->
  (forall entropy fuel s r buf s',
     get_random_insert entropy fuel lo hi s = Some ((r, buf), s') ->
     lo <= r <= hi /\ r <> 0)
  /\ (forall entropy s n i,
        (i < 32)%nat -> lo <= entropy (draws s + n)%nat i <= hi ->
        exists fuel r buf s',
          get_random_insert entropy fuel lo hi s = Some ((r, buf), s'))
  /\ (forall fuel s,
        exists entropy,
          (exists n i, (i < 32)%nat
                       /\ lo <= entropy (draws s + n)%nat i <= hi)
          /\ get_random_insert entropy fuel lo hi s = None).
Proof.
  intros Hlo Hhi. split; [|split].
  - intros entropy fuel s r buf s' E.
    apply get_random_insert_spec in E. lia.
  - intros entropy s n i Hi Hhit.
    apply (get_random_insert_terminates entropy lo hi n i); [lia|exact Hi|].
    exact Hhit.
  - intros fuel s.
    exists (fun d _ => if (d <? draws s + fuel)%nat then 0 else lo).
    split.
    + exists fuel, O. split; [lia|].
      destruct (Nat.ltb_spec (draws s + fuel) (draws s + fuel)); lia.
    + apply get_random_insert_starves. intros d i Hd _.
      destruct (Nat.ltb_spec d (draws s + fuel)); lia.
Qed.

(** ** Worked examples *)

Lemma Forall_is_u8_check (m : list Z) :
  forallb (fun x => (0 <=? x) && (x <? 256)) m = true -> Forall is_u8 m.
Proof.
  rewrite forallb_forall, Forall_forall. intros H x Hx.
  specialize (H x Hx). apply andb_true_iff in H. destruct H as (H1 & H2).
  apply Z.leb_le in H1. apply Z.ltb_lt in H2. split; assumption.
Qed.

(** The scenario of the spec: a 148-byte initiation with an all-zero tag and
    padding length 10 becomes a 158-byte datagram which, received in a buffer
    of its own, decodes to the initiation. *)
Lemma decode_encode_roundtrip_witness :
  exists s'',
    xt_unobfs demo_chacha8 demo_key true 158
      (boot (payload
               (state_of (xt_obfs demo_chacha8 demo_entropy demo_key true
                                  (demo_ob 10) 5 148 (boot demo_init 0)))
               158) 77)
    = Some (XT_CONTINUE (Z.of_nat (length demo_init)), s'')
    /\ payload s'' (Z.of_nat (length demo_init)) = demo_init.
Proof.
  apply (decode_encode_roundtrip demo_chacha8 demo_entropy demo_key true
           (demo_ob 10) 5 demo_init 158 (boot demo_init 0)
           (state_of (xt_obfs demo_chacha8 demo_entropy demo_key true
                              (demo_ob 10) 5 148 (boot demo_init 0)))).
  - vm_compute. reflexivity.
  - apply Forall_is_u8_check. vm_compute. reflexivity.
  - left. split; reflexivity.
  - split; [|discriminate]. intros _. left. intros i Hi.
    do 16 (destruct i as [|i]; [reflexivity|]). lia.
  - vm_compute. reflexivity.
  - reflexivity.
  - vm_compute. reflexivity.
Defined.

(** C1 as stated fails: an initiation whose tag starts with four zero bytes
    and goes on with a non-zero byte comes back with an all-zero tag. *)
Lemma roundtrip_loses_ambiguous_tag :
  Forall is_u8 demo_init_partial
  /\ supported (nth 0 demo_init_partial 0)
               (Z.of_nat (length demo_init_partial))
  /\ exists s' s'',
       xt_obfs demo_chacha8 demo_entropy demo_key true (demo_ob 10) 5 148
               (boot demo_init_partial 0) = Some (XT_CONTINUE 158, s')
       /\ xt_unobfs demo_chacha8 demo_key true 158
                    (boot (payload s' 158) 77)
          = Some (XT_CONTINUE 148, s'')
       /\ payload s'' 148 <> demo_init_partial.
Proof.
  split; [apply Forall_is_u8_check; vm_compute; reflexivity|].
  split; [left; split; reflexivity|].
  exists (state_of (xt_obfs demo_chacha8 demo_entropy demo_key true
                            (demo_ob 10) 5 148 (boot demo_init_partial 0))).
  exists (state_of (xt_unobfs demo_chacha8 demo_key true 158
            (boot (payload
              (state_of (xt_obfs demo_chacha8 demo_entropy demo_key true
                           (demo_ob 10) 5 148 (boot demo_init_partial 0)))
              158) 77))).
  split; [vm_compute; reflexivity|].
  split; [vm_compute; reflexivity|].
  intros H. apply (f_equal (fun l => nth 136 l 0)) in H.
  vm_compute in H. discriminate H.
Qed.

(** C2 as stated fails: a 40-byte buffer with type byte 5 is Unknown, yet
    [xt_obfs] emits it 10 bytes longer and with other bytes. *)
Lemma unknown_buffer_is_encoded :
  spec_unknown (nth 0 demo_unknown 0) 40
  /\ exists s',
       xt_obfs demo_chacha8 demo_entropy demo_key true (demo_ob 10) 5 40
               (boot demo_unknown 0) = Some (XT_CONTINUE 50, s')
       /\ payload s' 40 <> demo_unknown
       /\ payload s' 50 <> demo_unknown.
Proof.
  split.
  - unfold spec_unknown, WG_HANDSHAKE_INIT, WG_HANDSHAKE_RESP, WG_COOKIE,
      WG_DATA. simpl. lia.
  - exists (state_of (xt_obfs demo_chacha8 demo_entropy demo_key true
                              (demo_ob 10) 5 40 (boot demo_unknown 0))).
    split; [vm_compute; reflexivity|].
    split; intros H; apply (f_equal (fun l => nth 0 l 0)) in H;
      vm_compute in H; discriminate H.
Qed.

(** The 40-byte buffer with type byte 5 is Unknown, and [obfs_mac2] leaves
    it alone. *)
Lemma short_or_unknown_is_still_transformed_witness :
  exists s1,
    obfs_mac2 demo_chacha8 40 (demo_ob 10) demo_key (boot demo_unknown 0)
    = Some (demo_ob 10, s1)
    /\ forall j, pkt s1 j = pkt (boot demo_unknown 0) j.
Proof.
  refine (proj1 (short_or_unknown_is_still_transformed demo_chacha8
                   demo_entropy demo_key (demo_ob 10) 5 40
                   (boot demo_unknown 0) _)).
  right. unfold spec_unknown, WG_HANDSHAKE_INIT, WG_HANDSHAKE_RESP,
    WG_COOKIE, WG_DATA. simpl. lia.
Defined.

(** C3 as stated fails: 36 bytes whose recovered padding length is 76 are
    dropped, and byte 0 of the buffer is 76 afterwards, not 1. *)
Lemma dropped_datagram_is_altered :
  recovered_len demo_chacha8 demo_key (boot demo_truncated 0) 36 + 32 > 36
  /\ exists s',
       xt_unobfs demo_chacha8 demo_key true 36 (boot demo_truncated 0)
       = Some (NF_DROP, s')
       /\ payload s' 36 <> payload (boot demo_truncated 0) 36.
Proof.
  split; [vm_compute; reflexivity|].
  exists (state_of (xt_unobfs demo_chacha8 demo_key true 36
                              (boot demo_truncated 0))).
  split; [vm_compute; reflexivity|].
  intros H. apply (f_equal (fun l => nth 0 l 0)) in H.
  vm_compute in H. discriminate H.
Qed.

(** C4 fails on a 4-byte datagram: it passes the length test of
    [xt_unobfs], and [restore_wg] then reads its keystream seed from the
    offsets -4..3, four bytes before the datagram.  The offsets read are
    listed newest first: the seed, then byte 0 twice. *)
Lemma restore_wg_reads_before_datagram :
  exists v s',
    xt_unobfs demo_chacha8 demo_key true 4 (boot [1; 2; 3; 4] 9)
    = Some (v, s')
    /\ loads (trace s') = [0; 0; 3; 2; 1; 0; -1; -2; -3; -4].
Proof.
  exists NF_DROP.
  exists (state_of (xt_unobfs demo_chacha8 demo_key true 4
                              (boot [1; 2; 3; 4] 9))).
  split; vm_compute; reflexivity.
Qed.

(** A 240-byte data message grows by 7, the first byte of the block in
    4..8. *)
Lemma xt_obfs_grows_by_selected_length_witness :
  exists n buf s0 s1,
    pkt s0 = pkt (boot demo_big 0) /\ draws s0 = draws (boot demo_big 0)
    /\ get_random_insert demo_entropy 5 MIN_RND_LEN
         (if 200 <? 240 then 8 else MAX_RND_LEN) s0 = Some ((n, buf), s1)
    /\ 247 = 240 + n
    /\ 4 <= n <= 32
    /\ (200 < 240 -> n <= 8).
Proof.
  apply (xt_obfs_grows_by_selected_length demo_chacha8 demo_entropy demo_key
           true (demo_ob 7) 5 240 247 (boot demo_big 0)
           (state_of (xt_obfs demo_chacha8 demo_entropy demo_key true
                              (demo_ob 7) 5 240 (boot demo_big 0)))).
  vm_compute. reflexivity.
Defined.

(** An initiation that carries a cookie keeps it. *)
Lemma obfs_mac2_idempotent_witness :
  exists s',
    obfs_mac2 demo_chacha8 148 (demo_ob 10) demo_key
              (boot demo_init_cookie 0) = Some (demo_ob 10, s')
    /\ forall j, pkt s' j = pkt (boot demo_init_cookie 0) j.
Proof.
  refine (proj1 (obfs_mac2_idempotent demo_chacha8 148 (demo_ob 10) demo_key
                   (boot demo_init_cookie 0)) _).
  left. split; [reflexivity|]. split; [reflexivity|].
  unfold tag_head_zero. vm_compute. intros (H & _). discriminate H.
Defined.

(** C8 fails when the stack slot of [ob.rnd_len] holds 0 while the selector
    returns 10: the 33-byte data message is masked where it stands, nothing is
    put before it, and the 43 bytes of the datagram end in 10 bytes of
    whatever the buffer held. *)
Lemma obfs_wg_uses_unset_rnd_len :
  exists s',
    xt_obfs demo_chacha8 demo_entropy demo_key true (demo_ob 0) 5 33
            (boot demo_data 0) = Some (XT_CONTINUE 43, s')
    /\ skipn (10 + 16) (payload s' 43) <> skipn 16 demo_data
    /\ skipn 16 (payload s' 33) = skipn 16 demo_data.
Proof.
  exists (state_of (xt_obfs demo_chacha8 demo_entropy demo_key true
                            (demo_ob 0) 5 33 (boot demo_data 0))).
  split; [vm_compute; reflexivity|].
  split; [|vm_compute; reflexivity].
  intros H. apply (f_equal (fun l => nth 0 l 0)) in H.
  vm_compute in H. discriminate H.
Qed.

(** The selector returns on the example stream, whose second block has a
    byte in 4..32. *)
Lemma get_random_insert_sound_and_live_witness :
  exists fuel r buf s',
    get_random_insert demo_entropy fuel 4 32 (boot [] 0)
    = Some ((r, buf), s').
Proof.
  refine (proj1 (proj2 (get_random_insert_sound_and_live 4 32 _ _))
                demo_entropy (boot [] 0) 1%nat 2%nat _ _).
  - lia.
  - lia.
  - lia.
  - vm_compute. split; discriminate.
Defined.

(** A datagram whose recovered padding length is 0 is accepted, and nothing
    is stripped. *)
Lemma xt_unobfs_accepts_any_fitting_length_witness :
  recovered_len demo_chacha8 demo_key (boot demo_zero_prefix 0) 40 = 0
  /\ exists s',
       xt_unobfs demo_chacha8 demo_key true 40 (boot demo_zero_prefix 0)
       = Some (XT_CONTINUE 40, s').
Proof.
  split; [vm_compute; reflexivity|].
  destruct (xt_unobfs_accepts_any_fitting_length demo_chacha8 demo_key 40
              (boot demo_zero_prefix 0)) as (_ & s' & E & _).
  - lia.
  - vm_compute. discriminate.
  - exists s'. exact E.
Defined.


(** ** Worked examples for the further properties *)

Lemma range_check (p : Z -> bool) (lo : Z) (n : nat) :
  forallb p (offsets lo n) = true ->
  forall j, lo <= j < lo + Z.of_nat n -> p j = true.
Proof.
  rewrite forallb_forall. intros H j Hj. apply H. unfold offsets.
  apply in_map_iff. exists (Z.to_nat (j - lo)). split; [lia|].
  apply in_seq. lia.
Qed.

(** Without room to grow, a 33-byte data message is dropped and its buffer is
    as it was. *)
Lemma xt_obfs_drops_exactly_and_untouched_witness :
  exists s',
    xt_obfs demo_chacha8 demo_entropy demo_key false (demo_ob 10) 5 33
            (boot demo_data 0) = Some (NF_DROP, s')
    /\ pkt s' = pkt (boot demo_data 0)
    /\ writes_within 0 0 (boot demo_data 0) s'.
Proof.
  pose (r := xt_obfs demo_chacha8 demo_entropy demo_key false (demo_ob 10) 5
                     33 (boot demo_data 0)).
  assert (E : r = Some (NF_DROP, state_of r)) by (vm_compute; reflexivity).
  exists (state_of r). split; [exact E|].
  exact (proj2 (xt_obfs_drops_exactly_and_untouched
                  demo_chacha8 demo_entropy demo_key false (demo_ob 10) 5 33
                  (boot demo_data 0) (state_of r) NF_DROP E) eq_refl).
Defined.

(** The initiation grown by 10: every write is in the 158 bytes. *)
Lemma xt_obfs_writes_inside_datagram_witness :
  exists s',
    xt_obfs demo_chacha8 demo_entropy demo_key true (demo_ob 10) 5 148
            (boot demo_init 0) = Some (XT_CONTINUE 158, s')
    /\ writes_within 0 158 (boot demo_init 0) s'.
Proof.
  pose (r := xt_obfs demo_chacha8 demo_entropy demo_key true (demo_ob 10) 5
                     148 (boot demo_init 0)).
  assert (E : r = Some (XT_CONTINUE 158, state_of r))
    by (vm_compute; reflexivity).
  assert (H16 : 16 <= 148) by lia.
  assert (H0 : 0 <= rnd_len (demo_ob 10)) by (simpl; lia).
  exists (state_of r). split; [exact E|].
  exact (proj2 (xt_obfs_writes_inside_datagram
                  demo_chacha8 demo_entropy demo_key true (demo_ob 10) 5 148
                  (boot demo_init 0) (state_of r) (XT_CONTINUE 158)
                  H16 H0 E) 158 eq_refl eq_refl).
Defined.

(** A 4-byte payload: offsets 0..15 are written all the same. *)
Lemma xt_obfs_masks_16_bytes_whatever_length_witness :
  exists s',
    xt_obfs demo_chacha8 demo_entropy demo_key true (demo_ob 10) 5 4
            (boot [1; 2; 3; 4] 9) = Some (XT_CONTINUE 14, s')
    /\ exists t, trace s' = t ++ trace (boot [1; 2; 3; 4] 9)
                 /\ forall k, 0 <= k < 16 -> In (EvStore k) t.
Proof.
  pose (r := xt_obfs demo_chacha8 demo_entropy demo_key true (demo_ob 10) 5
                     4 (boot [1; 2; 3; 4] 9)).
  assert (E : r = Some (XT_CONTINUE 14, state_of r))
    by (vm_compute; reflexivity).
  exists (state_of r). split; [exact E|].
  exact (xt_obfs_masks_16_bytes_whatever_length
           demo_chacha8 demo_entropy demo_key true (demo_ob 10) 5 4 14
           (boot [1; 2; 3; 4] 9) (state_of r) E).
Defined.

(** The 33-byte data message behind a prefix of 10 bytes. *)
Lemma xt_obfs_wire_format_witness :
  exists s',
    xt_obfs demo_chacha8 demo_entropy demo_key true (demo_ob 10) 5 33
            (boot demo_data 0) = Some (XT_CONTINUE 43, s')
    /\ exists n d,
         43 = 33 + n /\ 4 <= n <= 32 /\ (draws (boot demo_data 0) <= d)%nat
         /\ payload s' 43
            = (u8 (Z.lxor n
                     (nth 16 (mask_keystream demo_chacha8 (boot demo_data 0)
                                             33 demo_key) 0))
               :: map (demo_entropy d) (seq 1 (Z.to_nat n - 1)))
              ++ map (masked
                        (after_mac2 demo_chacha8 (boot demo_data 0) 33
                                    demo_key)
                        (mask_keystream demo_chacha8 (boot demo_data 0) 33
                                        demo_key))
                     (offsets 0 (Z.to_nat 33)).
Proof.
  pose (r := xt_obfs demo_chacha8 demo_entropy demo_key true (demo_ob 10) 5
                     33 (boot demo_data 0)).
  assert (E : r = Some (XT_CONTINUE 43, state_of r))
    by (vm_compute; reflexivity).
  assert (H16 : 16 <= 33) by lia.
  exists (state_of r). split; [exact E|].
  exact (xt_obfs_wire_format
           demo_chacha8 demo_entropy demo_key true (demo_ob 10) 5 33 43
           (boot demo_data 0) (state_of r) H16 E eq_refl).
Defined.

(** The receiver of those 43 bytes recovers the length 10. *)
Lemma xt_obfs_length_byte_decodes_witness :
  exists s',
    xt_obfs demo_chacha8 demo_entropy demo_key true (demo_ob 10) 5 33
            (boot demo_data 0) = Some (XT_CONTINUE 43, s')
    /\ recovered_len demo_chacha8 demo_key (boot (payload s' 43) 77) 43
       = 43 - 33.
Proof.
  pose (r := xt_obfs demo_chacha8 demo_entropy demo_key true (demo_ob 10) 5
                     33 (boot demo_data 0)).
  assert (E : r = Some (XT_CONTINUE 43, state_of r))
    by (vm_compute; reflexivity).
  assert (H24 : 24 <= 33) by lia.
  assert (P : payload (boot (payload (state_of r) 43) 77) 43
              = payload (state_of r) 43) by (vm_compute; reflexivity).
  exists (state_of r). split; [exact E|].
  exact (xt_obfs_length_byte_decodes
           demo_chacha8 demo_entropy demo_key true (demo_ob 10) 5 33 43
           (boot demo_data 0) (state_of r)
           (boot (payload (state_of r) 43) 77) H24 E eq_refl P).
Defined.

(** The initiation with an all-zero tag is marked 0x11 and its tag filled. *)
Lemma obfs_mac2_fills_empty_tag_witness :
  exists s',
    obfs_mac2 demo_chacha8 148 (demo_ob 10) demo_key (boot demo_init 0)
    = Some (ObfsBuf (rnd (demo_ob 10))
                    (demo_chacha8 (bytes_at (boot demo_init 0) 8 8) demo_key)
                    (rnd_len (demo_ob 10)), s')
    /\ pkt s' 0 = 0x11
    /\ forall j, 132 <= j < 148 ->
         pkt s' j
         = nth (Z.to_nat (j - 132))
               (demo_chacha8 (bytes_at (boot demo_init 0) 8 8) demo_key) 0.
Proof.
  assert (H : (pkt (boot demo_init 0) 0 = WG_HANDSHAKE_INIT /\ 148 = 148
               /\ HSI_MAC2 = HSI_MAC2)
              \/ (pkt (boot demo_init 0) 0 = WG_HANDSHAKE_RESP /\ 148 = 92
                  /\ HSI_MAC2 = HSR_MAC2)).
  { left. repeat split. }
  assert (T : tag_head_zero (boot demo_init 0) HSI_MAC2).
  { repeat split. }
  destruct (obfs_mac2_fills_empty_tag demo_chacha8 148 (demo_ob 10) demo_key
              (boot demo_init 0) HSI_MAC2 H T) as (s' & E & M & G & _).
  exists s'. split; [exact E|]. split; [exact M|exact G].
Defined.

(** The initiation after [obfs_mac2] and [restore_mac2] is the initiation. *)
Lemma restore_mac2_inverts_obfs_mac2_witness :
  exists ob1 s1 s2,
    obfs_mac2 demo_chacha8 148 (demo_ob 10) demo_key (boot demo_init 0)
    = Some (ob1, s1)
    /\ restore_mac2 s1 = Some (tt, s2)
    /\ forall j, pkt s2 j = pkt (boot demo_init 0) j.
Proof.
  apply (restore_mac2_inverts_obfs_mac2 demo_chacha8 148 (demo_ob 10)
           demo_key (boot demo_init 0)).
  - change (pkt (boot demo_init 0) 0) with 1. lia.
  - intros off H. vm_compute in H. injection H as <-.
    intros j Hj. apply Z.eqb_eq.
    apply (range_check (fun j => pkt (boot demo_init 0) j =? 0) 132 16);
      [vm_compute; reflexivity|lia].
Defined.

(** 40 bytes that carry no padding come out as a message of 40 bytes. *)
Lemma xt_unobfs_output_bounds_witness :
  exists s',
    xt_unobfs demo_chacha8 demo_key true 40 (boot demo_zero_prefix 0)
    = Some (XT_CONTINUE 40, s')
    /\ true = true /\ 32 <= 40 <= 40 /\ 40 - 40 <= 255
    /\ 0 <= pkt s' 0 <= 15.
Proof.
  pose (r := xt_unobfs demo_chacha8 demo_key true 40
                       (boot demo_zero_prefix 0)).
  assert (E : r = Some (XT_CONTINUE 40, state_of r))
    by (vm_compute; reflexivity).
  exists (state_of r). split; [exact E|].
  exact (xt_unobfs_output_bounds demo_chacha8 demo_key true 40 40
           (boot demo_zero_prefix 0) (state_of r) E).
Defined.

(** A 40-byte datagram whose message starts with 0x11: offsets 132..147,
    beyond the datagram, are zeroed. *)
Lemma xt_unobfs_zeroes_tag_whatever_length_witness :
  exists s',
    xt_unobfs demo_chacha8 demo_key true 40 (boot demo_marked 1)
    = Some (XT_CONTINUE
              (40 - recovered_len demo_chacha8 demo_key (boot demo_marked 1)
                                  40), s')
    /\ forall j, HSI_MAC2 <= j < HSI_MAC2 + 16 -> pkt s' j = 0.
Proof.
  assert (R : recovered_len demo_chacha8 demo_key (boot demo_marked 1) 40 = 4)
    by (vm_compute; reflexivity).
  apply (xt_unobfs_zeroes_tag_whatever_length demo_chacha8 demo_key 40
           (boot demo_marked 1) HSI_MAC2).
  - lia.
  - rewrite R. lia.
  - left. split; vm_compute; reflexivity.
Defined.

(** Decoding 40 bytes reads no byte outside them. *)
Lemma reads_xt_unobfs_witness :
  exists s',
    xt_unobfs demo_chacha8 demo_key true 40 (boot demo_zero_prefix 0)
    = Some (XT_CONTINUE 40, s')
    /\ reads_within 0 40 (boot demo_zero_prefix 0) s'.
Proof.
  pose (r := xt_unobfs demo_chacha8 demo_key true 40
                       (boot demo_zero_prefix 0)).
  assert (E : r = Some (XT_CONTINUE 40, state_of r))
    by (vm_compute; reflexivity).
  assert (H : 40 < 4 \/ 8 <= 40) by lia.
  exists (state_of r). split; [exact E|].
  exact (reads_xt_unobfs demo_chacha8 demo_key true 40
           (boot demo_zero_prefix 0) (state_of r) (XT_CONTINUE 40) H E).
Defined.

(** The first block has no byte in 4..32; in the second, 3 and 33 are passed
    over and 10 is returned. *)
Lemma get_random_insert_first_hit_witness :
  exists s',
    get_random_insert demo_entropy 5 4 32 (boot [] 0)
    = Some ((10, block demo_entropy 1), s')
    /\ draws s' = 2%nat
    /\ pkt s' = pkt (boot [] 0).
Proof.
  apply (get_random_insert_first_hit demo_entropy 4 32 1 2).
  - lia.
  - lia.
  - lia.
  - intros d j Hd Hj [H1 H2]. simpl in Hd.
    assert (D : d = 0%nat) by lia. subst d. simpl in H2. lia.
  - intros j Hj [H1 H2].
    destruct j as [|[|j]]; [simpl in H1; lia|simpl in H2; lia|lia].
  - simpl. lia.
Defined.

(** 10 bytes are asked for and 3 are free: the head is expanded, and the
    data ends inside it. *)
Lemma prepare_skb_for_insert_makes_room_witness :
  (prepare_skb_for_insert demo_host demo_meta 10 = None
   <-> (if skb_tailroom demo_meta <? 10 then h_expand demo_host = false
        else h_writable demo_host = false))
  /\ forall m', prepare_skb_for_insert demo_host demo_meta 10 = Some m' ->
       skb_len m' = skb_len demo_meta + 10
       /\ skb_tail m' = skb_tail demo_meta + 10
       /\ 0 <= skb_tailroom m'
       /\ skb_end demo_meta <= skb_end m'
       /\ iph_tot_len m' = iph_tot_len demo_meta
       /\ udph_len m' = udph_len demo_meta.
Proof.
  apply (prepare_skb_for_insert_makes_room demo_host demo_meta 10).
  simpl. lia.
Defined.

(** The 33-byte data message leaves with tos 0 and lengths 71 and 51. *)
Lemma xt_obfs_skb_headers_witness :
  exists m' s',
    xt_obfs_skb demo_chacha8 demo_entropy demo_ip_check demo_udp_check
                demo_key demo_host (demo_ob 10) 5 demo_meta
                (boot demo_data 0)
    = Some ((XT_CONTINUE 43, m'), s')
    /\ exists n, MIN_RND_LEN <= n <= MAX_RND_LEN
         /\ iph_tos m' = 0
         /\ iph_tot_len m' = u16 (iph_tot_len demo_meta + n)
         /\ udph_len m' = u16 (udph_len demo_meta + n)
         /\ skb_len m' = skb_len demo_meta + n
         /\ skb_tail m' = skb_tail demo_meta + n
         /\ ip_summed m' <> CHECKSUM_PARTIAL
         /\ iph_protocol m' = iph_protocol demo_meta
         /\ iph_check m'
            = demo_ip_check (iph_protocol m') (iph_tos m') (iph_tot_len m')
         /\ udph_check m'
            = demo_udp_check (udph_len m')
                             (payload s' (udph_len m' - UDPHDR_SIZE))
         /\ 43 = udph_len m' - UDPHDR_SIZE.
Proof.
  pose (r := xt_obfs_skb demo_chacha8 demo_entropy demo_ip_check
                         demo_udp_check demo_key demo_host (demo_ob 10) 5
                         demo_meta (boot demo_data 0)).
  assert (E : r = Some ((XT_CONTINUE 43,
                         snd (value_of (NF_DROP, demo_meta) r)), state_of r))
    by (vm_compute; reflexivity).
  exists (snd (value_of (NF_DROP, demo_meta) r)), (state_of r).
  split; [exact E|].
  exact (xt_obfs_skb_headers demo_chacha8 demo_entropy demo_ip_check
           demo_udp_check demo_key demo_host (demo_ob 10) 5 demo_meta
           (snd (value_of (NF_DROP, demo_meta) r)) (XT_CONTINUE 43)
           (boot demo_data 0) (state_of r) E).
Defined.


(** With the modes 0 and 1: the 33-byte data message leaves a rule of mode 0
    as 43 bytes, and a rule of mode 1 on the receiving side gives the 33
    bytes back. *)
Lemma xt_wg_obfs_target_modes_witness :
  exists m' s' mr' sr',
    xt_wg_obfs_target demo_chacha8 demo_entropy 0 1 demo_ip_check
                      demo_udp_check 0 demo_key demo_host (demo_ob 10) 5
                      demo_meta (boot demo_data 0)
    = Some ((XT_CONTINUE 43, m'), s')
    /\ xt_wg_obfs_target demo_chacha8 demo_entropy 0 1 demo_ip_check
                         demo_udp_check 1 demo_key demo_host (demo_ob 0) 0
                         demo_meta_rx (boot (payload s' 43) 77)
       = Some ((XT_CONTINUE 33, mr'), sr')
    /\ udph_len mr' = 41
    /\ forall j, 0 <= j < 33 -> pkt sr' j = pkt (boot demo_data 0) j.
Proof.
  pose (r := xt_wg_obfs_target demo_chacha8 demo_entropy 0 1 demo_ip_check
                               demo_udp_check 0 demo_key demo_host
                               (demo_ob 10) 5 demo_meta (boot demo_data 0)).
  pose (m' := snd (value_of (NF_DROP, demo_meta) r)).
  pose (s' := state_of r).
  assert (E : r = Some ((XT_CONTINUE 43, m'), s'))
    by (vm_compute; reflexivity).
  assert (L : udph_len m' = 51) by (vm_compute; reflexivity).
  assert (Hm : 0 <> 1) by (intros H; discriminate H).
  assert (Hw : udph_len demo_meta + MAX_RND_LEN < 65536)
    by (vm_compute; reflexivity).
  assert (Hs : supported (pkt (boot demo_data 0) 0)
                         (udph_len demo_meta - UDPHDR_SIZE)).
  { right. right. split; [right; reflexivity|vm_compute; discriminate]. }
  assert (Hu : forall j, 0 <= j < 16 -> is_u8 (pkt (boot demo_data 0) j)).
  { intros j Hj.
    pose proof (range_check
                  (fun j => (0 <=? pkt (boot demo_data 0) j)
                            && (pkt (boot demo_data 0) j <? 256)) 0 16
                  ltac:(vm_compute; reflexivity) j ltac:(lia)) as H.
    apply andb_true_iff in H. destruct H as (H1 & H2).
    apply Z.leb_le in H1. apply Z.ltb_lt in H2. split; assumption. }
  assert (Ht : forall off,
             randomizes (boot demo_data 0) (udph_len demo_meta - UDPHDR_SIZE)
             = Some off ->
             forall j, off <= j < off + 16 -> pkt (boot demo_data 0) j = 0).
  { intros off H. vm_compute in H. discriminate H. }
  assert (Hp : forall j, 0 <= j < udph_len m' - UDPHDR_SIZE ->
                         pkt (boot (payload s' 43) 77) j = pkt s' j).
  { intros j Hj. rewrite L in Hj. apply Z.eqb_eq.
    apply (range_check
             (fun j => pkt (boot (payload s' 43) 77) j =? pkt s' j) 0 43);
      [vm_compute; reflexivity|unfold UDPHDR_SIZE in Hj; lia]. }
  destruct (proj2 (xt_wg_obfs_target_modes demo_chacha8 demo_entropy 0 1
                     demo_ip_check demo_udp_check demo_key (demo_ob 10) 5)
              Hm demo_host demo_host demo_meta m' demo_meta_rx 43
              (boot demo_data 0) s' (boot (payload s' 43) 77) (demo_ob 0)
              0%nat eq_refl Hw Hs Hu Ht E eq_refl eq_refl eq_refl
              (eq_sym L) Hp)
    as (mr' & sr' & E' & B & _ & _ & _ & P).
  exists m', s', mr', sr'.
  split; [exact E|]. split; [exact E'|]. split; [exact B|exact P].
Defined.


